(** * Tubely video upload: a shallow embedding of [handlerUploadVideo]

    The development follows the upload handler of the video API
    (the variant with the faststart copy and the aspect-ratio prefix):
    the JavaScript primitives it uses, the two wrappers around the
    external tools ([processVideoForFastStart], [getVideoAspectRatio])
    and the handler itself, written in a monad that threads the local
    file system, the object store, the metadata store and a trace of
    side effects, and that can throw.

    What lies outside the handler's file is kept at its interface:
    authentication and form parsing appear through their outcomes, the
    metadata store as a map from ids to records, the object store as a
    map from keys to objects.  The environment picks the random bytes,
    whether each I/O call succeeds, whether the two tools can be started
    and what they report.  JavaScript numbers are binary64 floats. *)

From Stdlib Require Import ZArith Floats Lia.
From Stdlib.Strings Require Import Ascii String Byte.
From stdpp Require Import gmap strings list.

Local Open Scope Z_scope.
Set Warnings "-register-all,-clear-no-such-hyp".

(** ** JavaScript primitives *)

Module JS.

(** [ToInt32]: wrap an integer into the signed 32-bit range. *)
Definition to_int32 (z : Z) : Z :=
  let m := z mod 2 ^ 32 in
  if 2 ^ 31 <=? m then m - 2 ^ 32 else m.

(** [a << b] on numbers: both operands go through 32 bits, the shift
    count is taken modulo 32. *)
Definition shl (a b : Z) : Z :=
  to_int32 (Z.shiftl (to_int32 a) (Z.land b 31)).

(** [s.indexOf(sub)]: position of the first occurrence, [-1] if none. *)
Definition indexOf (s sub : string) : Z :=
  match String.index 0 sub s with
  | Some i => Z.of_nat i
  | None => -1
  end.

(** [s.slice(start)]: a negative [start] counts from the end. *)
Definition slice (s : string) (start : Z) : string :=
  let len := Z.of_nat (String.length s) in
  let from := if start <? 0 then Z.max (len + start) 0 else Z.min start len in
  String.substring (Z.to_nat from) (Z.to_nat (len - from)) s.

(** The [base64url] alphabet of [Buffer.toString("base64url")]. *)
Definition alphabet : string :=
  "ABCDEFGHIJKLMNOPQRSTUVWXYZabcdefghijklmnopqrstuvwxyz0123456789-_".

Definition sextet (n : N) : ascii :=
  nth (N.to_nat n) (list_ascii_of_string alphabet) "A"%char.

(** [buf.toString("base64url")]: three bytes give four characters, a
    trailing group of one or two bytes gives two or three; there is no
    padding. *)
Fixpoint base64url (bs : list byte) : string :=
  match bs with
  | [] => ""
  | [a] =>
      let n := (Byte.to_N a * 16)%N in
      String (sextet (n / 64)) (String (sextet (n mod 64)) "")
  | [a; b] =>
      let n := ((Byte.to_N a * 256 + Byte.to_N b) * 4)%N in
      String (sextet (n / 4096))
        (String (sextet (n / 64 mod 64)) (String (sextet (n mod 64)) ""))
  | a :: b :: c :: rest =>
      let n := (Byte.to_N a * 65536 + Byte.to_N b * 256 + Byte.to_N c)%N in
      String (sextet (n / 262144))
        (String (sextet (n / 4096 mod 64))
           (String (sextet (n / 64 mod 64))
              (String (sextet (n mod 64)) (base64url rest))))
  end.

(** Position of a character in the alphabet (64 when it is not there). *)
Fixpoint position (c : ascii) (l : list ascii) : N :=
  match l with
  | [] => 0
  | x :: rest => if Ascii.eqb c x then 0 else N.succ (position c rest)
  end.

Definition unsextet (c : ascii) : N :=
  position c (list_ascii_of_string alphabet).

(** Membership in the URL-safe alphabet, and its extension to strings. *)
Definition url_safe (c : ascii) : bool :=
  existsb (Ascii.eqb c) (list_ascii_of_string alphabet).

Fixpoint all_chars (p : ascii → bool) (s : string) : bool :=
  match s with
  | EmptyString => true
  | String c rest => p c && all_chars p rest
  end.

(** Values produced by [JSON.parse]; numbers are IEEE 754 doubles. *)
Inductive json :=
| JNull
| JBool (b : bool)
| JNum (x : float)
| JStr (s : string)
| JArr (items : list json)
| JObj (fields : list (string * json)).

(** A JavaScript value reachable from a parsed document: [None] is
    [undefined]. *)
Definition value := option json.

Definition typeof (v : value) : string :=
  match v with
  | None => "undefined"
  | Some JNull => "object"
  | Some (JBool _) => "boolean"
  | Some (JNum _) => "number"
  | Some (JStr _) => "string"
  | Some (JArr _) => "object"
  | Some (JObj _) => "object"
  end.

(** Own property of a parsed object: with a repeated key the last
    occurrence in the text is the one kept. *)
Fixpoint field (k : string) (fs : list (string * json)) : value :=
  match fs with
  | [] => None
  | (k', v) :: rest =>
      match field k rest with
      | Some v' => Some v'
      | None => if String.eqb k k' then Some v else None
      end
  end.

End JS.

(** ** Errors and the effect monad *)

(** The exceptions the handler can end with: the three HTTP error
    classes it imports, the built-in [Error], [SyntaxError] and
    [TypeError], a file-system error carrying its code, and any other
    exception class raised inside a collaborator. *)
Inductive error :=
| BadRequestError (msg : string)
| NotFoundError (msg : string)
| UserForbiddenError (msg : string)
| Error (msg : string)
| SyntaxError
| TypeError
| SystemError (code : string)
| OtherError (name msg : string).

Inductive result (A : Type) :=
| Ok (a : A)
| Throw (e : error).
Arguments Ok {A} a.
Arguments Throw {A} e.

(** Modelled from the spec: the metadata record of [../db/videos]; the
    store "exposes fetch-by-id and update-by-value", the pipeline reads
    the owner and sets the published artifact URL. *)
Record Video := {
  id : string;
  userID : string;
  videoURL : option string;
  thumbnailURL : option string
}.

Definition set_videoURL (url : string) (v : Video) : Video :=
  {| id := id v; userID := userID v; videoURL := Some url;
     thumbnailURL := thumbnailURL v |}.

(** What [Bun.spawn] lets the caller observe once the process has
    exited; [stdout] is kept as the outcome of [JSON.parse] on the
    captured text ([None]: the text is not JSON). *)
Record Subprocess := {
  exited : Z;
  stderr : string;
  stdout : option JS.json
}.

(** Side effects, in the order they are started. *)
Inductive event :=
| EGetVideo (videoId : string)
| EFormData
| ERandomBytes (n : nat)
| EWrite (path : string)
| ESpawn (argv : list string)
| EDelete (path : string)
| ES3Write (key src type : string)
| EUpdateVideo (v : Video).

(** The state a request runs against.  [trace] keeps every side effect
    together with the local files present right after it. *)
Record World := {
  files : gset string;
  bucket : gmap string (string * string);
  db : gmap string Video;
  trace : list (event * gset string)
}.

Definition boot (fs : gset string) (b : gmap string (string * string))
    (d : gmap string Video) : World :=
  {| files := fs; bucket := b; db := d; trace := [] |}.

Definition with_files (fs : gset string) (w : World) : World :=
  {| files := fs; bucket := bucket w; db := db w; trace := trace w |}.

Definition emit (ev : event) (w : World) : World :=
  {| files := files w; bucket := bucket w; db := db w;
     trace := trace w ++ [(ev, files w)] |}.

(** What the environment decides during one request: the answer of
    the token check, the random bytes, whether the upload can be
    written to disk, whether each tool can be started and what it
    reports, whether ffmpeg leaves an output file, and whether the
    object store takes the write.  [None] is success for the I/O
    fields. *)
Record Oracle := {
  validateJWT : string → string → result string;
  entropy : nat → byte;
  stage_io : option error;
  ffmpeg_spawn : option error;
  ffmpeg : Subprocess;
  ffmpeg_writes : bool;
  ffprobe_spawn : option error;
  ffprobe : Subprocess;
  s3_io : option error
}.

Definition M (A : Type) : Type := Oracle → World → result A * World.

#[global] Instance M_ret : MRet M := λ A a _ w, (Ok a, w).

#[global] Instance M_bind : MBind M := λ A B f m o w,
  match m o w with
  | (Ok a, w') => f a o w'
  | (Throw e, w') => (Throw e, w')
  end.

Definition throw {A} (e : error) : M A := λ _ w, (Throw e, w).

Definition lift {A} (r : result A) : M A := λ _ w, (r, w).

Definition ask : M Oracle := λ o w, (Ok o, w).

(** ** Collaborators *)

(** Modelled from the spec: [getVideo] of [../db/videos], fetch by id. *)
Definition getVideo (videoId : string) : M (option Video) := λ _ w,
  (Ok (db w !! videoId), emit (EGetVideo videoId) w).

(** Modelled from the spec: [updateVideo] of [../db/videos], update by
    value of the record with the same id. *)
Definition updateVideo (v : Video) : M unit := λ _ w,
  (Ok (),
   emit (EUpdateVideo v)
     {| files := files w; bucket := bucket w; db := <[id v := v]> (db w);
        trace := trace w |}).

(** [crypto.randomBytes(n)] *)
Definition randomBytes (n : nat) : M (list byte) := λ o w,
  (Ok (map (entropy o) (seq 0 n)), emit (ERandomBytes n) w).

(** [path.join(root, name)] for a root that is already normalized and a
    file name without separators. *)
Definition path_join (root name : string) : string := root +:+ "/" +:+ name.

(** [Bun.write(path, blob)] *)
Definition Bun_write (path : string) : M unit := λ o w,
  match stage_io o with
  | None => (Ok (), emit (EWrite path) (with_files ({[path]} ∪ files w) w))
  | Some e => (Throw e, emit (EWrite path) w)
  end.

(** [Bun.file(path).delete()] *)
Definition Bun_file_delete (path : string) : M unit := λ _ w,
  if decide (path ∈ files w)
  then (Ok (), emit (EDelete path) (with_files (files w ∖ {[path]}) w))
  else (Throw (SystemError "ENOENT"), emit (EDelete path) w).

(** [Bun.spawn(argv)] followed by [await subprocess.exited]: the call
    throws when the executable cannot be started; ffmpeg may leave its
    output file, the last argument, behind. *)
Definition Bun_spawn (argv : list string) : M Subprocess := λ o w,
  match argv with
  | "ffmpeg" :: _ =>
      match ffmpeg_spawn o with
      | Some e => (Throw e, emit (ESpawn argv) w)
      | None =>
          (Ok (ffmpeg o),
           emit (ESpawn argv)
             (with_files
                (if ffmpeg_writes o
                 then {[List.last argv ""]} ∪ files w else files w) w))
      end
  | _ =>
      match ffprobe_spawn o with
      | Some e => (Throw e, emit (ESpawn argv) w)
      | None => (Ok (ffprobe o), emit (ESpawn argv) w)
      end
  end.

(** [cfg.s3Client.file(key).write(Bun.file(src), { type })] *)
Definition s3_write (key src type : string) : M unit := λ o w,
  match s3_io o with
  | None =>
      (Ok (),
       emit (ES3Write key src type)
         {| files := files w; bucket := <[key := (type, src)]> (bucket w);
            db := db w; trace := trace w |})
  | Some e => (Throw e, emit (ES3Write key src type) w)
  end.

#[global] Instance result_ret : MRet result := λ A a, Ok a.

#[global] Instance result_bind : MBind result := λ A B f r,
  match r with
  | Ok a => f a
  | Throw e => Throw e
  end.

Module JSAccess.
Import JS.

(** [v.name] for a property name that no prototype defines and that is
    not [length]: reading it from [undefined] or [null] throws, arrays
    and primitives answer [undefined]. *)
Definition prop (name : string) (v : value) : result value :=
  match v with
  | None => Throw TypeError
  | Some JNull => Throw TypeError
  | Some (JObj fs) => Ok (field name fs)
  | Some _ => Ok None
  end.

(** [v[0]] *)
Definition item0 (v : value) : result value :=
  match v with
  | None => Throw TypeError
  | Some JNull => Throw TypeError
  | Some (JArr items) => Ok (head items)
  | Some (JObj fs) => Ok (field "0" fs)
  | Some (JStr (String c _)) => Ok (Some (JStr (String c "")))
  | Some _ => Ok None
  end.

Definition is_null (j : json) : bool :=
  match j with JNull => true | _ => false end.
End JSAccess.

(** ** Media Prober *)

Inductive Aspect := Portrait | Landscape | Other.

Definition aspect_name (a : Aspect) : string :=
  match a with
  | Portrait => "portrait"
  | Landscape => "landscape"
  | Other => "other"
  end.

Set Warnings "-inexact-float".

Module Prober.
Import JS JSAccess.
Local Open Scope float_scope.

Definition portrait : float := 16 / 9.
Definition landscape : float := 9 / 16.
Definition tolerance : float := 0.01.

Definition in_band (center aspectRatio : float) : bool :=
  abs (aspectRatio - center) <? tolerance.

(** The last three statements of [getVideoAspectRatio]. *)
Definition classify (aspectRatio : float) : Aspect :=
  if in_band portrait aspectRatio then Portrait
  else if in_band landscape aspectRatio then Landscape
  else Other.

(** The same two membership tests taken in the other order, to compare
    with [classify]. *)
Definition classify_landscape_first (aspectRatio : float) : Aspect :=
  if in_band landscape aspectRatio then Landscape
  else if in_band portrait aspectRatio then Portrait
  else Other.

Definition format_error : error :=
  Error "Video metadata JSON doesn't match expected format.".

(** From [JSON.parse(outputText)] to the returned class. *)
Definition parseAspect (outputText : option json) : result Aspect :=
  match outputText with
  | None => Throw SyntaxError
  | Some parsedOutputText =>
      if negb (String.eqb (typeof (Some parsedOutputText)) "object")
      then Throw format_error
      else if is_null parsedOutputText then Throw format_error
      else
        streams ← prop "streams" (Some parsedOutputText);
        if negb (String.eqb (typeof streams) "object")
        then Throw format_error
        else
          streamZero ← item0 streams;
          width ← prop "width" streamZero;
          if negb (String.eqb (typeof width) "number")
          then Throw format_error
          else
            height ← prop "height" streamZero;
            if negb (String.eqb (typeof height) "number")
            then Throw format_error
            else
              match width, height with
              | Some (JNum w), Some (JNum h) => Ok (classify (h / w))
              | _, _ => Throw format_error
              end
  end.

Definition ffprobe_argv (filePath : string) : list string :=
  ["ffprobe"; "-v"; "error"; "-select_streams"; "v:0"; "-show_entries";
   "stream=width,height"; "-of"; "json"; filePath].

Definition getVideoAspectRatio (filePath : string) : M Aspect :=
  subprocess ← Bun_spawn (ffprobe_argv filePath);
  if negb (exited subprocess =? 0)%Z
  then throw (Error (stderr subprocess))
  else lift (parseAspect (stdout subprocess)).
End Prober.

(** ** Media Normalizer *)

Module Normalizer.
Definition ffmpeg_argv (inputFilePath outputFilePath : string) : list string :=
  ["ffmpeg"; "-i"; inputFilePath; "-movflags"; "faststart"; "-map_metadata";
   "0"; "-codec"; "copy"; "-f"; "mp4"; outputFilePath].

Definition processVideoForFastStart (inputFilePath : string) : M string :=
  let outputFilePath := inputFilePath +:+ ".processed" in
  subprocess ← Bun_spawn (ffmpeg_argv inputFilePath outputFilePath);
  if negb (exited subprocess =? 0)
  then throw (Error ("ffmpeg failed: " +:+ stderr subprocess))
  else mret outputFilePath.
End Normalizer.

(** ** Upload Orchestrator *)

Record ApiConfig := {
  jwtSecret : string;
  assetsRoot : string;
  s3CfDistribution : string
}.

Record File := {
  file_size : Z;
  file_type : string
}.

(** What [formData.get("video")] can hold. *)
Inductive entry :=
| FormNull
| FormString (s : string)
| FormFile (f : File).

(** The request as the handler reads it: the route parameter, the
    outcome of [getBearerToken(req.headers)] and the outcome of
    [req.formData()] followed by [get("video")]. *)
Record BunRequest := {
  params_videoId : option string;
  bearer : result string;
  form_video : result entry
}.

Record Response := {
  status : Z;
  body : Video
}.

Definition respondWithJSON (code : Z) (payload : Video) : Response :=
  {| status := code; body := payload |}.

Definition req_formData (req : BunRequest) : M entry := λ _ w,
  (form_video req, emit EFormData w).

Module Upload.
Import Prober Normalizer.

Definition MAX_UPLOAD_SIZE : Z := JS.shl 1 30.

(** The extension: [type.slice(type.indexOf("/") + 1)]. *)
Definition subtype (type : string) : string :=
  JS.slice type (JS.indexOf type "/" + 1).

Definition handlerUploadVideo (cfg : ApiConfig) (req : BunRequest) : M Response :=
  match params_videoId req with
  | None => throw (BadRequestError "Invalid video ID")
  | Some "" => throw (BadRequestError "Invalid video ID")
  | Some videoId =>
      token ← lift (bearer req);
      o ← ask;
      callerID ← lift (validateJWT o token (jwtSecret cfg));
      found ← getVideo videoId;
      match found with
      | None => throw (NotFoundError "Video not found.")
      | Some videoMetadata =>
          if negb (String.eqb (userID videoMetadata) callerID)
          then throw (UserForbiddenError "Forbidden.")
          else
            video ← req_formData req;
            match video with
            | FormNull | FormString _ =>
                throw (BadRequestError "Thumbnail was not a File.")
            | FormFile video =>
                if file_size video >? MAX_UPLOAD_SIZE
                then throw (BadRequestError "Thumbnail file size is too big.")
                else
                  let mediaType := file_type video in
                  if negb (String.eqb mediaType "video/mp4")
                  then throw (BadRequestError "Bad File Type.")
                  else
                    random ← randomBytes 32;
                    let fileName :=
                      JS.base64url random +:+ "." +:+ subtype (file_type video) in
                    let filePath := path_join (assetsRoot cfg) fileName in
                    Bun_write filePath;;
                    processedFilePath ← processVideoForFastStart filePath;
                    Bun_file_delete filePath;;
                    aspectRatio ← getVideoAspectRatio processedFilePath;
                    let fileNameWithAspectRatio :=
                      aspect_name aspectRatio +:+ "/" +:+ fileName in
                    s3_write fileNameWithAspectRatio processedFilePath
                      (file_type video);;
                    let videoMetadata :=
                      set_videoURL
                        (s3CfDistribution cfg +:+ "/" +:+ fileNameWithAspectRatio)
                        videoMetadata in
                    updateVideo videoMetadata;;
                    Bun_file_delete processedFilePath;;
                    mret (respondWithJSON 200 videoMetadata)
            end
      end
  end.

(** *** The exits of one request

    Names for what a request computes along the way, the conditions
    under which it gets through each step, and every way a run of
    [handlerUploadVideo] can end from a store with an empty trace. *)

Definition events (w : World) : list event := map fst (trace w).

Definition is_random (ev : event) : bool :=
  match ev with ERandomBytes _ => true | _ => false end.

(** Effects that touch the assets root, an external tool, the object
    store or the metadata record. *)
Definition is_effect (ev : event) : bool :=
  match ev with
  | EWrite _ | ESpawn _ | EDelete _ | ES3Write _ _ _ | EUpdateVideo _ => true
  | _ => false
  end.

Section Run.
Variables (cfg : ApiConfig) (req : BunRequest) (o : Oracle).
Variables (fs : gset string) (b : gmap string (string * string)).
Variable d : gmap string Video.

Definition token : string := JS.base64url (map (entropy o) (seq 0 32)).

Definition fileName (video : File) : string :=
  token +:+ "." +:+ subtype (file_type video).

Definition filePath (video : File) : string :=
  path_join (assetsRoot cfg) (fileName video).

Definition processedFilePath (video : File) : string :=
  filePath video +:+ ".processed".

Definition fileNameWithAspectRatio (a : Aspect) (video : File) : string :=
  aspect_name a +:+ "/" +:+ fileName video.

Definition committed (a : Aspect) (video : File) (v : Video) : Video :=
  set_videoURL (s3CfDistribution cfg +:+ "/" +:+ fileNameWithAspectRatio a video) v.

(** Local files after staging, after ffmpeg, while probing and
    publishing, and at the end. *)
Definition fs_staged (video : File) : gset string := {[filePath video]} ∪ fs.

Definition fs_normalized (video : File) : gset string :=
  if ffmpeg_writes o
  then {[processedFilePath video]} ∪ fs_staged video
  else fs_staged video.

Definition fs_processed (video : File) : gset string :=
  fs_normalized video ∖ {[filePath video]}.

Definition fs_final (video : File) : gset string :=
  fs_processed video ∖ {[processedFilePath video]}.

Definition script_local (videoId : string) (video : File)
    : list (event * gset string) :=
  [ (EGetVideo videoId, fs);
    (EFormData, fs);
    (ERandomBytes 32, fs);
    (EWrite (filePath video), fs_staged video);
    (ESpawn (ffmpeg_argv (filePath video) (processedFilePath video)),
     fs_normalized video);
    (EDelete (filePath video), fs_processed video);
    (ESpawn (ffprobe_argv (processedFilePath video)), fs_processed video) ].

Definition script_remote (a : Aspect) (video : File) (v : Video)
    : list (event * gset string) :=
  [ (ES3Write (fileNameWithAspectRatio a video) (processedFilePath video)
       (file_type video), fs_processed video);
    (EUpdateVideo (committed a video v), fs_processed video);
    (EDelete (processedFilePath video), fs_final video) ].

Definition identified (videoId callerID : string) : Prop :=
  params_videoId req = Some videoId ∧ videoId ≠ "" ∧
  ∃ token, bearer req = Ok token ∧
           validateJWT o token (jwtSecret cfg) = Ok callerID.

Definition authorized (videoId : string) (v : Video) : Prop :=
  identified videoId (userID v) ∧ d !! videoId = Some v.

Definition accepted (videoId : string) (v : Video) (video : File) : Prop :=
  authorized videoId v ∧ form_video req = Ok (FormFile video) ∧
  file_size video ≤ MAX_UPLOAD_SIZE ∧ file_type video = "video/mp4".

Definition staged (videoId : string) (v : Video) (video : File) : Prop :=
  accepted videoId v video ∧ stage_io o = None.

Definition normalized (videoId : string) (v : Video) (video : File) : Prop :=
  staged videoId v video ∧ ffmpeg_spawn o = None ∧ exited (ffmpeg o) = 0.

Definition probed (videoId : string) (v : Video) (video : File) (a : Aspect)
    : Prop :=
  normalized videoId v video ∧ ffprobe_spawn o = None ∧
  exited (ffprobe o) = 0 ∧ parseAspect (stdout (ffprobe o)) = Ok a.

Definition published (videoId : string) (v : Video) (video : File) (a : Aspect)
    : Prop :=
  probed videoId v video a ∧ s3_io o = None.

Definition world (F : gset string) (B : gmap string (string * string))
    (D : gmap string Video) (T : list (event * gset string)) : World :=
  {| files := F; bucket := B; db := D; trace := T |}.

(** A payload the validation step turns down. *)
Definition payload_invalid (x : entry) : Prop :=
  match x with
  | FormFile video =>
      MAX_UPLOAD_SIZE < file_size video ∨ file_type video ≠ "video/mp4"
  | _ => True
  end.

Definition run : result Response * World :=
  handlerUploadVideo cfg req o (boot fs b d).

Inductive exit_at : result Response * World → Prop :=
| exit_no_id :
    params_videoId req = None ∨ params_videoId req = Some "" →
    exit_at (Throw (BadRequestError "Invalid video ID"), world fs b d [])
| exit_bearer videoId e :
    params_videoId req = Some videoId → videoId ≠ "" →
    bearer req = Throw e →
    exit_at (Throw e, world fs b d [])
| exit_jwt videoId token e :
    params_videoId req = Some videoId → videoId ≠ "" →
    bearer req = Ok token →
    validateJWT o token (jwtSecret cfg) = Throw e →
    exit_at (Throw e, world fs b d [])
| exit_not_found videoId callerID :
    identified videoId callerID → d !! videoId = None →
    exit_at (Throw (NotFoundError "Video not found."),
             world fs b d [(EGetVideo videoId, fs)])
| exit_forbidden videoId callerID v :
    identified videoId callerID → d !! videoId = Some v →
    userID v ≠ callerID →
    exit_at (Throw (UserForbiddenError "Forbidden."),
             world fs b d [(EGetVideo videoId, fs)])
| exit_form videoId v e :
    authorized videoId v → form_video req = Throw e →
    exit_at (Throw e, world fs b d [(EGetVideo videoId, fs); (EFormData, fs)])
| exit_not_file videoId v x :
    authorized videoId v → form_video req = Ok x →
    (∀ video, x ≠ FormFile video) →
    exit_at (Throw (BadRequestError "Thumbnail was not a File."),
             world fs b d [(EGetVideo videoId, fs); (EFormData, fs)])
| exit_too_big videoId v video :
    authorized videoId v → form_video req = Ok (FormFile video) →
    MAX_UPLOAD_SIZE < file_size video →
    exit_at (Throw (BadRequestError "Thumbnail file size is too big."),
             world fs b d [(EGetVideo videoId, fs); (EFormData, fs)])
| exit_bad_type videoId v video :
    authorized videoId v → form_video req = Ok (FormFile video) →
    file_size video ≤ MAX_UPLOAD_SIZE → file_type video ≠ "video/mp4" →
    exit_at (Throw (BadRequestError "Bad File Type."),
             world fs b d [(EGetVideo videoId, fs); (EFormData, fs)])
| exit_stage videoId v video e :
    accepted videoId v video → stage_io o = Some e →
    exit_at (Throw e,
             world fs b d
               (take 3 (script_local videoId video) ++
                [(EWrite (filePath video), fs)]))
| exit_no_ffmpeg videoId v video e :
    staged videoId v video → ffmpeg_spawn o = Some e →
    exit_at (Throw e,
             world (fs_staged video) b d
               (take 4 (script_local videoId video) ++
                [(ESpawn (ffmpeg_argv (filePath video) (processedFilePath video)),
                  fs_staged video)]))
| exit_normalize videoId v video :
    staged videoId v video → ffmpeg_spawn o = None → exited (ffmpeg o) ≠ 0 →
    exit_at (Throw (Error ("ffmpeg failed: " +:+ stderr (ffmpeg o))),
             world (fs_normalized video) b d
               (take 5 (script_local videoId video)))
| exit_no_ffprobe videoId v video e :
    normalized videoId v video → ffprobe_spawn o = Some e →
    exit_at (Throw e,
             world (fs_processed video) b d (script_local videoId video))
| exit_probe videoId v video :
    normalized videoId v video → ffprobe_spawn o = None →
    exited (ffprobe o) ≠ 0 →
    exit_at (Throw (Error (stderr (ffprobe o))),
             world (fs_processed video) b d (script_local videoId video))
| exit_format videoId v video e :
    normalized videoId v video → ffprobe_spawn o = None →
    exited (ffprobe o) = 0 →
    parseAspect (stdout (ffprobe o)) = Throw e →
    exit_at (Throw e,
             world (fs_processed video) b d (script_local videoId video))
| exit_publish videoId v video a e :
    probed videoId v video a → s3_io o = Some e →
    exit_at (Throw e,
             world (fs_processed video) b d
               (script_local videoId video ++
                take 1 (script_remote a video v)))
| exit_cleanup videoId v video a :
    published videoId v video a →
    processedFilePath video ∉ fs_processed video →
    exit_at (Throw (SystemError "ENOENT"),
             world (fs_processed video)
               (<[fileNameWithAspectRatio a video :=
                    (file_type video, processedFilePath video)]> b)
               (<[id v := committed a video v]> d)
               (script_local videoId video ++
                take 2 (script_remote a video v) ++
                [(EDelete (processedFilePath video), fs_processed video)]))
| exit_ok videoId v video a :
    published videoId v video a →
    processedFilePath video ∈ fs_processed video →
    exit_at (Ok (respondWithJSON 200 (committed a video v)),
             world (fs_final video)
               (<[fileNameWithAspectRatio a video :=
                    (file_type video, processedFilePath video)]> b)
               (<[id v := committed a video v]> d)
               (script_local videoId video ++ script_remote a video v)).

End Run.
End Upload.

(** ** The three constants of the classifier as binary64 values *)

Module Binary64.
Definition center_p : spec_float := S754_finite false 8006399337547548 (-52).
Definition center_l : spec_float := S754_finite false 5066549580791808 (-53).
Definition width_t : spec_float := S754_finite false 5764607523034235 (-59).

(** Positive finite doubles that are at least one. *)
Definition at_least_one (x : spec_float) : bool :=
  match x with
  | S754_finite false _ e => -52 <=? e
  | _ => false
  end.
End Binary64.

(** ** A concrete request, used to run the model *)

Module Example.
Import JS.

Definition cfg : ApiConfig :=
  {| jwtSecret := "secret"; assetsRoot := "assets";
     s3CfDistribution := "https://cdn.example" |}.

Definition record : Video :=
  {| id := "v1"; userID := "alice"; videoURL := None; thumbnailURL := None |}.

Definition store : gmap string Video := {["v1" := record]}.

Definition upload (size : Z) (type : string) : BunRequest :=
  {| params_videoId := Some "v1"; bearer := Ok "alice";
     form_video := Ok (FormFile {| file_size := size; file_type := type |}) |}.

Definition file : File := {| file_size := 52428800; file_type := "video/mp4" |}.

Definition req : BunRequest := upload 52428800 "video/mp4".

Definition nobody : Video :=
  {| id := ""; userID := ""; videoURL := None; thumbnailURL := None |}.

(** What ffprobe prints for one video stream. *)
Definition probe_doc (width height : float) : json :=
  JObj [("programs", JArr []);
        ("streams", JArr [JObj [("width", JNum width); ("height", JNum height)]])].

Definition tool (code : Z) (err : string) (out : option json) : Subprocess :=
  {| exited := code; stderr := err; stdout := out |}.

(** Everything succeeds; the video is 1080 wide and 1920 high. *)
Definition fine : Oracle :=
  {| validateJWT := λ token _, Ok token;
     entropy := λ _, x00;
     stage_io := None;
     ffmpeg_spawn := None;
     ffmpeg := tool 0 "" None;
     ffmpeg_writes := true;
     ffprobe_spawn := None;
     ffprobe := tool 0 "" (Some (probe_doc 1080 1920));
     s3_io := None |}.

Definition with_ffmpeg (p : Subprocess) (writes : bool) (o : Oracle) : Oracle :=
  {| validateJWT := validateJWT o; entropy := entropy o;
     stage_io := stage_io o; ffmpeg_spawn := ffmpeg_spawn o; ffmpeg := p;
     ffmpeg_writes := writes; ffprobe_spawn := ffprobe_spawn o;
     ffprobe := ffprobe o; s3_io := s3_io o |}.

Definition with_ffprobe (p : Subprocess) (o : Oracle) : Oracle :=
  {| validateJWT := validateJWT o; entropy := entropy o;
     stage_io := stage_io o; ffmpeg_spawn := ffmpeg_spawn o;
     ffmpeg := ffmpeg o; ffmpeg_writes := ffmpeg_writes o;
     ffprobe_spawn := ffprobe_spawn o; ffprobe := p; s3_io := s3_io o |}.

Definition with_s3 (r : option error) (o : Oracle) : Oracle :=
  {| validateJWT := validateJWT o; entropy := entropy o;
     stage_io := stage_io o; ffmpeg_spawn := ffmpeg_spawn o;
     ffmpeg := ffmpeg o; ffmpeg_writes := ffmpeg_writes o;
     ffprobe_spawn := ffprobe_spawn o; ffprobe := ffprobe o; s3_io := r |}.

(** ffmpeg exits with status 1 and leaves no output. *)
Definition ffmpeg_fails : Oracle :=
  with_ffmpeg (tool 1 "moov atom not found" None) false fine.

(** ffprobe exits with status 1 after ffmpeg has written its output. *)
Definition ffprobe_fails : Oracle :=
  with_ffprobe (tool 1 "Invalid data found" None) fine.

Definition raw_path : string :=
  "assets/AAAAAAAAAAAAAAAAAAAAAAAAAAAAAAAAAAAAAAAAAAA.mp4".
End Example.

(** ** The other handlers of the repository

    Besides the handler above the repository keeps two earlier
    revisions of [handlerUploadVideo] (one publishes the staged file
    as it is, one probes it first) and two revisions of
    [handlerUploadThumbnail] (one keeps the image under the assets
    root, one inside the record as a data URL).  They run in the same
    monad against the same collaborators. *)

(** The configuration as these handlers read it: the fields above and
    the bucket, region and port. *)
Record Config := {
  api :> ApiConfig;
  s3Bucket : string;
  s3Region : string;
  port : string
}.

(** What [respondWithJSON(code, payload)] answers when the payload can
    be [null]. *)
Record Reply := {
  reply_status : Z;
  reply_body : option Video
}.

Definition set_thumbnailURL (url : string) (v : Video) : Video :=
  {| id := id v; userID := userID v; videoURL := videoURL v;
     thumbnailURL := Some url |}.

(** [console.log(...)]: standard output is not part of [World]. *)
Definition console_log (args : list string) : M unit := mret ().

(** [Bun.write(path, data)] whose promise is dropped: the handler goes
    on without the outcome of the write, so the write neither throws
    into the handler nor has a file the handler can count on.  The
    trace keeps the call. *)
Definition Bun_write_detached (path : string) : M unit := λ _ w,
  (Ok (), emit (EWrite path) w).

(** [Buffer.toString("base64")]: the standard alphabet, padded with
    ["="] to a multiple of four characters. *)
Module Base64.

Definition alphabet : string :=
  "ABCDEFGHIJKLMNOPQRSTUVWXYZabcdefghijklmnopqrstuvwxyz0123456789+/".

Definition sextet (n : N) : ascii :=
  nth (N.to_nat n) (list_ascii_of_string alphabet) "A"%char.

Definition unsextet (c : ascii) : N :=
  JS.position c (list_ascii_of_string alphabet).

Fixpoint base64 (bs : list byte) : string :=
  match bs with
  | [] => ""
  | [a] =>
      let n := (Byte.to_N a * 16)%N in
      String (sextet (n / 64)) (String (sextet (n mod 64)) "==")
  | [a; b] =>
      let n := ((Byte.to_N a * 256 + Byte.to_N b) * 4)%N in
      String (sextet (n / 4096))
        (String (sextet (n / 64 mod 64)) (String (sextet (n mod 64)) "="))
  | a :: b :: c :: rest =>
      let n := (Byte.to_N a * 65536 + Byte.to_N b * 256 + Byte.to_N c)%N in
      String (sextet (n / 262144))
        (String (sextet (n / 4096 mod 64))
           (String (sextet (n / 64 mod 64))
              (String (sextet (n mod 64)) (base64 rest))))
  end.

End Base64.

(** *** The revisions of [handlerUploadVideo] *)

Module Earlier.
Import Prober Upload.

Definition respondWithJSON (code : Z) (payload : option Video) : Reply :=
  {| reply_status := code; reply_body := payload |}.

(** [https://<bucket>.s3.<region>.amazonaws.com/<key>] *)
Definition objectURL (cfg : Config) (key : string) : string :=
  "https://" +:+ s3Bucket cfg +:+ ".s3." +:+ s3Region cfg +:+
  ".amazonaws.com/" +:+ key.

(** The statements the three revisions have in common, from the route
    parameter to the media-type check; [pipeline] stands for what a
    revision does with the record and the accepted file. *)
Definition checked {A} (cfg : ApiConfig) (req : BunRequest)
    (pipeline : Video → File → M A) : M A :=
  match params_videoId req with
  | None => throw (BadRequestError "Invalid video ID")
  | Some "" => throw (BadRequestError "Invalid video ID")
  | Some videoId =>
      token ← lift (bearer req);
      o ← ask;
      callerID ← lift (validateJWT o token (jwtSecret cfg));
      found ← getVideo videoId;
      match found with
      | None => throw (NotFoundError "Video not found.")
      | Some videoMetadata =>
          if negb (String.eqb (userID videoMetadata) callerID)
          then throw (UserForbiddenError "Forbidden.")
          else
            video ← req_formData req;
            match video with
            | FormNull | FormString _ =>
                throw (BadRequestError "Thumbnail was not a File.")
            | FormFile video =>
                if file_size video >? MAX_UPLOAD_SIZE
                then throw (BadRequestError "Thumbnail file size is too big.")
                else
                  let mediaType := file_type video in
                  if negb (String.eqb mediaType "video/mp4")
                  then throw (BadRequestError "Bad File Type.")
                  else pipeline videoMetadata video
            end
      end
  end.

(** The ways a request is turned down before anything is staged: the
    error thrown and the store left behind. *)
Section Refusal.
Variables (cfg : ApiConfig) (req : BunRequest) (o : Oracle).
Variables (fs : gset string) (b : gmap string (string * string)).
Variable d : gmap string Video.

Inductive refusal : error → World → Prop :=
| refuse_no_id :
    params_videoId req = None ∨ params_videoId req = Some "" →
    refusal (BadRequestError "Invalid video ID") (world fs b d [])
| refuse_bearer videoId e :
    params_videoId req = Some videoId → videoId ≠ "" →
    bearer req = Throw e →
    refusal e (world fs b d [])
| refuse_jwt videoId token e :
    params_videoId req = Some videoId → videoId ≠ "" →
    bearer req = Ok token →
    validateJWT o token (jwtSecret cfg) = Throw e →
    refusal e (world fs b d [])
| refuse_not_found videoId callerID :
    identified cfg req o videoId callerID → d !! videoId = None →
    refusal (NotFoundError "Video not found.")
      (world fs b d [(EGetVideo videoId, fs)])
| refuse_forbidden videoId callerID v :
    identified cfg req o videoId callerID → d !! videoId = Some v →
    userID v ≠ callerID →
    refusal (UserForbiddenError "Forbidden.")
      (world fs b d [(EGetVideo videoId, fs)])
| refuse_form videoId v e :
    authorized cfg req o d videoId v → form_video req = Throw e →
    refusal e (world fs b d [(EGetVideo videoId, fs); (EFormData, fs)])
| refuse_not_file videoId v x :
    authorized cfg req o d videoId v → form_video req = Ok x →
    (∀ video, x ≠ FormFile video) →
    refusal (BadRequestError "Thumbnail was not a File.")
      (world fs b d [(EGetVideo videoId, fs); (EFormData, fs)])
| refuse_too_big videoId v video :
    authorized cfg req o d videoId v → form_video req = Ok (FormFile video) →
    MAX_UPLOAD_SIZE < file_size video →
    refusal (BadRequestError "Thumbnail file size is too big.")
      (world fs b d [(EGetVideo videoId, fs); (EFormData, fs)])
| refuse_bad_type videoId v video :
    authorized cfg req o d videoId v → form_video req = Ok (FormFile video) →
    file_size video ≤ MAX_UPLOAD_SIZE → file_type video ≠ "video/mp4" →
    refusal (BadRequestError "Bad File Type.")
      (world fs b d [(EGetVideo videoId, fs); (EFormData, fs)]).

(** The trace of an accepted request up to the staging write. *)
Definition script_staging (videoId : string) (video : File)
    : list (event * gset string) :=
  [ (EGetVideo videoId, fs);
    (EFormData, fs);
    (ERandomBytes 32, fs);
    (EWrite (filePath cfg o video), fs_staged cfg o fs video) ].

End Refusal.

(** **** The revision that publishes the staged file as it is *)

Module Direct.

Definition handlerUploadVideo (cfg : Config) (req : BunRequest) : M Reply :=
  match params_videoId req with
  | None => throw (BadRequestError "Invalid video ID")
  | Some "" => throw (BadRequestError "Invalid video ID")
  | Some videoId =>
      token ← lift (bearer req);
      o ← ask;
      callerID ← lift (validateJWT o token (jwtSecret cfg));
      found ← getVideo videoId;
      match found with
      | None => throw (NotFoundError "Video not found.")
      | Some videoMetadata =>
          if negb (String.eqb (userID videoMetadata) callerID)
          then throw (UserForbiddenError "Forbidden.")
          else
            video ← req_formData req;
            match video with
            | FormNull | FormString _ =>
                throw (BadRequestError "Thumbnail was not a File.")
            | FormFile video =>
                if file_size video >? MAX_UPLOAD_SIZE
                then throw (BadRequestError "Thumbnail file size is too big.")
                else
                  let mediaType := file_type video in
                  if negb (String.eqb mediaType "video/mp4")
                  then throw (BadRequestError "Bad File Type.")
                  else
                    random ← randomBytes 32;
                    let fileName :=
                      JS.base64url random +:+ "." +:+ subtype (file_type video) in
                    let filePath := path_join (assetsRoot cfg) fileName in
                    Bun_write filePath;;
                    s3_write fileName filePath (file_type video);;
                    let videoMetadata :=
                      set_videoURL
                        ("https://" +:+ s3Bucket cfg +:+ ".s3." +:+ s3Region cfg +:+
                         ".amazonaws.com/" +:+ fileName)
                        videoMetadata in
                    updateVideo videoMetadata;;
                    Bun_file_delete filePath;;
                    mret (respondWithJSON 200 None)
            end
      end
  end.

Section Run.
Variables (cfg : Config) (req : BunRequest) (o : Oracle).
Variables (fs : gset string) (b : gmap string (string * string)).
Variable d : gmap string Video.

Definition committed (video : File) (v : Video) : Video :=
  set_videoURL (objectURL cfg (fileName o video)) v.

Definition script_remote (video : File) (v : Video)
    : list (event * gset string) :=
  [ (ES3Write (fileName o video) (filePath cfg o video) (file_type video),
     fs_staged cfg o fs video);
    (EUpdateVideo (committed video v), fs_staged cfg o fs video);
    (EDelete (filePath cfg o video),
     fs_staged cfg o fs video ∖ {[filePath cfg o video]}) ].

Definition run : result Reply * World :=
  handlerUploadVideo cfg req o (boot fs b d).

Inductive exit_at : result Reply * World → Prop :=
| exit_refused e w :
    refusal cfg req o fs b d e w → exit_at (Throw e, w)
| exit_stage videoId v video e :
    accepted cfg req o d videoId v video → stage_io o = Some e →
    exit_at (Throw e,
             world fs b d
               (take 3 (script_staging cfg o fs videoId video) ++
                [(EWrite (filePath cfg o video), fs)]))
| exit_publish videoId v video e :
    staged cfg req o d videoId v video → s3_io o = Some e →
    exit_at (Throw e,
             world (fs_staged cfg o fs video) b d
               (script_staging cfg o fs videoId video ++
                take 1 (script_remote video v)))
| exit_ok videoId v video :
    staged cfg req o d videoId v video → s3_io o = None →
    exit_at (Ok (respondWithJSON 200 None),
             world (fs_staged cfg o fs video ∖ {[filePath cfg o video]})
               (<[fileName o video := (file_type video, filePath cfg o video)]> b)
               (<[id v := committed video v]> d)
               (script_staging cfg o fs videoId video ++ script_remote video v)).

End Run.
End Direct.

(** **** The revision that probes the staged file *)

Module Probed.

Definition handlerUploadVideo (cfg : Config) (req : BunRequest) : M Reply :=
  match params_videoId req with
  | None => throw (BadRequestError "Invalid video ID")
  | Some "" => throw (BadRequestError "Invalid video ID")
  | Some videoId =>
      token ← lift (bearer req);
      o ← ask;
      callerID ← lift (validateJWT o token (jwtSecret cfg));
      found ← getVideo videoId;
      match found with
      | None => throw (NotFoundError "Video not found.")
      | Some videoMetadata =>
          if negb (String.eqb (userID videoMetadata) callerID)
          then throw (UserForbiddenError "Forbidden.")
          else
            video ← req_formData req;
            match video with
            | FormNull | FormString _ =>
                throw (BadRequestError "Thumbnail was not a File.")
            | FormFile video =>
                if file_size video >? MAX_UPLOAD_SIZE
                then throw (BadRequestError "Thumbnail file size is too big.")
                else
                  let mediaType := file_type video in
                  if negb (String.eqb mediaType "video/mp4")
                  then throw (BadRequestError "Bad File Type.")
                  else
                    random ← randomBytes 32;
                    let fileName :=
                      JS.base64url random +:+ "." +:+ subtype (file_type video) in
                    let filePath := path_join (assetsRoot cfg) fileName in
                    Bun_write filePath;;
                    aspectRatio ← getVideoAspectRatio filePath;
                    let fileNameWithAspectRatio :=
                      aspect_name aspectRatio +:+ "/" +:+ fileName in
                    s3_write fileNameWithAspectRatio filePath (file_type video);;
                    let videoMetadata :=
                      set_videoURL
                        ("https://" +:+ s3Bucket cfg +:+ ".s3." +:+ s3Region cfg +:+
                         ".amazonaws.com/" +:+ fileNameWithAspectRatio)
                        videoMetadata in
                    updateVideo videoMetadata;;
                    Bun_file_delete filePath;;
                    mret (respondWithJSON 200 None)
            end
      end
  end.

Section Run.
Variables (cfg : Config) (req : BunRequest) (o : Oracle).
Variables (fs : gset string) (b : gmap string (string * string)).
Variable d : gmap string Video.

Definition committed (a : Aspect) (video : File) (v : Video) : Video :=
  set_videoURL (objectURL cfg (fileNameWithAspectRatio o a video)) v.

(** The probe has answered with class [a]. *)
Definition measured (a : Aspect) : Prop :=
  ffprobe_spawn o = None ∧ exited (ffprobe o) = 0 ∧
  parseAspect (stdout (ffprobe o)) = Ok a.

Definition script_local (videoId : string) (video : File)
    : list (event * gset string) :=
  script_staging cfg o fs videoId video ++
  [(ESpawn (ffprobe_argv (filePath cfg o video)), fs_staged cfg o fs video)].

Definition script_remote (a : Aspect) (video : File) (v : Video)
    : list (event * gset string) :=
  [ (ES3Write (fileNameWithAspectRatio o a video) (filePath cfg o video)
       (file_type video), fs_staged cfg o fs video);
    (EUpdateVideo (committed a video v), fs_staged cfg o fs video);
    (EDelete (filePath cfg o video),
     fs_staged cfg o fs video ∖ {[filePath cfg o video]}) ].

Definition run : result Reply * World :=
  handlerUploadVideo cfg req o (boot fs b d).

Inductive exit_at : result Reply * World → Prop :=
| exit_refused e w :
    refusal cfg req o fs b d e w → exit_at (Throw e, w)
| exit_stage videoId v video e :
    accepted cfg req o d videoId v video → stage_io o = Some e →
    exit_at (Throw e,
             world fs b d
               (take 3 (script_staging cfg o fs videoId video) ++
                [(EWrite (filePath cfg o video), fs)]))
| exit_no_ffprobe videoId v video e :
    staged cfg req o d videoId v video → ffprobe_spawn o = Some e →
    exit_at (Throw e,
             world (fs_staged cfg o fs video) b d (script_local videoId video))
| exit_probe videoId v video :
    staged cfg req o d videoId v video → ffprobe_spawn o = None →
    exited (ffprobe o) ≠ 0 →
    exit_at (Throw (Error (stderr (ffprobe o))),
             world (fs_staged cfg o fs video) b d (script_local videoId video))
| exit_format videoId v video e :
    staged cfg req o d videoId v video → ffprobe_spawn o = None →
    exited (ffprobe o) = 0 →
    parseAspect (stdout (ffprobe o)) = Throw e →
    exit_at (Throw e,
             world (fs_staged cfg o fs video) b d (script_local videoId video))
| exit_publish videoId v video a e :
    staged cfg req o d videoId v video → measured a → s3_io o = Some e →
    exit_at (Throw e,
             world (fs_staged cfg o fs video) b d
               (script_local videoId video ++ take 1 (script_remote a video v)))
| exit_ok videoId v video a :
    staged cfg req o d videoId v video → measured a → s3_io o = None →
    exit_at (Ok (respondWithJSON 200 None),
             world (fs_staged cfg o fs video ∖ {[filePath cfg o video]})
               (<[fileNameWithAspectRatio o a video :=
                    (file_type video, filePath cfg o video)]> b)
               (<[id v := committed a video v]> d)
               (script_local videoId video ++ script_remote a video v)).

End Run.
End Probed.
End Earlier.

(** *** The revisions of [handlerUploadThumbnail] *)

(** An uploaded image as the handlers read it: [size], [type] and the
    bytes behind [arrayBuffer()]. *)
Record Image := {
  image_size : Z;
  image_type : string;
  image_bytes : list byte
}.

(** What [formData.get("thumbnail")] can hold. *)
Inductive thumbnail_entry :=
| ThumbNull
| ThumbString (s : string)
| ThumbFile (f : Image).

(** The request as the thumbnail handlers read it. *)
Record ThumbnailRequest := {
  thumb_videoId : option string;
  thumb_bearer : result string;
  form_thumbnail : result thumbnail_entry
}.

Module Thumbnail.
Import Upload.

Definition MAX_UPLOAD_SIZE : Z := JS.shl 10 20.

Definition req_formData (req : ThumbnailRequest) : M thumbnail_entry := λ _ w,
  (form_thumbnail req, emit EFormData w).

(** The statements the two revisions have in common, from the route
    parameter to the size check; [rest] stands for what a revision does
    with the id, the caller and the image. *)
Definition checked {A} (cfg : ApiConfig) (req : ThumbnailRequest)
    (rest : string → string → Image → M A) : M A :=
  match thumb_videoId req with
  | None => throw (BadRequestError "Invalid video ID")
  | Some "" => throw (BadRequestError "Invalid video ID")
  | Some videoId =>
      token ← lift (thumb_bearer req);
      o ← ask;
      callerID ← lift (validateJWT o token (jwtSecret cfg));
      console_log ["uploading thumbnail for video"; videoId; "by user"; callerID];;
      thumbnail ← req_formData req;
      match thumbnail with
      | ThumbNull | ThumbString _ =>
          throw (BadRequestError "Thumbnail was not a File.")
      | ThumbFile thumbnail =>
          if image_size thumbnail >? MAX_UPLOAD_SIZE
          then throw (BadRequestError "Thumbnail file size is too big.")
          else rest videoId callerID thumbnail
      end
  end.

Section Request.
Variables (cfg : ApiConfig) (req : ThumbnailRequest) (o : Oracle).
Variables (fs : gset string) (b : gmap string (string * string)).
Variable d : gmap string Video.

Definition identified (videoId callerID : string) : Prop :=
  thumb_videoId req = Some videoId ∧ videoId ≠ "" ∧
  ∃ token, thumb_bearer req = Ok token ∧
           validateJWT o token (jwtSecret cfg) = Ok callerID.

(** An identified caller has sent an image within the size limit. *)
Definition received (videoId callerID : string) (thumbnail : Image) : Prop :=
  identified videoId callerID ∧
  form_thumbnail req = Ok (ThumbFile thumbnail) ∧
  image_size thumbnail ≤ MAX_UPLOAD_SIZE.

Inductive refusal : error → World → Prop :=
| refuse_no_id :
    thumb_videoId req = None ∨ thumb_videoId req = Some "" →
    refusal (BadRequestError "Invalid video ID") (world fs b d [])
| refuse_bearer videoId e :
    thumb_videoId req = Some videoId → videoId ≠ "" →
    thumb_bearer req = Throw e →
    refusal e (world fs b d [])
| refuse_jwt videoId token e :
    thumb_videoId req = Some videoId → videoId ≠ "" →
    thumb_bearer req = Ok token →
    validateJWT o token (jwtSecret cfg) = Throw e →
    refusal e (world fs b d [])
| refuse_form videoId callerID e :
    identified videoId callerID → form_thumbnail req = Throw e →
    refusal e (world fs b d [(EFormData, fs)])
| refuse_not_file videoId callerID x :
    identified videoId callerID → form_thumbnail req = Ok x →
    (∀ thumbnail, x ≠ ThumbFile thumbnail) →
    refusal (BadRequestError "Thumbnail was not a File.")
      (world fs b d [(EFormData, fs)])
| refuse_too_big videoId callerID thumbnail :
    identified videoId callerID →
    form_thumbnail req = Ok (ThumbFile thumbnail) →
    MAX_UPLOAD_SIZE < image_size thumbnail →
    refusal (BadRequestError "Thumbnail file size is too big.")
      (world fs b d [(EFormData, fs)]).

End Request.

(** **** The revision that keeps the image under the assets root *)

Module Stored.

Definition handlerUploadThumbnail (cfg : Config) (req : ThumbnailRequest)
    : M Response :=
  match thumb_videoId req with
  | None => throw (BadRequestError "Invalid video ID")
  | Some "" => throw (BadRequestError "Invalid video ID")
  | Some videoId =>
      token ← lift (thumb_bearer req);
      o ← ask;
      callerID ← lift (validateJWT o token (jwtSecret cfg));
      console_log ["uploading thumbnail for video"; videoId; "by user"; callerID];;
      thumbnail ← req_formData req;
      match thumbnail with
      | ThumbNull | ThumbString _ =>
          throw (BadRequestError "Thumbnail was not a File.")
      | ThumbFile thumbnail =>
          if image_size thumbnail >? MAX_UPLOAD_SIZE
          then throw (BadRequestError "Thumbnail file size is too big.")
          else
            let mediaType := image_type thumbnail in
            if negb (String.eqb mediaType "image/jpeg" ||
                     String.eqb mediaType "image/png")
            then throw (BadRequestError "Bad File Type.")
            else
              let thumbnailData := image_bytes thumbnail in
              let fileName :=
                videoId +:+ "." +:+ subtype (image_type thumbnail) in
              let filePath := path_join (assetsRoot cfg) fileName in
              Bun_write_detached filePath;;
              found ← getVideo videoId;
              match found with
              | None => throw (NotFoundError "Video not found.")
              | Some videoMetadata =>
                  if negb (String.eqb (userID videoMetadata) callerID)
                  then throw (UserForbiddenError "Forbidden.")
                  else
                    let videoMetadata :=
                      set_thumbnailURL
                        ("http://localhost:" +:+ port cfg +:+ "/assets/" +:+
                         fileName)
                        videoMetadata in
                    updateVideo videoMetadata;;
                    mret (respondWithJSON 200 videoMetadata)
              end
      end
  end.

Section Run.
Variables (cfg : Config) (req : ThumbnailRequest) (o : Oracle).
Variables (fs : gset string) (b : gmap string (string * string)).
Variable d : gmap string Video.

Definition fileName (videoId : string) (thumbnail : Image) : string :=
  videoId +:+ "." +:+ subtype (image_type thumbnail).

Definition filePath (videoId : string) (thumbnail : Image) : string :=
  path_join (assetsRoot cfg) (fileName videoId thumbnail).

Definition committed (videoId : string) (thumbnail : Image) (v : Video) : Video :=
  set_thumbnailURL
    ("http://localhost:" +:+ port cfg +:+ "/assets/" +:+ fileName videoId thumbnail)
    v.

Definition is_image (thumbnail : Image) : Prop :=
  image_type thumbnail = "image/jpeg" ∨ image_type thumbnail = "image/png".

(** The trace once the write has been started and the record looked
    up. *)
Definition script (videoId : string) (thumbnail : Image)
    : list (event * gset string) :=
  [ (EFormData, fs);
    (EWrite (filePath videoId thumbnail), fs);
    (EGetVideo videoId, fs) ].

Definition run : result Response * World :=
  handlerUploadThumbnail cfg req o (boot fs b d).

Inductive exit_at : result Response * World → Prop :=
| exit_refused e w :
    refusal cfg req o fs b d e w → exit_at (Throw e, w)
| exit_bad_type videoId callerID thumbnail :
    received cfg req o videoId callerID thumbnail → ¬ is_image thumbnail →
    exit_at (Throw (BadRequestError "Bad File Type."),
             world fs b d [(EFormData, fs)])
| exit_not_found videoId callerID thumbnail :
    received cfg req o videoId callerID thumbnail → is_image thumbnail →
    d !! videoId = None →
    exit_at (Throw (NotFoundError "Video not found."),
             world fs b d (script videoId thumbnail))
| exit_forbidden videoId callerID thumbnail v :
    received cfg req o videoId callerID thumbnail → is_image thumbnail →
    d !! videoId = Some v → userID v ≠ callerID →
    exit_at (Throw (UserForbiddenError "Forbidden."),
             world fs b d (script videoId thumbnail))
| exit_ok videoId thumbnail v :
    received cfg req o videoId (userID v) thumbnail → is_image thumbnail →
    d !! videoId = Some v →
    exit_at (Ok (respondWithJSON 200 (committed videoId thumbnail v)),
             world fs b (<[id v := committed videoId thumbnail v]> d)
               (script videoId thumbnail ++
                [(EUpdateVideo (committed videoId thumbnail v), fs)])).

End Run.
End Stored.

(** **** The revision that keeps the image inside the record *)

Module Inline.

Definition handlerUploadThumbnail (cfg : Config) (req : ThumbnailRequest)
    : M Response :=
  match thumb_videoId req with
  | None => throw (BadRequestError "Invalid video ID")
  | Some "" => throw (BadRequestError "Invalid video ID")
  | Some videoId =>
      token ← lift (thumb_bearer req);
      o ← ask;
      callerID ← lift (validateJWT o token (jwtSecret cfg));
      console_log ["uploading thumbnail for video"; videoId; "by user"; callerID];;
      thumbnail ← req_formData req;
      match thumbnail with
      | ThumbNull | ThumbString _ =>
          throw (BadRequestError "Thumbnail was not a File.")
      | ThumbFile thumbnail =>
          if image_size thumbnail >? MAX_UPLOAD_SIZE
          then throw (BadRequestError "Thumbnail file size is too big.")
          else
            let mediaType := image_type thumbnail in
            let thumbnailData := image_bytes thumbnail in
            let thumbnailDataString := Base64.base64 thumbnailData in
            let thumbnailDataUrl :=
              "data:" +:+ mediaType +:+ ";base64," +:+ thumbnailDataString in
            found ← getVideo videoId;
            match found with
            | None => throw (BadRequestError "Video not found.")
            | Some videoMetadata =>
                if negb (String.eqb (userID videoMetadata) callerID)
                then throw (UserForbiddenError "Forbidden.")
                else
                  let videoMetadata :=
                    set_thumbnailURL thumbnailDataUrl videoMetadata in
                  updateVideo videoMetadata;;
                  mret (respondWithJSON 200 videoMetadata)
            end
      end
  end.

Section Run.
Variables (cfg : Config) (req : ThumbnailRequest) (o : Oracle).
Variables (fs : gset string) (b : gmap string (string * string)).
Variable d : gmap string Video.

Definition thumbnailDataUrl (thumbnail : Image) : string :=
  "data:" +:+ image_type thumbnail +:+ ";base64," +:+
  Base64.base64 (image_bytes thumbnail).

Definition committed (thumbnail : Image) (v : Video) : Video :=
  set_thumbnailURL (thumbnailDataUrl thumbnail) v.

Definition script (videoId : string) : list (event * gset string) :=
  [ (EFormData, fs); (EGetVideo videoId, fs) ].

Definition run : result Response * World :=
  handlerUploadThumbnail cfg req o (boot fs b d).

Inductive exit_at : result Response * World → Prop :=
| exit_refused e w :
    refusal cfg req o fs b d e w → exit_at (Throw e, w)
| exit_not_found videoId callerID thumbnail :
    received cfg req o videoId callerID thumbnail → d !! videoId = None →
    exit_at (Throw (BadRequestError "Video not found."),
             world fs b d (script videoId))
| exit_forbidden videoId callerID thumbnail v :
    received cfg req o videoId callerID thumbnail →
    d !! videoId = Some v → userID v ≠ callerID →
    exit_at (Throw (UserForbiddenError "Forbidden."),
             world fs b d (script videoId))
| exit_ok videoId thumbnail v :
    received cfg req o videoId (userID v) thumbnail →
    d !! videoId = Some v →
    exit_at (Ok (respondWithJSON 200 (committed thumbnail v)),
             world fs b (<[id v := committed thumbnail v]> d)
               (script videoId ++ [(EUpdateVideo (committed thumbnail v), fs)])).

End Run.
End Inline.
End Thumbnail.

(** ** Names without a path separator *)

Definition no_slash_in (s : string) : bool :=
  JS.all_chars (λ c, negb (Ascii.eqb c "/")) s.

(** ** Stores whose records sit under their own id *)

Definition well_keyed (d : gmap string Video) : Prop :=
  ∀ k v, d !! k = Some v → id v = k.

(** ** Sample requests for the other handlers *)

Module Sample.

Definition cfg : Config :=
  {| api := Example.cfg; s3Bucket := "tubely"; s3Region := "us-east-2";
     port := "8091" |}.

Definition image (size : Z) (type : string) : Image :=
  {| image_size := size; image_type := type; image_bytes := [x4d; x61; x6e] |}.

Definition thumbnail (who : string) (size : Z) (type : string)
    : ThumbnailRequest :=
  {| thumb_videoId := Some "v1"; thumb_bearer := Ok who;
     form_thumbnail := Ok (ThumbFile (image size type)) |}.

Definition png : ThumbnailRequest := thumbnail "alice" 2048 "image/png".

(** The object store turns the write down. *)
Definition s3_down : Oracle :=
  Example.with_s3 (Some (OtherError "S3Error" "AccessDenied")) Example.fine.

End Sample.

(** * Properties *)

(** ** Rounding facts for binary64 subtraction *)

Module Binary64Facts.
Import Binary64.


Ltac pow2 :=
  match goal with
  | |- 0 < 2 ^ _ => apply Z.pow_pos_nonneg; lia
  | |- 2 ^ _ ≠ 0 => apply Z.pow_nonzero; lia
  | |- 0 ≤ _ / 2 ^ _ => apply Z.div_pos; [lia | apply Z.pow_pos_nonneg; lia]
  | |- _ => lia
  end.

Lemma digits2_log2 (p : positive) :
  Z.pos (digits2_pos p) = Z.log2 (Z.pos p) + 1.
Proof.
  assert (Hsize : ∀ q, digits2_pos q = Pos.size q).
  { induction q as [q IH|q IH|]; simpl; congruence. }
  destruct p as [p|p|]; simpl; rewrite ?Hsize; lia.
Qed.

Lemma shr_1_m (mrs : shr_record) :
  0 ≤ shr_m mrs → shr_m (shr_1 mrs) = shr_m mrs / 2.
Proof.
  destruct mrs as [m r s]; cbn [shr_m]; intros Hm.
  destruct m as [|[p|p|]|p]; cbn [shr_1 shr_m]; try lia; try reflexivity.
  - apply Z.div_unique with 1; lia.
  - apply Z.div_unique with 0; lia.
Qed.

Lemma iter_shr_1_m (n : positive) :
  ∀ mrs, 0 ≤ shr_m mrs →
    shr_m (SpecFloat.iter_pos shr_1 n mrs) = shr_m mrs / 2 ^ Z.pos n.
Proof.
  assert (Hpos : ∀ a k, 0 ≤ a → 0 ≤ k → 0 ≤ a / 2 ^ k).
  { intros a k Ha Hk. pow2. }
  assert (Hstep : ∀ a k, 0 ≤ k → a / 2 ^ k / 2 ^ k = a / 2 ^ (2 * k)).
  { intros a k Hk. rewrite Z.div_div by pow2.
    f_equal. rewrite <- Z.pow_add_r by lia. f_equal. lia. }
  induction n as [n IH|n IH|]; intros mrs Hm; simpl SpecFloat.iter_pos.
  - assert (H1 : 0 ≤ shr_m (shr_1 mrs)).
    { rewrite shr_1_m by lia. apply Z.div_pos; lia. }
    assert (H2 : 0 ≤ shr_m (SpecFloat.iter_pos shr_1 n (shr_1 mrs))).
    { rewrite IH by lia. apply Hpos; lia. }
    rewrite (IH _ H2), (IH _ H1), shr_1_m, Hstep by lia.
    rewrite Z.div_div by pow2. f_equal.
  - assert (H2 : 0 ≤ shr_m (SpecFloat.iter_pos shr_1 n mrs)).
    { rewrite IH by lia. apply Hpos; lia. }
    rewrite (IH _ H2), (IH _ Hm), Hstep by lia. now rewrite Pos2Z.inj_xO.
  - now rewrite shr_1_m.
Qed.

Lemma shr_m_spec (mrs : shr_record) (e n : Z) :
  0 ≤ shr_m mrs → 0 ≤ n →
  shr_m (fst (shr mrs e n)) = shr_m mrs / 2 ^ n ∧ snd (shr mrs e n) = e + n.
Proof.
  intros Hm Hn. destruct n as [|p|p]; simpl; try lia.
  - rewrite Z.div_1_r. lia.
  - now rewrite iter_shr_1_m.
Qed.

Lemma iter_xO_pow (m d : positive) :
  Z.pos (Pos.iter xO m d) = Z.pos m * 2 ^ Z.pos d.
Proof.
  rewrite <- Z.shiftl_mul_pow2 by lia. unfold Z.shiftl.
  now apply Pos.iter_swap_gen.
Qed.

Lemma shl_align_spec (m : positive) (e e' : Z) :
  e' ≤ e →
  Z.pos (fst (shl_align m e e')) = Z.pos m * 2 ^ (e - e') ∧
  snd (shl_align m e e') = e'.
Proof.
  intros He. unfold shl_align.
  destruct (e' - e) as [|p|p] eqn:Hd; simpl; try lia.
  - replace (e - e') with 0 by lia. simpl. lia.
  - rewrite iter_xO_pow. replace (e - e') with (Z.pos p) by lia. lia.
Qed.

Lemma shl_align_id (m : positive) (e e' : Z) :
  e ≤ e' → shl_align m e e' = (m, e).
Proof.
  intros He. unfold shl_align. destruct (e' - e) eqn:Hd; try reflexivity. lia.
Qed.

Lemma Zdigits2_log2 (z : Z) : 0 < z → Zdigits2 z = Z.log2 z + 1.
Proof. destruct z; try lia. intros _. apply digits2_log2. Qed.

Lemma shr_fexp_exact (m e : Z) :
  0 < m → e ≤ fexp prec emax (Zdigits2 m + e) →
  shr_m (fst (shr_fexp prec emax m e loc_Exact))
    = m / 2 ^ (fexp prec emax (Zdigits2 m + e) - e) ∧
  snd (shr_fexp prec emax m e loc_Exact) = fexp prec emax (Zdigits2 m + e).
Proof.
  intros Hm He. unfold shr_fexp. cbn [shr_record_of_loc].
  destruct (shr_m_spec (Build_shr_record m false false) e
              (fexp prec emax (Zdigits2 m + e) - e)) as [H1 H2];
    cbn [shr_m]; try lia.
  rewrite H1, H2. cbn [shr_m]. split; [reflexivity | lia].
Qed.

Lemma round_nearest_even_bounds (m : Z) (l : location) :
  m ≤ round_nearest_even m l ≤ m + 1.
Proof.
  destruct l as [|[]]; cbn [round_nearest_even]; try lia.
  destruct (Z.even m); lia.
Qed.

(** Rounding a magnitude in the normal range never lowers its
    exponent below the canonical one. *)
Lemma binary_round_exponent (s : bool) (m : positive) (e : Z) :
  emin ≤ Z.pos (digits2_pos m) + e - prec →
  binary_round prec emax s m e = S754_infinity s ∨
  ∃ m' e', binary_round prec emax s m e = S754_finite s m' e' ∧
           Z.pos (digits2_pos m) + e - prec ≤ e'.
Proof.
  intros Hnormal. unfold binary_round.
  assert (Hprec : prec = 53) by reflexivity.
  assert (Hemin : emin = -1074) by reflexivity.
  assert (Hemax : emax = 1024) by reflexivity.
  set (d := Z.pos (digits2_pos m) + e) in *.
  assert (Hf : fexp prec emax d = d - prec) by (unfold fexp; lia).
  rewrite Hf.
  assert (Hal : ∃ mz ez, shl_align m e (d - prec) = (mz, ez) ∧
                         Z.pos (digits2_pos mz) + ez = d ∧ ez ≤ d - prec).
  { destruct (Z.le_gt_cases (d - prec) e) as [Hle|Hgt].
    - destruct (shl_align_spec m e (d - prec) Hle) as [Hv He].
      destruct (shl_align m e (d - prec)) as [mz ez]; cbn [fst snd] in *.
      exists mz, ez. split; [reflexivity|]. split; [|lia].
      pose proof (digits2_log2 m) as Hdm.
      rewrite digits2_log2, Hv, Z.log2_mul_pow2 by lia. lia.
    - exists m, e. rewrite shl_align_id by lia. repeat split; lia. }
  destruct Hal as (mz & ez & -> & Hd & Hez).
  unfold binary_round_aux.
  assert (Hdig : Zdigits2 (Z.pos mz) + ez = d) by (cbn [Zdigits2]; lia).
  destruct (shr_fexp_exact (Z.pos mz) ez) as [H1 H2]; [lia | rewrite Hdig, Hf; lia |].
  rewrite Hdig, Hf in H1, H2.
  destruct (shr_fexp prec emax (Z.pos mz) ez loc_Exact) as [mrs1 e1];
    cbn [fst snd] in H1, H2. subst e1.
  set (m1 := shr_m mrs1) in *.
  assert (Hlog1 : Z.log2 m1 = prec - 1).
  { rewrite H1, <- Z.shiftr_div_pow2, Z.log2_shiftr by lia.
    rewrite digits2_log2 in Hd. lia. }
  assert (Hm1 : 2 ^ (prec - 1) ≤ m1 < 2 ^ prec).
  { assert (0 < m1).
    { destruct (Z.lt_ge_cases 0 m1) as [|Hneg]; [lia|].
      rewrite Z.log2_nonpos in Hlog1 by lia. discriminate. }
    pose proof (Z.log2_spec m1 ltac:(lia)) as Hs. rewrite Hlog1 in Hs.
    replace (Z.succ (prec - 1)) with prec in Hs by lia. exact Hs. }
  pose proof (round_nearest_even_bounds m1 (loc_of_shr_record mrs1)) as Hr.
  set (m2 := round_nearest_even m1 (loc_of_shr_record mrs1)) in *.
  assert (Hlog2 : Z.log2 m2 = prec - 1 ∨ Z.log2 m2 = prec).
  { destruct (Z.lt_ge_cases m2 (2 ^ prec)) as [Hlt|Hge].
    - left. apply Z.log2_unique; [lia|].
      replace (Z.succ (prec - 1)) with prec by lia. lia.
    - right. apply Z.log2_unique; [lia|].
      split; [lia|]. rewrite Z.pow_succ_r by lia. lia. }
  assert (Hm2 : 0 < m2).
  { assert (0 < 2 ^ (prec - 1)) by (apply Z.pow_pos_nonneg; lia). lia. }
  destruct (shr_fexp_exact m2 (d - prec)) as [H3 H4]; [lia | |].
  { rewrite Zdigits2_log2 by lia. unfold fexp. destruct Hlog2; lia. }
  destruct (shr_fexp prec emax m2 (d - prec) loc_Exact) as [mrs2 e2];
    cbn [fst snd] in H3, H4.
  assert (He2 : d - prec ≤ e2).
  { rewrite H4, Zdigits2_log2 by lia. unfold fexp. destruct Hlog2; lia. }
  assert (Hm3 : 0 < shr_m mrs2).
  { rewrite H3, Zdigits2_log2 by lia.
    destruct Hlog2 as [Hl|Hl]; rewrite Hl; unfold fexp.
    - replace (Z.max (prec - 1 + 1 + (d - prec) - prec) emin - (d - prec))
        with 0 by lia.
      rewrite Z.div_1_r. lia.
    - replace (Z.max (prec + 1 + (d - prec) - prec) emin - (d - prec))
        with 1 by lia.
      apply Z.div_str_pos. change (2 ^ 1) with 2.
      assert (2 ≤ 2 ^ (prec - 1)) by (vm_compute; discriminate). lia. }
  destruct (shr_m mrs2) as [|m3|m3]; try lia.
  destruct (e2 <=? emax - prec); [right; eauto | left; reflexivity].
Qed.

(** A difference of magnitude at least [2 ^ k] at exponent [e] rounds
    to something that is not below a float of smaller exponent. *)
Lemma normalize_far (z e k : Z) (mt : positive) (et : Z) :
  0 ≤ k → 2 ^ k ≤ Z.abs z →
  emin ≤ k + 1 + e - prec → et < k + 1 + e - prec →
  SFltb (SFabs (binary_normalize prec emax z e false))
        (S754_finite false mt et) = false.
Proof.
  intros Hk Hz Hnormal Het.
  assert (Hprec : prec = 53) by reflexivity.
  assert (Hemin : emin = -1074) by reflexivity.
  assert (H2k : 0 < 2 ^ k) by (apply Z.pow_pos_nonneg; lia).
  assert (Hgen : ∀ s p, Z.abs z = Z.pos p →
    SFltb (SFabs (binary_round prec emax s p e)) (S754_finite false mt et) = false).
  { intros s p Hp. rewrite Hp in Hz.
    assert (Hlog : k ≤ Z.log2 (Z.pos p)) by (apply Z.log2_le_pow2; lia).
    pose proof (digits2_log2 p) as Hdig.
    destruct (binary_round_exponent s p e) as [->|(m' & e' & -> & He')];
      [lia | reflexivity |].
    unfold SFltb. cbn [SFabs SFcompare].
    replace (e' ?= et) with Gt; [reflexivity|].
    symmetry. apply Z.compare_gt_iff. lia. }
  destruct z as [|p|p]; cbn [binary_normalize]; [simpl in Hz; lia | |];
    now apply Hgen.
Qed.

Lemma valid_finite (s : bool) (m : positive) (e : Z) :
  valid_binary (S754_finite s m e) = true →
  Z.pos m < 2 ^ 53 ∧ (-1074 < e → 2 ^ 52 ≤ Z.pos m).
Proof.
  cbn [SpecFloat.valid_binary]. unfold bounded, canonical_mantissa, fexp.
  intros [Hc _]%andb_prop. apply Z.eqb_eq in Hc.
  assert (Hprec : prec = 53) by reflexivity.
  assert (Hemin : emin = -1074) by reflexivity.
  pose proof (digits2_log2 m) as Hdig.
  pose proof (Z.log2_spec (Z.pos m) ltac:(lia)) as [Hlo Hhi].
  split.
  - apply Z.log2_lt_pow2; lia.
  - intros He. replace 52 with (Z.log2 (Z.pos m)) by lia. exact Hlo.
Qed.



Lemma far_from_p (x : spec_float) :
  valid_binary x = true → at_least_one x = false →
  SFltb (SFabs (SF64sub x center_p)) width_t = false.
Proof.
  intros Hv Hx. destruct x as [s|s| |s m e]; try (destruct s; reflexivity);
    try reflexivity.
  apply valid_finite in Hv as [Hm _].
  unfold SF64sub, center_p, width_t. cbn [SFsub].
  assert (Hprec : prec = 53) by reflexivity.
  assert (Hemin : emin = -1074) by reflexivity.
  set (ez := Z.min e (-52)).
  destruct (shl_align_spec m e ez ltac:(lia)) as [Ha _].
  destruct (shl_align_spec 8006399337547548 (-52) ez ltac:(lia)) as [Hb _].
  set (a := Z.pos (fst (shl_align m e ez))) in *.
  set (b := Z.pos (fst (shl_align 8006399337547548 (-52) ez))) in *.
  assert (Ha0 : 0 < a) by (subst a; lia).
  destruct s; cbn [cond_Zopp].
  - (* negative: the magnitudes add up *)
    apply normalize_far with (k := - ez); try lia.
    assert (Hb' : 2 ^ (- ez) ≤ b).
    { rewrite Hb. replace (- ez) with (52 + (-52 - ez)) by lia.
      rewrite Z.pow_add_r by lia.
      apply Z.mul_le_mono_nonneg_r; [apply Z.pow_nonneg; lia | lia]. }
    lia.
  - (* positive and below one *)
    cbn [at_least_one] in Hx. apply Z.leb_gt in Hx.
    assert (Hez : ez = e) by lia.
    assert (Ham : a = Z.pos m).
    { rewrite Ha, Hez, Z.sub_diag. simpl. lia. }
    apply normalize_far with (k := -1 - e); try lia.
    rewrite Hb, Ham, Hez.
    replace (-1 - e) with (51 + (-52 - e)) by lia.
    rewrite Z.pow_add_r by lia.
    assert (Ht : 2 ≤ 2 ^ (-52 - e)).
    { change 2 with (2 ^ 1) at 1. apply Z.pow_le_mono_r; lia. }
    set (t := 2 ^ (-52 - e)) in *. nia.
Qed.

Lemma far_from_l (x : spec_float) :
  valid_binary x = true → at_least_one x = true →
  SFltb (SFabs (SF64sub x center_l)) width_t = false.
Proof.
  intros Hv Hx. destruct x as [s|s| |[] m e]; try discriminate.
  cbn [at_least_one] in Hx. apply Z.leb_le in Hx.
  apply valid_finite in Hv as [_ Hm]. specialize (Hm ltac:(lia)).
  unfold SF64sub, center_l, width_t. cbn [SFsub cond_Zopp].
  assert (Hprec : prec = 53) by reflexivity.
  assert (Hemin : emin = -1074) by reflexivity.
  replace (Z.min e (-53)) with (-53) by lia.
  destruct (shl_align_spec m e (-53) ltac:(lia)) as [Ha _].
  destruct (shl_align_spec 5066549580791808 (-53) (-53) ltac:(lia)) as [Hb _].
  set (a := Z.pos (fst (shl_align m e (-53)))) in *.
  set (b := Z.pos (fst (shl_align 5066549580791808 (-53) (-53)))) in *.
  change (-53 - -53) with 0 in Hb. change (2 ^ 0) with 1 in Hb.
  assert (Ht : 2 ≤ 2 ^ (e - -53)).
  { change 2 with (2 ^ 1) at 1. apply Z.pow_le_mono_r; lia. }
  set (t := 2 ^ (e - -53)) in *.
  apply normalize_far with (k := 51); lia.
Qed.

End Binary64Facts.

Import JS JSAccess Prober Normalizer Upload.

(** ** Every run ends at one of the listed exits *)

Lemma bind_Ok {A B} (m : M A) (f : A → M B) o w a w' :
  m o w = (Ok a, w') → (m ≫= f) o w = f a o w'.
Proof. intros H. unfold mbind, M_bind. now rewrite H. Qed.

Lemma bind_Throw {A B} (m : M A) (f : A → M B) o w e w' :
  m o w = (Throw e, w') → (m ≫= f) o w = (Throw e, w').
Proof. intros H. unfold mbind, M_bind. now rewrite H. Qed.

Ltac use_facts :=
  repeat match goal with
         | H : ?x = _ |- context [?x] => rewrite H
         end.

(** One primitive, evaluated on a known world with the facts at hand. *)
Ltac run_op :=
  cbv [mbind mret M_bind M_ret throw lift ask getVideo updateVideo randomBytes
       Bun_write Bun_file_delete Bun_spawn s3_write req_formData
       processVideoForFastStart getVideoAspectRatio emit with_files boot
       files bucket db trace ffmpeg_argv ffprobe_argv app List.last negb];
  use_facts; cbv beta iota; reflexivity.

Ltac go :=
  repeat first
    [ progress cbv beta iota delta [negb]
    | progress use_facts
    | erewrite bind_Ok by run_op
    | erewrite bind_Throw by run_op
    | progress cbv [throw] ].

Lemma Bun_file_delete_ok path o w :
  path ∈ files w →
  Bun_file_delete path o w
  = (Ok (), emit (EDelete path) (with_files (files w ∖ {[path]}) w)).
Proof. intros Hin. unfold Bun_file_delete. by rewrite decide_True. Qed.

Lemma Bun_file_delete_missing path o w :
  path ∉ files w →
  Bun_file_delete path o w = (Throw (SystemError "ENOENT"), emit (EDelete path) w).
Proof. intros Hin. unfold Bun_file_delete. by rewrite decide_False. Qed.

Ltac flatten := cbv [emit with_files files bucket db trace app].

Lemma handler_exits cfg req o fs b d :
  exit_at cfg req o fs b d (handlerUploadVideo cfg req o (boot fs b d)).
Proof.
  unfold handlerUploadVideo.
  destruct (params_videoId req) as [[|c s]|] eqn:Hid;
    [apply exit_no_id; auto | | apply exit_no_id; auto].
  set (videoId := String c s) in *.
  assert (Hne : videoId ≠ "") by discriminate.
  destruct (bearer req) as [token|e] eqn:Hb; go;
    [|exact (exit_bearer _ _ _ _ _ _ _ _ Hid Hne Hb)].
  destruct (validateJWT o token (jwtSecret cfg)) as [callerID|e] eqn:Hj; go;
    [|exact (exit_jwt _ _ _ _ _ _ _ _ _ Hid Hne Hb Hj)].
  assert (Hident : identified cfg req o videoId callerID).
  { split; [done|]. split; [done|]. by exists token. }
  destruct (d !! videoId) as [v|] eqn:Hv; go;
    [|exact (exit_not_found _ _ _ _ _ _ _ _ Hident Hv)].
  destruct (String.eqb (userID v) callerID) eqn:Hown; go.
  2: { apply String.eqb_neq in Hown.
       exact (exit_forbidden _ _ _ _ _ _ _ _ _ Hident Hv Hown). }
  apply String.eqb_eq in Hown. subst callerID.
  assert (Hauth : authorized cfg req o d videoId v) by done.
  destruct (form_video req) as [x|e] eqn:Hform; go;
    [|exact (exit_form _ _ _ _ _ _ _ _ _ Hauth Hform)].
  destruct x as [|s0|video]; go;
    [refine (exit_not_file _ _ _ _ _ _ _ _ _ Hauth Hform _); done
    |refine (exit_not_file _ _ _ _ _ _ _ _ _ Hauth Hform _); done |].
  destruct (file_size video >? MAX_UPLOAD_SIZE) eqn:Hsize; go.
  { apply Z.gtb_lt in Hsize.
    exact (exit_too_big _ _ _ _ _ _ _ _ _ Hauth Hform Hsize). }
  assert (Hsize' : file_size video ≤ MAX_UPLOAD_SIZE).
  { rewrite Z.gtb_ltb in Hsize. by apply Z.ltb_ge in Hsize. }
  destruct (String.eqb (file_type video) "video/mp4") eqn:Htype; go.
  2: { apply String.eqb_neq in Htype.
       exact (exit_bad_type _ _ _ _ _ _ _ _ _ Hauth Hform Hsize' Htype). }
  assert (Hacc : accepted cfg req o d videoId v video).
  { apply String.eqb_eq in Htype. done. }
  destruct (stage_io o) as [e|] eqn:Hst; go.
  { exact (exit_stage _ _ _ _ _ _ _ _ _ _ Hacc Hst). }
  assert (Hstaged : staged cfg req o d videoId v video) by done.
  destruct (ffmpeg_spawn o) as [e|] eqn:Hsp; go.
  { exact (exit_no_ffmpeg _ _ _ _ _ _ _ _ _ _ Hstaged Hsp). }
  destruct (exited (ffmpeg o) =? 0) eqn:Hff; go.
  2: { apply Z.eqb_neq in Hff.
       exact (exit_normalize _ _ _ _ _ _ _ _ _ Hstaged Hsp Hff). }
  assert (Hnorm : normalized cfg req o d videoId v video).
  { apply Z.eqb_eq in Hff. done. }
  assert (Hraw : filePath cfg o video ∈ fs_normalized cfg o fs video).
  { unfold fs_normalized, fs_staged. destruct (ffmpeg_writes o); set_solver. }
  erewrite bind_Ok by (apply Bun_file_delete_ok; exact Hraw). flatten.
  destruct (ffprobe_spawn o) as [e|] eqn:Hsq; go.
  { exact (exit_no_ffprobe _ _ _ _ _ _ _ _ _ _ Hnorm Hsq). }
  destruct (exited (ffprobe o) =? 0) eqn:Hp; go.
  2: { apply Z.eqb_neq in Hp.
       exact (exit_probe _ _ _ _ _ _ _ _ _ Hnorm Hsq Hp). }
  apply Z.eqb_eq in Hp.
  destruct (parseAspect (stdout (ffprobe o))) as [a|e] eqn:Hpa; go.
  2: { exact (exit_format _ _ _ _ _ _ _ _ _ _ Hnorm Hsq Hp Hpa). }
  assert (Hprobed : probed cfg req o d videoId v video a) by done.
  destruct (s3_io o) as [e|] eqn:Hs3; go.
  { exact (exit_publish _ _ _ _ _ _ _ _ _ _ _ Hprobed Hs3). }
  assert (Hpub : published cfg req o d videoId v video a) by done.
  destruct (decide (processedFilePath cfg o video ∈ fs_processed cfg o fs video))
    as [Hin|Hout].
  - erewrite bind_Ok by (apply Bun_file_delete_ok; exact Hin). flatten.
    exact (exit_ok _ _ _ _ _ _ _ _ _ _ Hpub Hin).
  - erewrite bind_Throw by (apply Bun_file_delete_missing; exact Hout). flatten.
    exact (exit_cleanup _ _ _ _ _ _ _ _ _ _ Hpub Hout).
Qed.

(** Case analysis on how a run ends. *)
Ltac exits cfg req o fs b d :=
  unfold run;
  generalize (handler_exits cfg req o fs b d);
  generalize (handlerUploadVideo cfg req o (boot fs b d));
  intros ? [];
  cbv beta delta [script_local script_remote world];
  cbn [fst snd files bucket db trace events map take app].

(** Two descriptions of the same request agree on what they name. *)
Ltac open_facts :=
  unfold published, probed, normalized, staged, accepted, authorized,
    identified in *;
  repeat match goal with
         | H : _ ∧ _ |- _ => destruct H
         | H : ∃ _, _ |- _ => destruct H
         end.

Ltac agree :=
  open_facts;
  repeat match goal with
         | H : _ ∨ _ |- _ => destruct H
         | H : _ ∧ _ |- _ => destruct H
         | H : ∃ _, _ |- _ => destruct H
         | H1 : ?t = ?x, H2 : ?t = ?y |- _ =>
             rewrite H1 in H2; inversion H2; subst;
             repeat match goal with E : ?a = ?a |- _ => clear E end
         | H : ∀ video, FormFile ?f ≠ FormFile video |- _ =>
             destruct (H f eq_refl)
         | H : ?x ≠ ?x |- _ => destruct (H eq_refl)
         end.

(** Closes a case whose facts contradict each other. *)
Ltac clash :=
  first
    [ congruence
    | lia
    | exfalso;
      match goal with
      | H : ¬ _ |- _ => apply H; repeat first [split | eexists]; eassumption
      end ].

(** Walks through an explicit list of events. *)
Ltac each_event H :=
  repeat (apply elem_of_cons in H as [->|H]; [try reflexivity; try done|]);
  try (by apply elem_of_nil in H).

(** ** The two tolerance bands do not meet *)

Lemma bands_disjoint (r : float) :
  in_band portrait r = true → in_band landscape r = true → False.
Proof.
  unfold in_band. rewrite !ltb_spec, !abs_spec, !sub_spec.
  change (Prim2SF portrait) with Binary64.center_p.
  change (Prim2SF landscape) with Binary64.center_l.
  change (Prim2SF tolerance) with Binary64.width_t.
  pose proof (Prim2SF_valid r) as Hv.
  destruct (Binary64.at_least_one (Prim2SF r)) eqn:Hx.
  - rewrite (Binary64Facts.far_from_l _ Hv Hx). discriminate.
  - rewrite (Binary64Facts.far_from_p _ Hv Hx). discriminate.
Qed.

(** ** Strings: paths, extensions, tokens *)

Lemma length_append (s t : string) :
  String.length (s +:+ t) = (String.length s + String.length t)%nat.
Proof. induction s as [|c s IH]; simpl; [reflexivity | now rewrite IH]. Qed.

Lemma append_ne_self (s t : string) : t ≠ "" → s ≠ s +:+ t.
Proof.
  intros Ht Heq. apply (f_equal String.length) in Heq.
  rewrite length_append in Heq. destruct t; [done | simpl in Heq; lia].
Qed.

Lemma processed_ne_raw cfg o video :
  filePath cfg o video ≠ processedFilePath cfg o video.
Proof. unfold processedFilePath. by apply append_ne_self. Qed.

Lemma substring_all (s : string) : String.substring 0 (String.length s) s = s.
Proof. induction s as [|c s IH]; simpl; [reflexivity | now rewrite IH]. Qed.

Lemma substring_skip (s t : string) (n : nat) :
  String.substring (String.length s + n) (String.length t - n) (s +:+ t)
  = String.substring n (String.length t - n) t.
Proof. induction s as [|c s IH]; simpl; [reflexivity | exact IH]. Qed.

Lemma prefix_empty (s : string) : String.prefix "" s = true.
Proof. destruct s; reflexivity. Qed.

Lemma index_no_slash (major minor : string) :
  String.index 0 "/" major = None →
  String.index 0 "/" (major +:+ "/" +:+ minor) = Some (String.length major).
Proof.
  induction major as [|c major IH]; intros Hno.
  - change (String.index 0 "/" (String "/" minor) = Some 0%nat).
    cbn -[Ascii.ascii_dec]. rewrite prefix_empty.
    destruct (Ascii.ascii_dec "/" "/"); [reflexivity | done].
  - change (String.index 0 "/" (String c (major +:+ "/" +:+ minor))
            = Some (S (String.length major))).
    cbn -[Ascii.ascii_dec] in Hno |- *. rewrite prefix_empty in Hno |- *.
    destruct (Ascii.ascii_dec "/" c) as [Hc|Hc]; [discriminate|].
    destruct (String.index 0 "/" major) eqn:Hi; [discriminate|].
    now rewrite IH.
Qed.

(** The extension is what follows the first slash of the media type. *)
Lemma subtype_after_slash (major minor : string) :
  JS.indexOf major "/" = -1 →
  subtype (major +:+ "/" +:+ minor) = minor.
Proof.
  unfold subtype, JS.indexOf, JS.slice. intros Hno.
  destruct (String.index 0 "/" major) eqn:Hi; [lia|].
  rewrite index_no_slash by assumption.
  rewrite !length_append. cbn [String.length].
  destruct (Z.ltb_spec (Z.of_nat (String.length major) + 1) 0) as [|_]; [lia|].
  rewrite Z.min_l by lia.
  replace (Z.to_nat (Z.of_nat (String.length major) + 1))
    with (String.length major + 1)%nat by lia.
  replace (Z.to_nat (Z.of_nat (String.length major + (1 + String.length minor))
                     - (Z.of_nat (String.length major) + 1)))
    with (String.length ("/" +:+ minor) - 1)%nat
    by (change (String.length ("/" +:+ minor)) with (S (String.length minor)); lia).
  rewrite substring_skip.
  change (String.length ("/" +:+ minor) - 1)%nat with (String.length minor - 0)%nat.
  rewrite Nat.sub_0_r.
  change (String.substring 1 (String.length minor) ("/" +:+ minor))
    with (String.substring 0 (String.length minor) minor).
  apply substring_all.
Qed.

(** *** The token *)

Lemma sextet_safe (n : N) : JS.url_safe (JS.sextet n) = true.
Proof.
  unfold JS.sextet, JS.url_safe.
  set (l := list_ascii_of_string JS.alphabet).
  destruct (Nat.lt_ge_cases (N.to_nat n) (List.length l)) as [Hlt|Hge].
  - apply existsb_exists. exists (nth (N.to_nat n) l "A"%char).
    split; [by apply nth_In | apply Ascii.eqb_refl].
  - rewrite nth_overflow by exact Hge. reflexivity.
Qed.

Lemma unsextet_sextet (n : N) : (n < 64)%N → JS.unsextet (JS.sextet n) = n.
Proof.
  intros Hn.
  assert (Hall : forallb (λ k, N.eqb (JS.unsextet (JS.sextet (N.of_nat k)))
                                (N.of_nat k)) (seq 0 64) = true)
    by (vm_compute; reflexivity).
  rewrite forallb_forall in Hall.
  specialize (Hall (N.to_nat n)). rewrite N2Nat.id in Hall.
  apply N.eqb_eq, Hall, in_seq. lia.
Qed.

Lemma sextet_inj (n m : N) :
  (n < 64)%N → (m < 64)%N → JS.sextet n = JS.sextet m → n = m.
Proof.
  intros Hn Hm Heq. apply (f_equal JS.unsextet) in Heq.
  now rewrite !unsextet_sextet in Heq.
Qed.

Lemma byte_to_N_inj (a b : byte) : Byte.to_N a = Byte.to_N b → a = b.
Proof.
  intros Heq. pose proof (Byte.of_to_N a) as Ha.
  rewrite Heq, Byte.of_to_N in Ha. congruence.
Qed.

Lemma div_mod_eq (x y k : N) :
  k ≠ 0%N → (x / k = y / k)%N → (x mod k = y mod k)%N → x = y.
Proof.
  intros Hk Hq Hr.
  rewrite (N.div_mod x k), (N.div_mod y k) by exact Hk. now rewrite Hq, Hr.
Qed.

(** Four base-64 digits determine a number below [2 ^ 24]. *)
Lemma digits_inj (n n' : N) :
  (n < 16777216)%N → (n' < 16777216)%N →
  JS.sextet (n / 262144) = JS.sextet (n' / 262144) →
  JS.sextet (n / 4096 mod 64) = JS.sextet (n' / 4096 mod 64) →
  JS.sextet (n / 64 mod 64) = JS.sextet (n' / 64 mod 64) →
  JS.sextet (n mod 64) = JS.sextet (n' mod 64) →
  n = n'.
Proof.
  intros Hn Hn' H1 H2 H3 H4.
  apply sextet_inj in H1;
    [|apply N.Div0.div_lt_upper_bound; lia|apply N.Div0.div_lt_upper_bound; lia].
  apply sextet_inj in H2; [|apply N.mod_lt; lia|apply N.mod_lt; lia].
  apply sextet_inj in H3; [|apply N.mod_lt; lia|apply N.mod_lt; lia].
  apply sextet_inj in H4; [|apply N.mod_lt; lia|apply N.mod_lt; lia].
  change 262144%N with (4096 * 64)%N in H1. rewrite <- !N.Div0.div_div in H1 by lia.
  change 4096%N with (64 * 64)%N in H1, H2. rewrite <- !N.Div0.div_div in H1, H2 by lia.
  apply (div_mod_eq n n' 64); [lia| |exact H4].
  apply (div_mod_eq _ _ 64); [lia| |exact H3].
  apply (div_mod_eq _ _ 64); [lia|exact H1|exact H2].
Qed.

Lemma group3_inj (a b c a' b' c' : byte) :
  let n := (Byte.to_N a * 65536 + Byte.to_N b * 256 + Byte.to_N c)%N in
  let n' := (Byte.to_N a' * 65536 + Byte.to_N b' * 256 + Byte.to_N c')%N in
  JS.sextet (n / 262144) = JS.sextet (n' / 262144) →
  JS.sextet (n / 4096 mod 64) = JS.sextet (n' / 4096 mod 64) →
  JS.sextet (n / 64 mod 64) = JS.sextet (n' / 64 mod 64) →
  JS.sextet (n mod 64) = JS.sextet (n' mod 64) →
  a = a' ∧ b = b' ∧ c = c'.
Proof.
  intros n n' H1 H2 H3 H4.
  pose proof (Byte.to_N_bounded a). pose proof (Byte.to_N_bounded b).
  pose proof (Byte.to_N_bounded c). pose proof (Byte.to_N_bounded a').
  pose proof (Byte.to_N_bounded b'). pose proof (Byte.to_N_bounded c').
  assert (Hn : n = n') by (apply digits_inj; subst n n'; try lia; assumption).
  subst n n'. repeat split; apply byte_to_N_inj; lia.
Qed.

Lemma group2_inj (a b a' b' : byte) :
  let n := ((Byte.to_N a * 256 + Byte.to_N b) * 4)%N in
  let n' := ((Byte.to_N a' * 256 + Byte.to_N b') * 4)%N in
  JS.sextet (n / 4096) = JS.sextet (n' / 4096) →
  JS.sextet (n / 64 mod 64) = JS.sextet (n' / 64 mod 64) →
  JS.sextet (n mod 64) = JS.sextet (n' mod 64) →
  a = a' ∧ b = b'.
Proof.
  intros n n' H1 H2 H3.
  pose proof (Byte.to_N_bounded a). pose proof (Byte.to_N_bounded b).
  pose proof (Byte.to_N_bounded a'). pose proof (Byte.to_N_bounded b').
  assert (Hlt : (n < 262144)%N ∧ (n' < 262144)%N) by (subst n n'; lia).
  destruct Hlt as [Hlt Hlt'].
  assert (Hn : n = n').
  { apply digits_inj; try lia; try assumption.
    - rewrite !N.div_small by lia. reflexivity.
    - rewrite !(N.mod_small (_ / 4096)) by (apply N.Div0.div_lt_upper_bound; lia).
      exact H1. }
  subst n n'. repeat split; apply byte_to_N_inj; lia.
Qed.

Lemma group1_inj (a a' : byte) :
  let n := (Byte.to_N a * 16)%N in
  let n' := (Byte.to_N a' * 16)%N in
  JS.sextet (n / 64) = JS.sextet (n' / 64) →
  JS.sextet (n mod 64) = JS.sextet (n' mod 64) →
  a = a'.
Proof.
  intros n n' H1 H2.
  pose proof (Byte.to_N_bounded a). pose proof (Byte.to_N_bounded a').
  assert (Hlt : (n < 4096)%N ∧ (n' < 4096)%N) by (subst n n'; lia).
  destruct Hlt as [Hlt Hlt'].
  assert (Hn : n = n').
  { apply digits_inj; try lia; try assumption.
    - rewrite !N.div_small by lia. reflexivity.
    - rewrite !(N.div_small _ 4096) by lia. reflexivity.
    - rewrite !(N.mod_small (_ / 64)) by (apply N.Div0.div_lt_upper_bound; lia).
      exact H1. }
  subst n n'. apply byte_to_N_inj; lia.
Qed.

Lemma list_ind3 {A} (P : list A → Prop) :
  P [] → (∀ a, P [a]) → (∀ a b, P [a; b]) →
  (∀ a b c l, P l → P (a :: b :: c :: l)) →
  ∀ l, P l.
Proof.
  intros H0 H1 H2 H3. fix IH 1.
  intros [|a [|b [|c l]]]; [exact H0 | apply H1 | apply H2 | apply H3, IH].
Qed.

Lemma base64url_safe (bs : list byte) :
  JS.all_chars JS.url_safe (JS.base64url bs) = true.
Proof.
  induction bs as [|a|a b|a b c l IH] using list_ind3;
    cbn [JS.base64url JS.all_chars]; rewrite ?sextet_safe, ?IH; reflexivity.
Qed.

(** Distinct byte strings of the same length have distinct encodings. *)
Lemma base64url_inj (bs : list byte) :
  ∀ bs', List.length bs' = List.length bs →
         JS.base64url bs = JS.base64url bs' → bs = bs'.
Proof.
  induction bs as [|a|a b|a b c l IH] using list_ind3;
    intros bs' Hlen Heq.
  - by destruct bs'.
  - destruct bs' as [|a' [|]]; try discriminate.
    cbn [JS.base64url] in Heq. injection Heq as H1 H2.
    f_equal. by apply group1_inj.
  - destruct bs' as [|a' [|b' [|]]]; try discriminate.
    cbn [JS.base64url] in Heq. injection Heq as H1 H2 H3.
    destruct (group2_inj a b a' b' H1 H2 H3) as [-> ->]. reflexivity.
  - destruct bs' as [|a' [|b' [|c' l']]]; try discriminate.
    cbn [JS.base64url] in Heq. injection Heq as H1 H2 H3 H4 Hrest.
    destruct (group3_inj a b c a' b' c' H1 H2 H3 H4) as (-> & -> & ->).
    f_equal. f_equal. f_equal. apply IH; [simpl in Hlen; lia | exact Hrest].
Qed.

(** ** Sets of staged files *)

Lemma size_at_most_two (X fs : gset string) (p q : string) :
  X ⊆ fs ∪ {[p; q]} → (size (X ∖ fs) ≤ 2)%nat.
Proof.
  intros Hsub.
  transitivity (size ({[p; q]} : gset string)).
  - apply subseteq_size. set_solver.
  - rewrite size_union_alt, !size_singleton.
    pose proof (subseteq_size ({[q]} ∖ {[p]}) ({[q]} : gset string)) as Hq.
    rewrite size_singleton in Hq. specialize (Hq ltac:(set_solver)). lia.
Qed.

(** ** The example request *)

Lemma example_accepted (o : Oracle) :
  validateJWT o = (λ token _, Ok token) →
  accepted Example.cfg Example.req o Example.store "v1" Example.record
    Example.file.
Proof.
  intros Hjwt. repeat split; try done.
  exists "alice". rewrite Hjwt. done.
Qed.

(** ** The model on concrete inputs *)

Example max_upload_size : JS.shl 1 30 = 1073741824.
Proof. reflexivity. Qed.

Example shift_wraps_at_32_bits : JS.shl 1 31 = -2147483648.
Proof. reflexivity. Qed.

Example base64url_full_group : JS.base64url [x4d; x61; x6e] = "TWFu".
Proof. reflexivity. Qed.

Example base64url_no_padding : JS.base64url [xff; xff; xff; xfb] = "____-w".
Proof. reflexivity. Qed.

Example subtype_mp4 : subtype "video/mp4" = "mp4".
Proof. reflexivity. Qed.

Example subtype_without_slash : subtype "mp4" = "mp4".
Proof. reflexivity. Qed.

Example tall_video_is_portrait : classify (1920 / 1080) = Portrait.
Proof. reflexivity. Qed.

Example wide_video_is_landscape : classify (1080 / 1920) = Landscape.
Proof. reflexivity. Qed.

Example square_video_is_other : classify (1080 / 1080) = Other.
Proof. reflexivity. Qed.

Example probe_of_example :
  parseAspect (Some (Example.probe_doc 1080 1920)) = Ok Portrait.
Proof. reflexivity. Qed.

Example probe_without_streams :
  parseAspect (Some (JS.JObj [("programs", JS.JArr [])])) = Throw format_error.
Proof. reflexivity. Qed.

Example probe_with_null_streams :
  parseAspect (Some (JS.JObj [("streams", JS.JNull)])) = Throw TypeError.
Proof. reflexivity. Qed.

Example probe_with_text_width :
  parseAspect
    (Some (JS.JObj [("streams",
                     JS.JArr [JS.JObj [("width", JS.JStr "1080");
                                       ("height", JS.JNum 1920)]])]))
  = Throw format_error.
Proof. reflexivity. Qed.

Example successful_upload :
  fst (run Example.cfg Example.req Example.fine ∅ ∅ Example.store)
  = Ok (respondWithJSON 200
          (set_videoURL
             "https://cdn.example/portrait/AAAAAAAAAAAAAAAAAAAAAAAAAAAAAAAAAAAAAAAAAAA.mp4"
             Example.record)) ∧
  events (snd (run Example.cfg Example.req Example.fine ∅ ∅ Example.store))
  = [EGetVideo "v1"; EFormData; ERandomBytes 32; EWrite Example.raw_path;
     ESpawn (ffmpeg_argv Example.raw_path (Example.raw_path +:+ ".processed"));
     EDelete Example.raw_path;
     ESpawn (ffprobe_argv (Example.raw_path +:+ ".processed"));
     ES3Write "portrait/AAAAAAAAAAAAAAAAAAAAAAAAAAAAAAAAAAAAAAAAAAA.mp4"
       (Example.raw_path +:+ ".processed") "video/mp4";
     EUpdateVideo
       (set_videoURL
          "https://cdn.example/portrait/AAAAAAAAAAAAAAAAAAAAAAAAAAAAAAAAAAAAAAAAAAA.mp4"
          Example.record);
     EDelete (Example.raw_path +:+ ".processed")] ∧
  files (snd (run Example.cfg Example.req Example.fine ∅ ∅ Example.store)) = ∅.
Proof. repeat split; vm_compute; reflexivity. Qed.

(** ** Claims *)

(** C1, as stated, fails: when ffmpeg exits with a non-zero status the
    handler throws and the raw staged file is still in the assets
    root. *)
Lemma C1_normalize_failure_leaves_raw_file :
  fst (run Example.cfg Example.req Example.ffmpeg_fails ∅ ∅ Example.store)
  = Throw (Error "ffmpeg failed: moov atom not found") ∧
  files (snd (run Example.cfg Example.req Example.ffmpeg_fails ∅ ∅ Example.store))
  = {[Example.raw_path]}.
Proof. split; vm_compute; reflexivity. Qed.

(** C1, amended: a request that is not accepted leaves the assets root
    as it was, and a successful upload leaves neither its raw nor its
    processed file and adds no file.  A failure after staging is not
    cleaned up: when ffmpeg fails the raw staged file remains, and when
    the prober or the object-store write fails the processed file
    written by ffmpeg remains (the raw file has been deleted). *)
Theorem C1_staged_files_at_exit cfg req o fs b d :
  ((∀ videoId v video, ¬ accepted cfg req o d videoId v video) →
   (∃ e, fst (run cfg req o fs b d) = Throw e) ∧
   files (snd (run cfg req o fs b d)) = fs) ∧
  (∀ resp, fst (run cfg req o fs b d) = Ok resp →
     ∃ videoId v video a,
       published cfg req o d videoId v video a ∧
       (filePath cfg o video ∉ files (snd (run cfg req o fs b d))) ∧
       (processedFilePath cfg o video ∉ files (snd (run cfg req o fs b d))) ∧
       files (snd (run cfg req o fs b d)) ⊆ fs) ∧
  (∀ videoId v video,
     staged cfg req o d videoId v video →
     (ffmpeg_spawn o ≠ None ∨ exited (ffmpeg o) ≠ 0) →
     (∃ e, fst (run cfg req o fs b d) = Throw e) ∧
     (ffmpeg_spawn o = None →
      fst (run cfg req o fs b d)
      = Throw (Error ("ffmpeg failed: " +:+ stderr (ffmpeg o)))) ∧
     filePath cfg o video ∈ files (snd (run cfg req o fs b d))) ∧
  (∀ videoId v video,
     normalized cfg req o d videoId v video → ffmpeg_writes o = true →
     (ffprobe_spawn o ≠ None ∨ exited (ffprobe o) ≠ 0 ∨
      (∃ e, parseAspect (stdout (ffprobe o)) = Throw e) ∨ s3_io o ≠ None) →
     (∃ e, fst (run cfg req o fs b d) = Throw e) ∧
     processedFilePath cfg o video ∈ files (snd (run cfg req o fs b d)) ∧
     filePath cfg o video ∉ files (snd (run cfg req o fs b d))).
Proof.
  pose proof processed_ne_raw as Hne.
  split; [|split; [|split]].
  - intros Hnot. exits cfg req o fs b d.
    all: try (split; [eauto | reflexivity]).
    all: exfalso; open_facts; eapply Hnot; repeat first [split | eexists];
      eassumption.
  - intros resp. exits cfg req o fs b d; intros Hok; try discriminate Hok.
    exists videoId, v, video, a. split; [assumption|].
    specialize (Hne cfg o video).
    unfold fs_final, fs_processed, fs_normalized, fs_staged,
      processedFilePath in *.
    destruct (ffmpeg_writes o); set_solver.
  - intros videoId v video Hst Hexit.
    exits cfg req o fs b d; agree; try clash.
    all: split; [eauto|]; split; [intros Hsp; first [reflexivity | clash]|].
    all: unfold fs_normalized, fs_staged; destruct (ffmpeg_writes o); set_solver.
  - intros videoId v video Hnorm Hwrites Hfail.
    specialize (Hne cfg o video).
    exits cfg req o fs b d; agree; try clash.
    all: split; [eauto|].
    all: unfold fs_processed, fs_normalized, fs_staged, processedFilePath in *.
    all: rewrite Hwrites; set_solver.
Qed.

Lemma C1_staged_files_at_exit_witness :
  normalized Example.cfg Example.req Example.ffprobe_fails Example.store
    "v1" Example.record Example.file ∧
  ffmpeg_writes Example.ffprobe_fails = true ∧
  exited (ffprobe Example.ffprobe_fails) ≠ 0 ∧
  processedFilePath Example.cfg Example.ffprobe_fails Example.file
  ∈ files (snd (run Example.cfg Example.req Example.ffprobe_fails
                  ∅ ∅ Example.store)).
Proof.
  assert (Hnorm : normalized Example.cfg Example.req Example.ffprobe_fails
                    Example.store "v1" Example.record Example.file).
  { split; [|split; reflexivity]. split; [|reflexivity].
    apply example_accepted. reflexivity. }
  split; [exact Hnorm|]. split; [reflexivity|]. split; [discriminate|].
  destruct (C1_staged_files_at_exit Example.cfg Example.req
              Example.ffprobe_fails ∅ ∅ Example.store) as (_ & _ & _ & Hleft).
  destruct (Hleft "v1" Example.record Example.file Hnorm eq_refl) as (_ & Hin & _).
  - right. left. discriminate.
  - exact Hin.
Defined.

(** C2: when the probe reports numeric [width] and [height] for the
    first stream, [getVideoAspectRatio] returns the class of
    [ratio = height / width]: [Portrait] exactly when
    [|ratio - 16/9| < 0.01], [Landscape] exactly when
    [|ratio - 9/16| < 0.01], [Other] exactly when neither holds; so a
    ratio of exactly 16/9 is portrait, exactly 9/16 landscape, 1.0 other
    and 1.778 portrait. *)
Theorem C2_aspect_classification
    (filePath : string) (o : Oracle) (w0 : World)
    (doc : json) (streams streamZero : value) (width height : float) :
  ffprobe_spawn o = None → exited (ffprobe o) = 0 →
  stdout (ffprobe o) = Some doc →
  typeof (Some doc) = "object" → doc ≠ JNull →
  prop "streams" (Some doc) = Ok streams → typeof streams = "object" →
  item0 streams = Ok streamZero →
  prop "width" streamZero = Ok (Some (JNum width)) →
  prop "height" streamZero = Ok (Some (JNum height)) →
  let ratio := (height / width)%float in
  ∃ a, fst (getVideoAspectRatio filePath o w0) = Ok a ∧
    (a = Portrait ↔ in_band portrait ratio = true) ∧
    (a = Landscape ↔ in_band landscape ratio = true) ∧
    (a = Other ↔ in_band portrait ratio = false ∧
                 in_band landscape ratio = false) ∧
    (ratio = (16 / 9)%float → a = Portrait) ∧
    (ratio = (9 / 16)%float → a = Landscape) ∧
    (ratio = 1%float → a = Other) ∧
    (ratio = 1.778%float → a = Portrait).
Proof.
  intros Hspawn Hexit Hout Hobj Hnull Hstreams Hsobj Hzero Hw Hh ratio.
  exists (classify ratio). split.
  - unfold getVideoAspectRatio.
    erewrite bind_Ok
      by (cbv [Bun_spawn ffprobe_argv]; rewrite Hspawn; reflexivity).
    rewrite Hexit, Hout.
    cbn [Z.eqb negb lift fst]. unfold parseAspect.
    rewrite Hobj. destruct doc; try done.
    all: cbn [is_null String.eqb Ascii.eqb Bool.eqb negb].
    all: rewrite Hstreams; cbn [mbind result_bind]; rewrite Hsobj.
    all: cbn [String.eqb Ascii.eqb Bool.eqb negb].
    all: rewrite Hzero; cbn [mbind result_bind]; rewrite Hw.
    all: cbn [mbind result_bind typeof String.eqb Ascii.eqb Bool.eqb negb].
    all: rewrite Hh; reflexivity.
  - pose proof (bands_disjoint ratio) as Hdis.
    unfold classify.
    destruct (in_band portrait ratio) eqn:Hp;
      destruct (in_band landscape ratio) eqn:Hl;
      try (exfalso; by apply Hdis).
    all: repeat split; try done; try (intros [? ?]; done).
    all: intros Hr; rewrite Hr in Hp, Hl; vm_compute in Hp, Hl; done.
Qed.

Lemma C2_aspect_classification_witness :
  ffprobe_spawn Example.fine = None ∧
  exited (ffprobe Example.fine) = 0 ∧
  stdout (ffprobe Example.fine) = Some (Example.probe_doc 1080 1920) ∧
  fst (getVideoAspectRatio "clip.mp4.processed" Example.fine (boot ∅ ∅ ∅))
  = Ok Portrait.
Proof.
  split; [reflexivity|]. split; [reflexivity|]. split; [reflexivity|].
  destruct (C2_aspect_classification "clip.mp4.processed" Example.fine
              (boot ∅ ∅ ∅) (Example.probe_doc 1080 1920)
              (Some (JArr [JObj [("width", JNum 1080); ("height", JNum 1920)]]))
              (Some (JObj [("width", JNum 1080); ("height", JNum 1920)]))
              1080 1920 eq_refl eq_refl eq_refl eq_refl ltac:(discriminate)
              eq_refl eq_refl eq_refl eq_refl eq_refl)
    as (a & Hrun & Hportrait & _).
  rewrite Hrun. f_equal. apply Hportrait. vm_compute. reflexivity.
Defined.

(** C3: when authorization fails or any of staging, normalizing,
    probing and publishing fails, the run throws, never calls
    [updateVideo] and leaves the metadata store as it was; a call of
    [updateVideo] is always directly preceded by a successful
    object-store write. *)
Theorem C3_no_commit_unless_published cfg req o fs b d :
  ((¬ (∃ videoId v, authorized cfg req o d videoId v) ∨
    stage_io o ≠ None ∨
    ffmpeg_spawn o ≠ None ∨ exited (ffmpeg o) ≠ 0 ∨
    ffprobe_spawn o ≠ None ∨ exited (ffprobe o) ≠ 0 ∨
    (∃ e, parseAspect (stdout (ffprobe o)) = Throw e) ∨
    s3_io o ≠ None) →
   (∃ e, fst (run cfg req o fs b d) = Throw e) ∧
   db (snd (run cfg req o fs b d)) = d ∧
   ∀ v', EUpdateVideo v' ∉ events (snd (run cfg req o fs b d))) ∧
  (∀ v', EUpdateVideo v' ∈ events (snd (run cfg req o fs b d)) →
     s3_io o = None ∧
     ∃ before after key src type,
       events (snd (run cfg req o fs b d))
       = before ++ [ES3Write key src type; EUpdateVideo v'] ++ after ∧
       bucket (snd (run cfg req o fs b d)) !! key = Some (type, src)).
Proof.
  split.
  - intros Hfail.
    exits cfg req o fs b d.
    all: try (split; [eauto|split; [reflexivity|set_solver]]).
    all: agree; clash.
  - intros v' Hin. revert Hin.
    exits cfg req o fs b d; try set_solver.
    all: intros Hin; agree.
    all: split; [done|].
    all: eexists [_; _; _; _; _; _; _], [_], _, _, _.
    all: assert (v' = committed cfg o a video v) as -> by set_solver.
    all: split; [reflexivity | apply lookup_insert_eq].
Qed.

Lemma C3_no_commit_unless_published_witness :
  s3_io (Example.with_s3 (Some (OtherError "S3Error" "timeout")) Example.fine)
  ≠ None ∧
  db (snd (run Example.cfg Example.req
             (Example.with_s3 (Some (OtherError "S3Error" "timeout")) Example.fine)
             ∅ ∅ Example.store)) = Example.store.
Proof.
  split; [discriminate|].
  destruct (C3_no_commit_unless_published Example.cfg Example.req
              (Example.with_s3 (Some (OtherError "S3Error" "timeout")) Example.fine)
              ∅ ∅ Example.store) as [Hfail _].
  destruct Hfail as (_ & Hdb & _); [|exact Hdb].
  do 7 right. discriminate.
Defined.

(** C4: a request whose payload is not a file, is larger than the
    maximum or is not declared "video/mp4" is rejected: the run throws,
    the assets root, the object store and the metadata store are
    unchanged, and nothing but the record lookup and the form read has
    happened (no process spawned, no file written); for the owner of
    the record the error is a [BadRequestError], and the final state is
    the same whichever of the three checks fails. *)
Theorem C4_invalid_payload_has_no_effects cfg req o fs b d x :
  form_video req = Ok x → payload_invalid x →
  (∃ e, fst (run cfg req o fs b d) = Throw e) ∧
  files (snd (run cfg req o fs b d)) = fs ∧
  bucket (snd (run cfg req o fs b d)) = b ∧
  db (snd (run cfg req o fs b d)) = d ∧
  (∀ ev, ev ∈ events (snd (run cfg req o fs b d)) → is_effect ev = false) ∧
  (∀ videoId v, authorized cfg req o d videoId v →
     (∃ msg, fst (run cfg req o fs b d) = Throw (BadRequestError msg)) ∧
     snd (run cfg req o fs b d)
     = world fs b d [(EGetVideo videoId, fs); (EFormData, fs)]).
Proof.
  intros Hform Hbad.
  exits cfg req o fs b d.
  all: try (split; [eauto|]; split; [reflexivity|]; split; [reflexivity|];
            split; [reflexivity|]; split;
            [intros ev Hev; each_event Hev|];
            intros videoId' v' Hauth; agree; try clash;
            (split; [eauto | reflexivity])).
  all: agree; simpl in Hbad; destruct Hbad; clash.
Qed.

Lemma C4_invalid_payload_has_no_effects_witness :
  form_video (Example.upload 52428800 "video/quicktime")
  = Ok (FormFile {| file_size := 52428800; file_type := "video/quicktime" |}) ∧
  payload_invalid
    (FormFile {| file_size := 52428800; file_type := "video/quicktime" |}) ∧
  files (snd (run Example.cfg (Example.upload 52428800 "video/quicktime")
                Example.fine ∅ ∅ Example.store)) = ∅.
Proof.
  split; [reflexivity|]. split; [right; discriminate|].
  apply (C4_invalid_payload_has_no_effects Example.cfg
           (Example.upload 52428800 "video/quicktime") Example.fine
           ∅ ∅ Example.store
           (FormFile {| file_size := 52428800; file_type := "video/quicktime" |})
           eq_refl).
  right. discriminate.
Defined.

(** C5: on success the object is stored under
    [class/token.ext]: the class is the one the prober returned, the
    token is the base64url text of the 32 bytes drawn by the single call
    of [randomBytes] (43 characters of the URL-safe alphabet, from which
    the 32 bytes can be read back), and the extension is what follows
    the slash of the declared media type, here "mp4"; the record's URL
    is the distribution endpoint followed by that key. *)
Theorem C5_storage_key_shape cfg req o fs b d :
  (∀ resp, fst (run cfg req o fs b d) = Ok resp →
     ∃ videoId v video a,
       published cfg req o d videoId v video a ∧
       let key :=
         aspect_name a +:+ "/" +:+ token o +:+ "." +:+ subtype (file_type video) in
       bucket (snd (run cfg req o fs b d))
       = <[key := (file_type video, processedFilePath cfg o video)]> b ∧
       videoURL (body resp) = Some (s3CfDistribution cfg +:+ "/" +:+ key) ∧
       subtype (file_type video) = "mp4" ∧
       List.filter is_random (events (snd (run cfg req o fs b d)))
       = [ERandomBytes 32]) ∧
  token o = base64url (map (entropy o) (seq 0 32)) ∧
  List.length (map (entropy o) (seq 0 32)) = 32%nat ∧
  String.length (token o) = 43%nat ∧
  all_chars url_safe (token o) = true ∧
  (∀ o', token o = token o' →
         map (entropy o) (seq 0 32) = map (entropy o') (seq 0 32)) ∧
  (∀ major minor, indexOf major "/" = -1 →
                  subtype (major +:+ "/" +:+ minor) = minor).
Proof.
  split; [|split; [reflexivity|split; [reflexivity|split; [reflexivity|]]]].
  - intros resp. exits cfg req o fs b d; intros Hok; try discriminate Hok.
    injection Hok as <-.
    exists videoId, v, video, a. split; [assumption|].
    cbv zeta. split; [reflexivity|]. split; [reflexivity|].
    split; [|reflexivity].
    open_facts.
    match goal with H : file_type video = _ |- _ => rewrite H end.
    reflexivity.
  - split; [apply base64url_safe|]. split.
    + intros o' Htok. apply base64url_inj; [|exact Htok].
      rewrite !length_map. reflexivity.
    + apply subtype_after_slash.
Qed.

Lemma C5_storage_key_shape_witness :
  fst (run Example.cfg Example.req Example.fine ∅ ∅ Example.store)
  = Ok (respondWithJSON 200
          (set_videoURL
             "https://cdn.example/portrait/AAAAAAAAAAAAAAAAAAAAAAAAAAAAAAAAAAAAAAAAAAA.mp4"
             Example.record)) ∧
  ∃ key, key = "portrait/AAAAAAAAAAAAAAAAAAAAAAAAAAAAAAAAAAAAAAAAAAA.mp4" ∧
         is_Some (bucket (snd (run Example.cfg Example.req Example.fine
                                 ∅ ∅ Example.store)) !! key).
Proof.
  assert (Hrun : fst (run Example.cfg Example.req Example.fine ∅ ∅ Example.store)
                 = Ok (respondWithJSON 200
                         (set_videoURL
                            "https://cdn.example/portrait/AAAAAAAAAAAAAAAAAAAAAAAAAAAAAAAAAAAAAAAAAAA.mp4"
                            Example.record))).
  { vm_compute. reflexivity. }
  split; [exact Hrun|].
  destruct (C5_storage_key_shape Example.cfg Example.req Example.fine
              ∅ ∅ Example.store) as [Hkey _].
  destruct (Hkey _ Hrun) as (videoId & v & video & a & Hpub & Hbucket & _).
  cbv zeta in Hbucket.
  assert (Hvideo : video = Example.file ∧ a = Portrait).
  { unfold published, probed, normalized, staged, accepted in Hpub.
    destruct Hpub as [[[[[_ [Hform _]] _] _] (_ & _ & Hparse)] _].
    injection Hform as <-.
    vm_compute in Hparse. injection Hparse as <-. split; reflexivity. }
  destruct Hvideo as [-> ->].
  eexists. split; [reflexivity|].
  rewrite Hbucket.
  change (aspect_name Portrait +:+ "/" +:+ token Example.fine +:+ "." +:+
          subtype (file_type Example.file))
    with "portrait/AAAAAAAAAAAAAAAAAAAAAAAAAAAAAAAAAAAAAAAAAAA.mp4".
  rewrite lookup_insert_eq. eauto.
Defined.

(** C6: the handler fetches the record by id; for an identified caller
    it throws [NotFoundError] when the record is absent and
    [UserForbiddenError] when the caller is not the owner, in both cases
    with nothing done but the lookup.  In every run, an effect on the
    assets root or the object store (or any other effect) happens only
    after the lookup, for a record that exists and is owned by the
    caller. *)
Theorem C6_ownership_checked_before_effects cfg req o fs b d :
  (∀ videoId callerID, identified cfg req o videoId callerID →
     (d !! videoId = None →
      run cfg req o fs b d
      = (Throw (NotFoundError "Video not found."),
         world fs b d [(EGetVideo videoId, fs)])) ∧
     (∀ v, d !! videoId = Some v → userID v ≠ callerID →
      run cfg req o fs b d
      = (Throw (UserForbiddenError "Forbidden."),
         world fs b d [(EGetVideo videoId, fs)]))) ∧
  (∀ ev, ev ∈ events (snd (run cfg req o fs b d)) → is_effect ev = true →
     ∃ videoId v rest,
       authorized cfg req o d videoId v ∧
       events (snd (run cfg req o fs b d)) = EGetVideo videoId :: rest).
Proof.
  split.
  - intros videoId callerID Hid. split.
    + intros Hnone. exits cfg req o fs b d; agree; clash.
    + intros v Hv Hne. exits cfg req o fs b d; agree; clash.
  - intros ev. exits cfg req o fs b d; intros Hev Heff.
    all: try (each_event Hev; discriminate Heff).
    all: eexists _, _, _; (split; [|reflexivity]); open_facts.
    all: repeat first [split | eexists]; eassumption.
Qed.

Lemma C6_ownership_checked_before_effects_witness :
  identified Example.cfg (Example.upload 52428800 "video/mp4")
    (Example.with_s3 None Example.fine) "v1" "alice" ∧
  run Example.cfg (Example.upload 52428800 "video/mp4")
    (Example.with_s3 None Example.fine) ∅ ∅ ∅
  = (Throw (NotFoundError "Video not found."),
     world ∅ ∅ ∅ [(EGetVideo "v1", ∅)]).
Proof.
  assert (Hid : identified Example.cfg (Example.upload 52428800 "video/mp4")
                  (Example.with_s3 None Example.fine) "v1" "alice").
  { repeat split; try done. by exists "alice". }
  split; [exact Hid|].
  destruct (C6_ownership_checked_before_effects Example.cfg
              (Example.upload 52428800 "video/mp4")
              (Example.with_s3 None Example.fine) ∅ ∅ ∅) as [Hcheck _].
  destruct (Hcheck "v1" "alice" Hid) as [Hnone _].
  apply Hnone. apply lookup_empty.
Defined.

(** C7: the effects of a run are an initial segment of one fixed
    sequence: look up the record, read the form, draw the token, write
    the raw file, run ffmpeg from the raw to the processed path, delete
    the raw file, run ffprobe on the processed path, write the processed
    file to the object store, update the record, delete the processed
    file; a successful run is the whole sequence.  At every moment the
    local files are those present at the start plus at most the raw and
    the processed file, and from the ffprobe spawn on the raw file is
    gone. *)
Theorem C7_stages_run_in_order cfg req o fs b d :
  ∃ videoId raw key type v',
    let processed := raw +:+ ".processed" in
    let sequence :=
      [EGetVideo videoId; EFormData; ERandomBytes 32; EWrite raw;
       ESpawn (ffmpeg_argv raw processed); EDelete raw;
       ESpawn (ffprobe_argv processed); ES3Write key processed type;
       EUpdateVideo v'; EDelete processed] in
    events (snd (run cfg req o fs b d)) `prefix_of` sequence ∧
    (∀ resp, fst (run cfg req o fs b d) = Ok resp →
             events (snd (run cfg req o fs b d)) = sequence) ∧
    (∀ ev snap, (ev, snap) ∈ trace (snd (run cfg req o fs b d)) →
                snap ⊆ fs ∪ {[raw; processed]} ∧ (size (snap ∖ fs) ≤ 2)%nat) ∧
    (∀ ev snap, (ev, snap) ∈ trace (snd (run cfg req o fs b d)) →
                ev ∈ [ESpawn (ffprobe_argv processed);
                      ES3Write key processed type; EUpdateVideo v';
                      EDelete processed] →
                raw ∉ snap).
Proof.
  exits cfg req o fs b d.
  all: lazymatch goal with
       | H : published _ _ _ _ ?i ?v ?f ?a |- _ =>
           exists i, (filePath cfg o f), (fileNameWithAspectRatio o a f),
             (file_type f), (committed cfg o a f v)
       | H : probed _ _ _ _ ?i ?v ?f ?a |- _ =>
           exists i, (filePath cfg o f), (fileNameWithAspectRatio o a f),
             (file_type f), (committed cfg o a f v)
       | H : normalized _ _ _ _ ?i ?v ?f |- _ =>
           exists i, (filePath cfg o f), "", "", v
       | H : staged _ _ _ _ ?i ?v ?f |- _ =>
           exists i, (filePath cfg o f), "", "", v
       | H : accepted _ _ _ _ ?i ?v ?f |- _ =>
           exists i, (filePath cfg o f), "", "", v
       | H : authorized _ _ _ _ ?i ?v |- _ => exists i, "", "", "", v
       | H : identified _ _ _ ?i _ |- _ => exists i, "", "", "", Example.nobody
       | _ => exists "", "", "", "", Example.nobody
       end.
  all: cbv zeta; split; [eexists; reflexivity|].
  all: split; [intros resp Hok; first [discriminate Hok | reflexivity]|].
  all: pose proof processed_ne_raw as Hne;
       unfold fs_final, fs_processed, fs_normalized, fs_staged,
         processedFilePath in *.
  all: split; [intros ev snap Hin | intros ev snap Hin Hev].
  all: repeat (apply elem_of_cons in Hin as [[= -> ->]|Hin]);
       try (by apply elem_of_nil in Hin).
  all: try match goal with
           | |- ?S ⊆ ?U ∧ _ =>
               assert (Hs : S ⊆ U) by (destruct (ffmpeg_writes o); set_solver);
               split; [exact Hs | exact (size_at_most_two _ _ _ _ Hs)]
           end.
  all: try (unfold ffmpeg_argv, ffprobe_argv in Hev;
            repeat (apply elem_of_cons in Hev as [Heq|Hev]; [try discriminate Heq|]);
            by apply elem_of_nil in Hev).
  all: try specialize (Hne cfg o video).
  all: destruct (ffmpeg_writes o); set_solver.
Qed.

(** C8: no ratio lies in both tolerance bands, so taking the two
    membership tests in the other order returns the same class; a ratio
    in neither band, such as the midpoint of the two centers, is
    [Other]. *)
Theorem C8_bands_do_not_overlap (ratio : float) :
  ¬ (in_band portrait ratio = true ∧ in_band landscape ratio = true) ∧
  classify ratio = classify_landscape_first ratio ∧
  (classify ratio = Other ↔
   in_band portrait ratio = false ∧ in_band landscape ratio = false) ∧
  classify ((portrait + landscape) / 2) = Other.
Proof.
  pose proof (bands_disjoint ratio) as Hdis.
  unfold classify, classify_landscape_first.
  destruct (in_band portrait ratio) eqn:Hp;
    destruct (in_band landscape ratio) eqn:Hl;
    try (exfalso; by apply Hdis).
  all: repeat split; try done; try (intros [? ?]; done).
Qed.

(** C9: with exit status 0, output that is not JSON makes
    [getVideoAspectRatio] throw [SyntaxError], and an object whose
    [streams] array is empty makes it throw [TypeError]; neither is the
    declared format error. *)
Theorem C9_format_check_misses_malformed_output
    (filePath : string) (o : Oracle) (w : World) :
  ffprobe_spawn o = None → exited (ffprobe o) = 0 →
  (stdout (ffprobe o) = None →
   fst (getVideoAspectRatio filePath o w) = Throw SyntaxError) ∧
  (∀ fields, stdout (ffprobe o) = Some (JObj fields) →
             field "streams" fields = Some (JArr []) →
             fst (getVideoAspectRatio filePath o w) = Throw TypeError) ∧
  SyntaxError ≠ format_error ∧ TypeError ≠ format_error.
Proof.
  intros Hspawn Hexit. unfold getVideoAspectRatio.
  erewrite bind_Ok
    by (cbv [Bun_spawn ffprobe_argv]; rewrite Hspawn; reflexivity).
  rewrite Hexit. cbn [Z.eqb negb lift fst].
  repeat split; try discriminate.
  - intros ->. reflexivity.
  - intros fields -> Hs.
    cbn [parseAspect typeof String.eqb Ascii.eqb Bool.eqb negb is_null prop
         mbind result_bind].
    rewrite Hs. reflexivity.
Qed.

Lemma C9_format_check_misses_malformed_output_witness :
  ffprobe_spawn (Example.with_ffprobe (Example.tool 0 "" None) Example.fine)
  = None ∧
  exited (ffprobe (Example.with_ffprobe (Example.tool 0 "" None) Example.fine)) = 0 ∧
  fst (getVideoAspectRatio "clip.mp4.processed"
         (Example.with_ffprobe (Example.tool 0 "" None) Example.fine)
         (boot ∅ ∅ ∅)) = Throw SyntaxError.
Proof.
  split; [reflexivity|]. split; [reflexivity|].
  apply (C9_format_check_misses_malformed_output "clip.mp4.processed"
           (Example.with_ffprobe (Example.tool 0 "" None) Example.fine)
           (boot ∅ ∅ ∅)); reflexivity.
Defined.

(** C10: the maximum is [1 << 30] = 1073741824 bytes and the size check
    is strict: a file of exactly that size passes it (the run goes on to
    the media-type check and, for "video/mp4", to staging), and a file
    is rejected as too big exactly when its size is strictly larger. *)
Theorem C10_size_check_is_strict cfg req o fs b d videoId v video :
  authorized cfg req o d videoId v →
  form_video req = Ok (FormFile video) →
  MAX_UPLOAD_SIZE = 1073741824 ∧
  (MAX_UPLOAD_SIZE < file_size video →
   fst (run cfg req o fs b d)
   = Throw (BadRequestError "Thumbnail file size is too big.")) ∧
  (file_size video ≤ MAX_UPLOAD_SIZE →
   (file_type video ≠ "video/mp4" ∧
    fst (run cfg req o fs b d) = Throw (BadRequestError "Bad File Type.")) ∨
   (file_type video = "video/mp4" ∧
    EWrite (filePath cfg o video) ∈ events (snd (run cfg req o fs b d)))).
Proof.
  intros Hauth Hform. split; [reflexivity|].
  split; intros Hsize.
  - exits cfg req o fs b d; agree; try done; try lia.
  - destruct (decide (file_type video = "video/mp4")) as [Htype|Htype];
      [right|left]; (split; [done|]).
    + exits cfg req o fs b d; agree; try done; try lia; set_solver.
    + exits cfg req o fs b d; agree; try done; try lia.
Qed.

Lemma C10_size_check_is_strict_witness :
  authorized Example.cfg (Example.upload 1073741824 "video/mp4") Example.fine
    Example.store "v1" Example.record ∧
  form_video (Example.upload 1073741824 "video/mp4")
  = Ok (FormFile {| file_size := 1073741824; file_type := "video/mp4" |}) ∧
  EWrite Example.raw_path
  ∈ events (snd (run Example.cfg (Example.upload 1073741824 "video/mp4")
                   Example.fine ∅ ∅ Example.store)).
Proof.
  assert (Hauth : authorized Example.cfg (Example.upload 1073741824 "video/mp4")
                    Example.fine Example.store "v1" Example.record).
  { repeat split; try done. by exists "alice". }
  split; [exact Hauth|]. split; [reflexivity|].
  destruct (C10_size_check_is_strict Example.cfg
              (Example.upload 1073741824 "video/mp4") Example.fine ∅ ∅
              Example.store "v1" Example.record
              {| file_size := 1073741824; file_type := "video/mp4" |}
              Hauth eq_refl) as (_ & _ & Hle).
  destruct (Hle ltac:(reflexivity)) as [[Hne _]|[_ Hin]];
    [by destruct Hne | exact Hin].
Defined.

(** ** The other handlers: how a run ends *)

(** Turns the facts about one request into the shape the handlers test
    them in. *)
Ltac booleans :=
  repeat match goal with
         | H : ?x ≠ ?y |- context [String.eqb ?x ?y] =>
             rewrite (proj2 (String.eqb_neq x y) H)
         | |- context [String.eqb ?x ?x] => rewrite (String.eqb_refl x)
         | H : ?x = ?y |- context [String.eqb ?x ?y] =>
             rewrite (proj2 (String.eqb_eq x y) H)
         | H : ?m < ?x |- context [?x >? ?m] =>
             rewrite (proj2 (Z.gtb_lt x m) H)
         | H : ?x ≤ ?m |- context [?x >? ?m] =>
             rewrite (Z.gtb_ltb x m), (proj2 (Z.ltb_ge m x) H)
         | H : ?x = 0 |- context [?x =? 0] => rewrite H
         | H : ?x ≠ 0 |- context [?x =? 0] =>
             rewrite (proj2 (Z.eqb_neq x 0) H)
         end.

Ltac step := repeat first [progress go | progress booleans].

Section VideoChecks.
Context {A : Type}.
Variables (cfg : ApiConfig) (req : BunRequest) (o : Oracle).
Variables (fs : gset string) (b : gmap string (string * string)).
Variable d : gmap string Video.
Variable pipeline : Video → File → M A.

Lemma refusal_or_accepted :
  (∃ e w, Earlier.refusal cfg req o fs b d e w) ∨
  (∃ videoId v video, accepted cfg req o d videoId v video).
Proof.
  destruct (params_videoId req) as [[|c s]|] eqn:Hid;
    [left; do 2 eexists; apply Earlier.refuse_no_id; auto | |
     left; do 2 eexists; apply Earlier.refuse_no_id; auto].
  set (videoId := String c s) in *.
  assert (Hne : videoId ≠ "") by discriminate.
  destruct (bearer req) as [token|e] eqn:Hb;
    [|left; do 2 eexists; exact (Earlier.refuse_bearer _ _ _ _ _ _ _ _ Hid Hne Hb)].
  destruct (validateJWT o token (jwtSecret cfg)) as [callerID|e] eqn:Hj;
    [|left; do 2 eexists;
      exact (Earlier.refuse_jwt _ _ _ _ _ _ _ _ _ Hid Hne Hb Hj)].
  assert (Hident : identified cfg req o videoId callerID).
  { split; [done|]. split; [done|]. by exists token. }
  destruct (d !! videoId) as [v|] eqn:Hv;
    [|left; do 2 eexists;
      exact (Earlier.refuse_not_found _ _ _ _ _ _ _ _ Hident Hv)].
  destruct (decide (userID v = callerID)) as [<-|Hown];
    [|left; do 2 eexists;
      exact (Earlier.refuse_forbidden _ _ _ _ _ _ _ _ _ Hident Hv Hown)].
  assert (Hauth : authorized cfg req o d videoId v) by done.
  destruct (form_video req) as [x|e] eqn:Hform;
    [|left; do 2 eexists;
      exact (Earlier.refuse_form _ _ _ _ _ _ _ _ _ Hauth Hform)].
  destruct x as [|s0|video];
    [left; do 2 eexists;
     refine (Earlier.refuse_not_file _ _ _ _ _ _ _ _ _ Hauth Hform _); done
    |left; do 2 eexists;
     refine (Earlier.refuse_not_file _ _ _ _ _ _ _ _ _ Hauth Hform _); done |].
  destruct (Z_lt_le_dec MAX_UPLOAD_SIZE (file_size video)) as [Hbig|Hsize];
    [left; do 2 eexists;
     exact (Earlier.refuse_too_big _ _ _ _ _ _ _ _ _ Hauth Hform Hbig)|].
  destruct (decide (file_type video = "video/mp4")) as [Htype|Htype];
    [|left; do 2 eexists;
      exact (Earlier.refuse_bad_type _ _ _ _ _ _ _ _ _ Hauth Hform Hsize Htype)].
  right. by exists videoId, v, video.
Qed.

Lemma checked_refused e w :
  Earlier.refusal cfg req o fs b d e w →
  Earlier.checked cfg req pipeline o (boot fs b d) = (Throw e, w).
Proof.
  intros Href. unfold Earlier.checked.
  destruct Href as [[Hid|Hid]|videoId e Hid Hne Hb|videoId token e Hid Hne Hb Hj
                   |videoId callerID Hident Hv|videoId callerID v Hident Hv Hown
                   |videoId v e Hauth Hform|videoId v x Hauth Hform Hx
                   |videoId v video Hauth Hform Hbig
                   |videoId v video Hauth Hform Hsize Htype];
    open_facts;
    try (rewrite Hid; reflexivity).
  all: match goal with
       | Hid : params_videoId req = Some ?i, Hne : ?i ≠ "" |- _ =>
           rewrite Hid; destruct i; [by destruct Hne|]
       end.
  all: step; try reflexivity.
  all: destruct x as [| |video]; [step; reflexivity | step; reflexivity |].
  all: by destruct (Hx video).
Qed.

Lemma checked_accepted videoId v video :
  accepted cfg req o d videoId v video →
  Earlier.checked cfg req pipeline o (boot fs b d)
  = pipeline v video o
      (world fs b d [(EGetVideo videoId, fs); (EFormData, fs)]).
Proof.
  intros Hacc. unfold Earlier.checked. open_facts.
  match goal with
  | Hid : params_videoId req = Some ?i, Hne : ?i ≠ "" |- _ =>
      rewrite Hid; destruct i; [by destruct Hne|]
  end.
  step. reflexivity.
Qed.

End VideoChecks.

Lemma direct_exits cfg req o fs b d :
  Earlier.Direct.exit_at cfg req o fs b d
    (Earlier.Direct.handlerUploadVideo cfg req o (boot fs b d)).
Proof.
  rewrite (eq_refl : Earlier.Direct.handlerUploadVideo cfg req
                     = Earlier.checked cfg req _).
  destruct (refusal_or_accepted cfg req o fs b d)
    as [(e & w & Href)|(videoId & v & video & Hacc)].
  { rewrite (checked_refused _ _ _ _ _ _ _ _ _ Href).
    by apply Earlier.Direct.exit_refused. }
  rewrite (checked_accepted _ _ _ _ _ _ _ _ _ _ Hacc).
  unfold world.
  destruct (stage_io o) as [e|] eqn:Hst; go.
  { exact (Earlier.Direct.exit_stage _ _ _ _ _ _ _ _ _ _ Hacc Hst). }
  assert (Hstaged : staged cfg req o d videoId v video) by done.
  destruct (s3_io o) as [e|] eqn:Hs3; go.
  { exact (Earlier.Direct.exit_publish _ _ _ _ _ _ _ _ _ _ Hstaged Hs3). }
  assert (Hraw : filePath cfg o video ∈ fs_staged cfg o fs video).
  { unfold fs_staged. set_solver. }
  erewrite bind_Ok by (apply Bun_file_delete_ok; exact Hraw). flatten.
  exact (Earlier.Direct.exit_ok _ _ _ _ _ _ _ _ _ Hstaged Hs3).
Qed.

Lemma probed_exits cfg req o fs b d :
  Earlier.Probed.exit_at cfg req o fs b d
    (Earlier.Probed.handlerUploadVideo cfg req o (boot fs b d)).
Proof.
  rewrite (eq_refl : Earlier.Probed.handlerUploadVideo cfg req
                     = Earlier.checked cfg req _).
  destruct (refusal_or_accepted cfg req o fs b d)
    as [(e & w & Href)|(videoId & v & video & Hacc)].
  { rewrite (checked_refused _ _ _ _ _ _ _ _ _ Href).
    by apply Earlier.Probed.exit_refused. }
  rewrite (checked_accepted _ _ _ _ _ _ _ _ _ _ Hacc).
  unfold world.
  destruct (stage_io o) as [e|] eqn:Hst; go.
  { exact (Earlier.Probed.exit_stage _ _ _ _ _ _ _ _ _ _ Hacc Hst). }
  assert (Hstaged : staged cfg req o d videoId v video) by done.
  destruct (ffprobe_spawn o) as [e|] eqn:Hsq; go.
  { exact (Earlier.Probed.exit_no_ffprobe _ _ _ _ _ _ _ _ _ _ Hstaged Hsq). }
  destruct (exited (ffprobe o) =? 0) eqn:Hp; go.
  2: { apply Z.eqb_neq in Hp.
       exact (Earlier.Probed.exit_probe _ _ _ _ _ _ _ _ _ Hstaged Hsq Hp). }
  apply Z.eqb_eq in Hp.
  destruct (parseAspect (stdout (ffprobe o))) as [a|e] eqn:Hpa; go.
  2: { exact (Earlier.Probed.exit_format _ _ _ _ _ _ _ _ _ _ Hstaged Hsq Hp Hpa). }
  assert (Hm : Earlier.Probed.measured o a) by done.
  destruct (s3_io o) as [e|] eqn:Hs3; go.
  { exact (Earlier.Probed.exit_publish _ _ _ _ _ _ _ _ _ _ _ Hstaged Hm Hs3). }
  assert (Hraw : filePath cfg o video ∈ fs_staged cfg o fs video).
  { unfold fs_staged. set_solver. }
  erewrite bind_Ok by (apply Bun_file_delete_ok; exact Hraw). flatten.
  exact (Earlier.Probed.exit_ok _ _ _ _ _ _ _ _ _ _ Hstaged Hm Hs3).
Qed.

(** The handler of the claims is the same checks followed by its own
    pipeline, so a refused request ends the same way in all three
    revisions. *)
Lemma refused_everywhere (cfg : Config) req o fs b d e w :
  Earlier.refusal cfg req o fs b d e w →
  handlerUploadVideo cfg req o (boot fs b d) = (Throw e, w) ∧
  Earlier.Probed.handlerUploadVideo cfg req o (boot fs b d) = (Throw e, w) ∧
  Earlier.Direct.handlerUploadVideo cfg req o (boot fs b d) = (Throw e, w).
Proof.
  intros Href.
  rewrite (eq_refl : handlerUploadVideo cfg req = Earlier.checked cfg req _).
  rewrite (eq_refl : Earlier.Probed.handlerUploadVideo cfg req
                     = Earlier.checked cfg req _).
  rewrite (eq_refl : Earlier.Direct.handlerUploadVideo cfg req
                     = Earlier.checked cfg req _).
  by rewrite !(checked_refused _ _ _ _ _ _ _ _ _ Href).
Qed.

(** *** The thumbnail handlers *)

Ltac run_thumb :=
  cbv [mbind mret M_bind M_ret throw lift ask getVideo updateVideo
       Thumbnail.req_formData console_log Bun_write_detached emit with_files
       boot files bucket db trace app negb];
  use_facts; cbv beta iota; reflexivity.

Ltac go_thumb :=
  repeat first
    [ progress cbv beta iota delta [negb]
    | progress use_facts
    | progress booleans
    | erewrite bind_Ok by run_thumb
    | erewrite bind_Throw by run_thumb
    | progress cbv [throw] ].

Section ThumbnailChecks.
Context {A : Type}.
Variables (cfg : ApiConfig) (req : ThumbnailRequest) (o : Oracle).
Variables (fs : gset string) (b : gmap string (string * string)).
Variable d : gmap string Video.
Variable rest : string → string → Image → M A.

Lemma refusal_or_received :
  (∃ e w, Thumbnail.refusal cfg req o fs b d e w) ∨
  (∃ videoId callerID thumbnail,
     Thumbnail.received cfg req o videoId callerID thumbnail).
Proof.
  destruct (thumb_videoId req) as [[|c s]|] eqn:Hid;
    [left; do 2 eexists; apply Thumbnail.refuse_no_id; auto | |
     left; do 2 eexists; apply Thumbnail.refuse_no_id; auto].
  set (videoId := String c s) in *.
  assert (Hne : videoId ≠ "") by discriminate.
  destruct (thumb_bearer req) as [token|e] eqn:Hb;
    [|left; do 2 eexists;
      exact (Thumbnail.refuse_bearer _ _ _ _ _ _ _ _ Hid Hne Hb)].
  destruct (validateJWT o token (jwtSecret cfg)) as [callerID|e] eqn:Hj;
    [|left; do 2 eexists;
      exact (Thumbnail.refuse_jwt _ _ _ _ _ _ _ _ _ Hid Hne Hb Hj)].
  assert (Hident : Thumbnail.identified cfg req o videoId callerID).
  { split; [done|]. split; [done|]. by exists token. }
  destruct (form_thumbnail req) as [x|e] eqn:Hform;
    [|left; do 2 eexists;
      exact (Thumbnail.refuse_form _ _ _ _ _ _ _ _ _ Hident Hform)].
  destruct x as [|s0|thumbnail];
    [left; do 2 eexists;
     refine (Thumbnail.refuse_not_file _ _ _ _ _ _ _ _ _ Hident Hform _); done
    |left; do 2 eexists;
     refine (Thumbnail.refuse_not_file _ _ _ _ _ _ _ _ _ Hident Hform _); done |].
  destruct (Z_lt_le_dec Thumbnail.MAX_UPLOAD_SIZE (image_size thumbnail))
    as [Hbig|Hsize];
    [left; do 2 eexists;
     exact (Thumbnail.refuse_too_big _ _ _ _ _ _ _ _ _ Hident Hform Hbig)|].
  right. by exists videoId, callerID, thumbnail.
Qed.

Lemma thumbnail_refused e w :
  Thumbnail.refusal cfg req o fs b d e w →
  Thumbnail.checked cfg req rest o (boot fs b d) = (Throw e, w).
Proof.
  intros Href. unfold Thumbnail.checked.
  destruct Href as [[Hid|Hid]|videoId e Hid Hne Hb|videoId token e Hid Hne Hb Hj
                   |videoId callerID e Hident Hform
                   |videoId callerID x Hident Hform Hx
                   |videoId callerID thumbnail Hident Hform Hbig];
    unfold Thumbnail.identified in *;
    open_facts;
    try (rewrite Hid; reflexivity).
  all: match goal with
       | Hid : thumb_videoId req = Some ?i, Hne : ?i ≠ "" |- _ =>
           rewrite Hid; destruct i; [by destruct Hne|]
       end.
  all: go_thumb; try reflexivity.
  all: destruct x as [| |thumbnail];
    [go_thumb; reflexivity | go_thumb; reflexivity |].
  all: by destruct (Hx thumbnail).
Qed.

Lemma thumbnail_received videoId callerID thumbnail :
  Thumbnail.received cfg req o videoId callerID thumbnail →
  Thumbnail.checked cfg req rest o (boot fs b d)
  = rest videoId callerID thumbnail o (world fs b d [(EFormData, fs)]).
Proof.
  intros Hrec. unfold Thumbnail.checked.
  unfold Thumbnail.received, Thumbnail.identified in Hrec. open_facts.
  match goal with
  | Hid : thumb_videoId req = Some ?i, Hne : ?i ≠ "" |- _ =>
      rewrite Hid; destruct i; [by destruct Hne|]
  end.
  go_thumb. reflexivity.
Qed.

End ThumbnailChecks.

Lemma stored_exits cfg req o fs b d :
  Thumbnail.Stored.exit_at cfg req o fs b d
    (Thumbnail.Stored.handlerUploadThumbnail cfg req o (boot fs b d)).
Proof.
  rewrite (eq_refl : Thumbnail.Stored.handlerUploadThumbnail cfg req
                     = Thumbnail.checked cfg req _).
  destruct (refusal_or_received cfg req o fs b d)
    as [(e & w & Href)|(videoId & callerID & thumbnail & Hrec)].
  { rewrite (thumbnail_refused _ _ _ _ _ _ _ _ _ Href).
    by apply Thumbnail.Stored.exit_refused. }
  rewrite (thumbnail_received _ _ _ _ _ _ _ _ _ _ Hrec).
  unfold world.
  destruct (String.eqb (image_type thumbnail) "image/jpeg") eqn:Hjpeg;
    [|destruct (String.eqb (image_type thumbnail) "image/png") eqn:Hpng].
  3: { apply String.eqb_neq in Hjpeg, Hpng. cbn [orb negb]. cbv [throw].
       refine (Thumbnail.Stored.exit_bad_type _ _ _ _ _ _ _ _ _ Hrec _).
       by intros [|]. }
  all: assert (Himg : Thumbnail.Stored.is_image thumbnail)
    by (first [left; by apply String.eqb_eq | right; by apply String.eqb_eq]).
  all: cbn [orb negb].
  all: destruct (d !! videoId) as [v|] eqn:Hv; go_thumb;
    [|exact (Thumbnail.Stored.exit_not_found _ _ _ _ _ _ _ _ _ Hrec Himg Hv)].
  all: destruct (String.eqb (userID v) callerID) eqn:Hown; go_thumb.
  all: try (apply String.eqb_neq in Hown;
            exact (Thumbnail.Stored.exit_forbidden _ _ _ _ _ _ _ _ _ _
                     Hrec Himg Hv Hown)).
  all: apply String.eqb_eq in Hown; subst callerID.
  all: exact (Thumbnail.Stored.exit_ok _ _ _ _ _ _ _ _ _ Hrec Himg Hv).
Qed.

Lemma inline_exits cfg req o fs b d :
  Thumbnail.Inline.exit_at cfg req o fs b d
    (Thumbnail.Inline.handlerUploadThumbnail cfg req o (boot fs b d)).
Proof.
  rewrite (eq_refl : Thumbnail.Inline.handlerUploadThumbnail cfg req
                     = Thumbnail.checked cfg req _).
  destruct (refusal_or_received cfg req o fs b d)
    as [(e & w & Href)|(videoId & callerID & thumbnail & Hrec)].
  { rewrite (thumbnail_refused _ _ _ _ _ _ _ _ _ Href).
    by apply Thumbnail.Inline.exit_refused. }
  rewrite (thumbnail_received _ _ _ _ _ _ _ _ _ _ Hrec).
  unfold world.
  destruct (d !! videoId) as [v|] eqn:Hv; go_thumb;
    [|exact (Thumbnail.Inline.exit_not_found _ _ _ _ _ _ _ _ _ Hrec Hv)].
  destruct (String.eqb (userID v) callerID) eqn:Hown; go_thumb.
  2: { apply String.eqb_neq in Hown.
       exact (Thumbnail.Inline.exit_forbidden _ _ _ _ _ _ _ _ _ _ Hrec Hv Hown). }
  apply String.eqb_eq in Hown; subst callerID.
  exact (Thumbnail.Inline.exit_ok _ _ _ _ _ _ _ _ _ Hrec Hv).
Qed.

(** ** Further properties of the two tool wrappers *)

Lemma append_ne_self_r (s t : string) : t ≠ "" → s +:+ t ≠ s.
Proof. intros Ht Heq. by apply (append_ne_self s t). Qed.

(** X1: [processVideoForFastStart] returns exactly when ffmpeg could be
    started and exited with status 0; what it returns is the input path
    followed by [.processed], which is never the input path itself.
    When ffmpeg exits with another status it throws [Error] with the
    message "ffmpeg failed: " followed by the captured standard error,
    and when ffmpeg cannot be started the error of the spawn. *)
Theorem faststart_returns_a_new_path (inputFilePath : string) (o : Oracle)
    (w : World) :
  (∀ out, fst (processVideoForFastStart inputFilePath o w) = Ok out ↔
          ffmpeg_spawn o = None ∧ exited (ffmpeg o) = 0 ∧
          out = inputFilePath +:+ ".processed") ∧
  inputFilePath +:+ ".processed" ≠ inputFilePath ∧
  (ffmpeg_spawn o = None → exited (ffmpeg o) ≠ 0 →
   fst (processVideoForFastStart inputFilePath o w)
   = Throw (Error ("ffmpeg failed: " +:+ stderr (ffmpeg o)))) ∧
  (∀ e, ffmpeg_spawn o = Some e →
        fst (processVideoForFastStart inputFilePath o w) = Throw e).
Proof.
  unfold processVideoForFastStart.
  split; [|split; [by apply append_ne_self_r|split]].
  - intros out.
    destruct (ffmpeg_spawn o) as [e|] eqn:Hsp; go.
    { split; [discriminate | intros [? _]; discriminate]. }
    destruct (exited (ffmpeg o) =? 0) eqn:Hx; go.
    + apply Z.eqb_eq in Hx. cbn [fst mret M_ret]. split.
      * intros [= <-]. done.
      * intros (_ & _ & ->). reflexivity.
    + apply Z.eqb_neq in Hx. cbn [fst]. split; [discriminate|].
      intros (_ & ? & _). done.
  - intros Hsp Hx. go. booleans. go. reflexivity.
  - intros e Hsp. go. reflexivity.
Qed.

(** X2: whatever ffmpeg does, [processVideoForFastStart] leaves every
    file that was there in place, the input included; the only path
    that can appear is its own output path; the object store and the
    metadata store are untouched; and the one side effect is the ffmpeg
    process started on the input path with the output path as its last
    argument. *)
Theorem faststart_keeps_every_file (inputFilePath : string) (o : Oracle)
    (w : World) :
  let w' := snd (processVideoForFastStart inputFilePath o w) in
  files w ⊆ files w' ∧
  files w' ⊆ files w ∪ {[inputFilePath +:+ ".processed"]} ∧
  bucket w' = bucket w ∧ db w' = db w ∧
  events w'
  = events w ++
    [ESpawn ["ffmpeg"; "-i"; inputFilePath; "-movflags"; "faststart";
             "-map_metadata"; "0"; "-codec"; "copy"; "-f"; "mp4";
             inputFilePath +:+ ".processed"]].
Proof.
  unfold processVideoForFastStart, events.
  destruct (ffmpeg_spawn o) as [e|] eqn:Hsp; go.
  { cbn [snd files bucket db trace]. rewrite map_app.
    repeat split; try done. set_solver. }
  destruct (exited (ffmpeg o) =? 0); go;
    cbn [snd mret M_ret files bucket db trace]; rewrite map_app;
    (repeat split; try done); destruct (ffmpeg_writes o); set_solver.
Qed.

(** X3: [getVideoAspectRatio] only looks: whatever ffprobe answers,
    the local files, the object store and the metadata store are as
    before, and the one side effect is the ffprobe process started with
    the fixed arguments followed by the file path. *)
Theorem probe_is_read_only (filePath : string) (o : Oracle) (w : World) :
  let w' := snd (getVideoAspectRatio filePath o w) in
  files w' = files w ∧ bucket w' = bucket w ∧ db w' = db w ∧
  events w'
  = events w ++
    [ESpawn ["ffprobe"; "-v"; "error"; "-select_streams"; "v:0";
             "-show_entries"; "stream=width,height"; "-of"; "json"; filePath]].
Proof.
  unfold getVideoAspectRatio, events.
  destruct (ffprobe_spawn o) as [e|] eqn:Hsp; go.
  { cbn [snd files bucket db trace]. by rewrite map_app. }
  destruct (exited (ffprobe o) =? 0); go;
    cbn [snd lift files bucket db trace]; by rewrite map_app.
Qed.

Lemma parseAspect_ok (out : option json) (a : Aspect) :
  parseAspect out = Ok a ↔
  ∃ fields streams first width height,
    out = Some (JObj fields) ∧
    field "streams" fields = Some streams ∧
    item0 (Some streams) = Ok (Some (JObj first)) ∧
    field "width" first = Some (JNum width) ∧
    field "height" first = Some (JNum height) ∧
    a = classify (height / width).
Proof.
  split.
  - unfold parseAspect. destruct out as [doc|]; [|discriminate].
    destruct doc as [|bb|x|s|items|fields]; try discriminate.
    cbn [typeof String.eqb Ascii.eqb Bool.eqb negb is_null prop mbind result_bind].
    destruct (field "streams" fields) as [streams|] eqn:Hs; [|discriminate].
    destruct (item0 (Some streams)) as [streamZero|e] eqn:Hz.
    2: { destruct streams; try discriminate. }
    destruct streams as [|bb|x|s|items|sfields]; try discriminate.
    all: cbn [typeof String.eqb Ascii.eqb Bool.eqb negb mbind result_bind].
    all: destruct streamZero as [[|bb|x|s|items'|first]|]; try discriminate.
    all: cbn [prop mbind result_bind typeof String.eqb Ascii.eqb Bool.eqb negb].
    all: destruct (field "width" first) as [[|?|width|?|?|?]|] eqn:Hw;
      try discriminate.
    all: cbn [typeof String.eqb Ascii.eqb Bool.eqb negb].
    all: destruct (field "height" first) as [[|?|height|?|?|?]|] eqn:Hh;
      try discriminate.
    all: cbn [typeof String.eqb Ascii.eqb Bool.eqb negb].
    all: intros [= <-]; by eexists fields, _, first, width, height.
  - intros (fields & streams & first & width & height
            & -> & Hs & Hz & Hw & Hh & ->).
    unfold parseAspect.
    cbn [typeof String.eqb Ascii.eqb Bool.eqb negb is_null prop mbind result_bind].
    rewrite Hs.
    destruct streams as [|bb|x|s|items|sfields]; try discriminate.
    1: { destruct s; discriminate. }
    all: cbn [typeof String.eqb Ascii.eqb Bool.eqb negb mbind result_bind].
    all: rewrite Hz.
    all: cbn [prop mbind result_bind typeof String.eqb Ascii.eqb Bool.eqb negb].
    all: rewrite Hw.
    all: cbn [typeof String.eqb Ascii.eqb Bool.eqb negb]; rewrite Hh.
    all: reflexivity.
Qed.

(** X4: [getVideoAspectRatio] returns a class only for well-formed
    output, and then the class of [height / width]: it returns exactly
    when ffprobe could be started, exited with status 0 and printed a
    JSON object whose [streams] member has, at index 0, an object with
    numeric [width] and [height]. *)
Theorem probe_returns_only_for_well_formed_output (filePath : string)
    (o : Oracle) (w : World) (a : Aspect) :
  fst (getVideoAspectRatio filePath o w) = Ok a ↔
  ffprobe_spawn o = None ∧ exited (ffprobe o) = 0 ∧
  ∃ fields streams first width height,
    stdout (ffprobe o) = Some (JObj fields) ∧
    field "streams" fields = Some streams ∧
    item0 (Some streams) = Ok (Some (JObj first)) ∧
    field "width" first = Some (JNum width) ∧
    field "height" first = Some (JNum height) ∧
    a = classify (height / width).
Proof.
  unfold getVideoAspectRatio.
  destruct (ffprobe_spawn o) as [e|] eqn:Hsp; go.
  { split; [discriminate | intros [? _]; discriminate]. }
  destruct (exited (ffprobe o) =? 0) eqn:Hx; go.
  - apply Z.eqb_eq in Hx. cbn [fst lift]. rewrite parseAspect_ok. naive_solver.
  - apply Z.eqb_neq in Hx. cbn [fst]. split; [discriminate|].
    intros (_ & ? & _). done.
Qed.

Lemma parseAspect_errors (out : option json) (e : error) :
  parseAspect out = Throw e →
  (out = None ∧ e = SyntaxError) ∨ (out ≠ None ∧ e = TypeError) ∨
  (out ≠ None ∧ e = format_error).
Proof.
  unfold parseAspect. destruct out as [doc|]; [|intros [= <-]; by left].
  intros H. right.
  assert (e = TypeError ∨ e = format_error) as [->| ->]; [|by left|by right].
  revert H.
  destruct doc as [|bb|x|s|items|fields];
    try (intros [= <-]; by right).
  cbn [typeof String.eqb Ascii.eqb Bool.eqb negb is_null prop mbind result_bind].
  destruct (field "streams" fields) as [streams|] eqn:Hs;
    [|intros [= <-]; by right].
  destruct streams as [|bb|x|s|items|sfields];
    cbn [typeof String.eqb Ascii.eqb Bool.eqb negb item0 mbind result_bind];
    try (intros [= <-]; by auto).
  all: match goal with
       | |- context [prop "width" ?z] =>
           destruct z as [[|?|?|?|?|first]|];
           cbn [prop mbind result_bind typeof String.eqb Ascii.eqb Bool.eqb negb];
           try (intros [= <-]; by auto)
       end.
  all: destruct (field "width" first) as [[|?|width|?|?|?]|];
    cbn [typeof String.eqb Ascii.eqb Bool.eqb negb];
    try (intros [= <-]; by auto).
  all: destruct (field "height" first) as [[|?|height|?|?|?]|];
    cbn [typeof String.eqb Ascii.eqb Bool.eqb negb];
    try (intros [= <-]; by auto).
  all: discriminate.
Qed.

(** X5: every failure of [getVideoAspectRatio] is one of five: the
    error of a spawn that failed; [Error] carrying the standard error
    of ffprobe when the exit status is not 0, whatever was printed; and,
    with status 0, [SyntaxError] when the output is not JSON, or a
    [TypeError] or the format [Error] when it is. *)
Theorem probe_failures (filePath : string) (o : Oracle) (w : World)
    (e : error) :
  fst (getVideoAspectRatio filePath o w) = Throw e →
  ffprobe_spawn o = Some e ∨
  (ffprobe_spawn o = None ∧ exited (ffprobe o) ≠ 0 ∧
   e = Error (stderr (ffprobe o))) ∨
  (ffprobe_spawn o = None ∧ exited (ffprobe o) = 0 ∧
   ((stdout (ffprobe o) = None ∧ e = SyntaxError) ∨
    (stdout (ffprobe o) ≠ None ∧ e = TypeError) ∨
    (stdout (ffprobe o) ≠ None ∧
     e = Error "Video metadata JSON doesn't match expected format."))).
Proof.
  unfold getVideoAspectRatio.
  destruct (ffprobe_spawn o) as [e'|] eqn:Hsp; go.
  { intros [= ->]. by left. }
  destruct (exited (ffprobe o) =? 0) eqn:Hx; go.
  - apply Z.eqb_eq in Hx. cbn [fst lift]. intros H%parseAspect_errors.
    right. right. done.
  - apply Z.eqb_neq in Hx. cbn [fst]. intros [= <-]. right. left. done.
Qed.

Lemma probe_failures_witness :
  fst (getVideoAspectRatio "clip.mp4" Example.ffprobe_fails (boot ∅ ∅ ∅))
  = Throw (Error "Invalid data found") ∧
  (ffprobe_spawn Example.ffprobe_fails = Some (Error "Invalid data found") ∨
   exited (ffprobe Example.ffprobe_fails) ≠ 0 ∨
   exited (ffprobe Example.ffprobe_fails) = 0).
Proof.
  assert (Hrun : fst (getVideoAspectRatio "clip.mp4" Example.ffprobe_fails
                        (boot ∅ ∅ ∅))
                 = Throw (Error "Invalid data found")) by reflexivity.
  split; [exact Hrun|].
  destruct (probe_failures _ _ _ _ Hrun) as [H|[(_ & H & _)|(_ & H & _)]];
    auto.
Defined.

(** ** Further properties of the classifier *)

Lemma classify_unbounded (r : float) :
  Prim2SF r = S754_nan ∨ (∃ s, Prim2SF r = S754_infinity s) →
  classify r = Other.
Proof.
  intros H. unfold classify, in_band.
  rewrite !ltb_spec, !abs_spec, !sub_spec.
  change (Prim2SF portrait) with Binary64.center_p.
  change (Prim2SF landscape) with Binary64.center_l.
  change (Prim2SF tolerance) with Binary64.width_t.
  destruct H as [->|[s ->]]; [reflexivity | destruct s; reflexivity].
Qed.

(** X6: a width of zero does not make the probe fail: for every height
    the quotient is an infinity or not a number, and its class is
    [Other].  The same holds for a width of minus zero. *)
Theorem zero_width_is_other (height : float) :
  classify (height / 0) = Other ∧ classify (height / (-0)) = Other ∧
  parseAspect (Some (Example.probe_doc 0 height)) = Ok Other.
Proof.
  assert (H0 : classify (height / 0) = Other).
  { apply classify_unbounded. rewrite div_spec.
    change (Prim2SF 0) with (S754_zero false). unfold SF64div.
    destruct (Prim2SF height) as [s|s| |s m e]; cbn [SFdiv]; eauto. }
  split; [exact H0|]. split.
  - apply classify_unbounded. rewrite div_spec.
    change (Prim2SF (-0)) with (S754_zero true). unfold SF64div.
    destruct (Prim2SF height) as [s|s| |s m e]; cbn [SFdiv]; eauto.
  - change (parseAspect (Some (Example.probe_doc 0 height)))
      with (Ok (A := Aspect) (classify (height / 0))).
    by rewrite H0.
Qed.

Lemma in_band_portrait_at_least_one (r : float) :
  in_band portrait r = true → Binary64.at_least_one (Prim2SF r) = true.
Proof.
  unfold in_band. rewrite ltb_spec, abs_spec, sub_spec.
  change (Prim2SF portrait) with Binary64.center_p.
  change (Prim2SF tolerance) with Binary64.width_t.
  intros H. destruct (Binary64.at_least_one (Prim2SF r)) eqn:Hx; [done|].
  rewrite (Binary64Facts.far_from_p _ (Prim2SF_valid r) Hx) in H. done.
Qed.

Lemma in_band_landscape_below_one (r : float) :
  in_band landscape r = true → Binary64.at_least_one (Prim2SF r) = false.
Proof.
  unfold in_band. rewrite ltb_spec, abs_spec, sub_spec.
  change (Prim2SF landscape) with Binary64.center_l.
  change (Prim2SF tolerance) with Binary64.width_t.
  intros H. destruct (Binary64.at_least_one (Prim2SF r)) eqn:Hx; [|done].
  rewrite (Binary64Facts.far_from_l _ (Prim2SF_valid r) Hx) in H. done.
Qed.

(** X7: a ratio classified as portrait is at least 1 and a ratio
    classified as landscape is below 1, as binary64 comparisons: the
    class never contradicts which of height and width is the larger. *)
Theorem portrait_is_at_least_one (ratio : float) :
  (classify ratio = Portrait → (1 <=? ratio)%float = true) ∧
  (classify ratio = Landscape → (ratio <? 1)%float = true).
Proof.
  unfold classify. split.
  - destruct (in_band portrait ratio) eqn:Hp;
      [|destruct (in_band landscape ratio); discriminate].
    intros _. apply in_band_portrait_at_least_one in Hp.
    rewrite leb_spec.
    change (Prim2SF 1) with (S754_finite false 4503599627370496 (-52)).
    pose proof (Prim2SF_valid ratio) as Hv.
    destruct (Prim2SF ratio) as [s|s| |[] m e]; try discriminate.
    cbn [Binary64.at_least_one] in Hp. apply Z.leb_le in Hp.
    apply Binary64Facts.valid_finite in Hv as [_ Hm].
    specialize (Hm ltac:(lia)).
    unfold SFleb. cbn [SFcompare].
    destruct (Z.compare_spec (-52) e) as [He|He|He]; [|reflexivity|lia].
    rewrite Pos.compare_cont_spec, Pos2Z.inj_compare. cbn [Pos.switch_Eq].
    destruct (Z.compare_spec 4503599627370496 (Z.pos m)); [reflexivity..|lia].
  - destruct (in_band portrait ratio); [discriminate|].
    destruct (in_band landscape ratio) eqn:Hl; [|discriminate].
    intros _. pose proof (in_band_landscape_below_one _ Hl) as Hx.
    unfold in_band in Hl. rewrite ltb_spec, abs_spec, sub_spec in Hl.
    change (Prim2SF landscape) with Binary64.center_l in Hl.
    change (Prim2SF tolerance) with Binary64.width_t in Hl.
    rewrite ltb_spec.
    change (Prim2SF 1) with (S754_finite false 4503599627370496 (-52)).
    destruct (Prim2SF ratio) as [s|s| |s m e].
    + reflexivity.
    + destruct s; discriminate Hl.
    + discriminate Hl.
    + destruct s; [reflexivity|].
      cbn [Binary64.at_least_one] in Hx. apply Z.leb_gt in Hx.
      unfold SFltb. cbn [SFcompare].
      destruct (Z.compare_spec e (-52)); [lia|reflexivity|lia].
Qed.

(** ** Further properties of the upload handler *)

(** X8: a successful upload answers 200 with the stored record; that
    record is the fetched one with only its video URL replaced (id,
    owner and thumbnail URL are kept), it is stored under the id of the
    fetched record, and no other record changes. *)
Theorem upload_rewrites_only_the_video_url cfg req o fs b d resp :
  fst (run cfg req o fs b d) = Ok resp →
  ∃ videoId v,
    d !! videoId = Some v ∧ status resp = 200 ∧
    id (body resp) = id v ∧ userID (body resp) = userID v ∧
    thumbnailURL (body resp) = thumbnailURL v ∧
    is_Some (videoURL (body resp)) ∧
    db (snd (run cfg req o fs b d)) = <[id v := body resp]> d ∧
    ∀ k, k ≠ id v → db (snd (run cfg req o fs b d)) !! k = d !! k.
Proof.
  exits cfg req o fs b d; intros Hok; try discriminate Hok.
  injection Hok as <-. exists videoId, v. open_facts.
  cbn [respondWithJSON status body committed set_videoURL id userID
       thumbnailURL videoURL].
  repeat split; try done.
  intros k Hk. by rewrite lookup_insert_ne.
Qed.

Lemma upload_rewrites_only_the_video_url_witness :
  ∃ resp,
    fst (run Example.cfg Example.req Example.fine ∅ ∅ Example.store) = Ok resp ∧
    ∃ videoId v,
      Example.store !! videoId = Some v ∧ status resp = 200 ∧
      id (body resp) = id v ∧ userID (body resp) = userID v ∧
      thumbnailURL (body resp) = thumbnailURL v ∧
      is_Some (videoURL (body resp)) ∧
      db (snd (run Example.cfg Example.req Example.fine ∅ ∅ Example.store))
      = <[id v := body resp]> Example.store ∧
      ∀ k, k ≠ id v →
           db (snd (run Example.cfg Example.req Example.fine ∅ ∅ Example.store))
             !! k = Example.store !! k.
Proof.
  eexists. split; [vm_compute; reflexivity|].
  apply (upload_rewrites_only_the_video_url Example.cfg Example.req
           Example.fine ∅ ∅ Example.store).
  vm_compute. reflexivity.
Defined.

Lemma append_inj_same_length (s s' t t' : string) :
  String.length s = String.length s' → s +:+ t = s' +:+ t' → s = s' ∧ t = t'.
Proof.
  revert s'. induction s as [|c s IH]; intros [|c' s'] Hlen Heq;
    try discriminate Hlen.
  - by split.
  - injection Hlen as Hlen.
    change (String c (s +:+ t) = String c' (s' +:+ t')) in Heq.
    injection Heq as -> Heq.
    destruct (IH s' Hlen Heq) as [-> ->]. by split.
Qed.



Lemma all_chars_append (p : ascii → bool) (s t : string) :
  all_chars p (s +:+ t) = all_chars p s && all_chars p t.
Proof.
  induction s as [|c s IH]; [reflexivity|].
  change (all_chars p (String c (s +:+ t)) = all_chars p (String c s) && all_chars p t).
  cbn [all_chars]. rewrite IH. by rewrite andb_assoc.
Qed.

Lemma all_chars_weaken (p q : ascii → bool) (s : string) :
  (∀ c, p c = true → q c = true) → all_chars p s = true → all_chars q s = true.
Proof.
  intros Hpq. induction s as [|c s IH]; [done|]. cbn [all_chars].
  intros [Hc Hs]%andb_prop. rewrite (Hpq _ Hc), (IH Hs). reflexivity.
Qed.

Lemma url_safe_not_slash (c : ascii) :
  url_safe c = true → negb (Ascii.eqb c "/") = true.
Proof.
  destruct (Ascii.eqb c "/") eqn:Hc; [|reflexivity].
  apply Ascii.eqb_eq in Hc. subst c. vm_compute. discriminate.
Qed.

Lemma index_without_slash (s : string) :
  no_slash_in s = true → String.index 0 "/" s = None.
Proof.
  unfold no_slash_in. induction s as [|c s IH]; [reflexivity|].
  cbn [all_chars]. intros [Hc Hs]%andb_prop.
  cbn [String.index String.prefix]. rewrite (IH Hs).
  destruct (Ascii.ascii_dec "/" c) as [<-|]; [discriminate Hc | reflexivity].
Qed.

Lemma fileName_without_slash (o : Oracle) (video : File) :
  file_type video = "video/mp4" → no_slash_in (fileName o video) = true.
Proof.
  intros Htype. unfold fileName, no_slash_in. rewrite Htype.
  rewrite all_chars_append.
  rewrite (all_chars_weaken url_safe _ (token o) url_safe_not_slash
             (base64url_safe _)).
  reflexivity.
Qed.

(** X10: the name under which an accepted upload is staged contains no
    path separator, so the staged path lies directly under the assets
    root; and the object key has its first separator right after the
    class, with the staged name, free of separators, as all that
    follows. *)
Theorem staged_name_has_no_separator (o : Oracle) (a : Aspect) (video : File) :
  file_type video = "video/mp4" →
  indexOf (fileName o video) "/" = -1 ∧
  indexOf (fileNameWithAspectRatio o a video) "/"
  = Z.of_nat (String.length (aspect_name a)) ∧
  slice (fileNameWithAspectRatio o a video)
    (indexOf (fileNameWithAspectRatio o a video) "/" + 1)
  = fileName o video.
Proof.
  intros Htype.
  pose proof (index_without_slash _ (fileName_without_slash o video Htype))
    as Hname.
  assert (Hclass : String.index 0 "/" (aspect_name a) = None)
    by (destruct a; reflexivity).
  split; [unfold indexOf; by rewrite Hname|]. split.
  - unfold indexOf, fileNameWithAspectRatio.
    by rewrite (index_no_slash _ _ Hclass).
  - apply (subtype_after_slash (aspect_name a) (fileName o video)).
    unfold indexOf. by rewrite Hclass.
Qed.

Lemma staged_name_has_no_separator_witness :
  file_type Example.file = "video/mp4" ∧
  indexOf (fileName Example.fine Example.file) "/" = -1 ∧
  indexOf (fileNameWithAspectRatio Example.fine Portrait Example.file) "/" = 8.
Proof.
  split; [reflexivity|].
  destruct (staged_name_has_no_separator Example.fine Portrait Example.file
              eq_refl) as (H1 & H2 & _).
  split; [exact H1 | exact H2].
Defined.

Lemma insert_keeps_well_keyed (d : gmap string Video) (k : string) (v v' : Video) :
  well_keyed d → d !! k = Some v → id v' = id v →
  well_keyed (<[id v := v']> d) ∧
  dom (<[id v := v']> d) = (dom d : gset string).
Proof.
  intros Hd Hv Hid. pose proof (Hd _ _ Hv) as Hk. subst k. split.
  - intros k x. destruct (decide (k = id v)) as [->|Hne].
    + rewrite lookup_insert_eq. by intros [= <-].
    + rewrite lookup_insert_ne by done. apply Hd.
  - apply dom_insert_lookup_L. by rewrite Hv.
Qed.

(** ** The earlier revisions of the video handler *)

(** Case analysis on how a run of an earlier revision ends. *)
Ltac open_refusal :=
  try match goal with
      | H : Earlier.refusal _ _ _ _ _ _ _ _ |- _ => destruct H
      end.

Ltac exits_direct cfg req o fs b d :=
  unfold Earlier.Direct.run;
  generalize (direct_exits cfg req o fs b d);
  generalize (Earlier.Direct.handlerUploadVideo cfg req o (boot fs b d));
  intros ? []; open_refusal;
  cbv beta delta [Earlier.Direct.script_remote Earlier.script_staging world];
  cbn [fst snd files bucket db trace events map take app].

Ltac exits_probed cfg req o fs b d :=
  unfold Earlier.Probed.run;
  generalize (probed_exits cfg req o fs b d);
  generalize (Earlier.Probed.handlerUploadVideo cfg req o (boot fs b d));
  intros ? []; open_refusal;
  cbv beta delta [Earlier.Probed.script_remote Earlier.Probed.script_local
                  Earlier.script_staging world];
  cbn [fst snd files bucket db trace events map take app].

(** X11: in a store where every record sits under its own id, each of
    the three revisions of the video handler leaves a store of the same
    kind with the same set of ids: a run creates no record, removes
    none and never files a record under another id. *)
Theorem video_handlers_keep_the_store_well_keyed
    (cfg : Config) req o fs b d :
  well_keyed d →
  (well_keyed (db (snd (run cfg req o fs b d))) ∧
   dom (db (snd (run cfg req o fs b d))) = (dom d : gset string)) ∧
  (well_keyed (db (snd (Earlier.Probed.run cfg req o fs b d))) ∧
   dom (db (snd (Earlier.Probed.run cfg req o fs b d))) = (dom d : gset string)) ∧
  (well_keyed (db (snd (Earlier.Direct.run cfg req o fs b d))) ∧
   dom (db (snd (Earlier.Direct.run cfg req o fs b d))) = (dom d : gset string)).
Proof.
  intros Hd. split; [|split].
  - exits cfg req o fs b d; try (by split).
    all: open_facts; by eapply insert_keeps_well_keyed.
  - exits_probed cfg req o fs b d; try (by split).
    open_facts; by eapply insert_keeps_well_keyed.
  - exits_direct cfg req o fs b d; try (by split).
    open_facts; by eapply insert_keeps_well_keyed.
Qed.

Lemma example_store_well_keyed : well_keyed Example.store.
Proof.
  unfold Example.store. intros k v [<- <-]%lookup_singleton_Some. reflexivity.
Qed.

Lemma video_handlers_keep_the_store_well_keyed_witness :
  well_keyed Example.store ∧
  dom (db (snd (run Sample.cfg Example.req Example.fine ∅ ∅ Example.store)))
  = ({["v1"]} : gset string).
Proof.
  split; [exact example_store_well_keyed|].
  destruct (video_handlers_keep_the_store_well_keyed Sample.cfg Example.req
              Example.fine ∅ ∅ Example.store example_store_well_keyed)
    as [[_ Hdom] _].
  rewrite Hdom. unfold Example.store. by rewrite dom_singleton_L.
Defined.



(** X13: every run of that revision is an initial segment of one fixed
    sequence (look up, read the form, draw the token, write the staged
    file, write the object, update the record, delete the staged file),
    the whole of it on success; no external process is ever started,
    and the only local file a run ever adds is the staged one. *)
Theorem direct_upload_order (cfg : Config) req o fs b d :
  ∃ videoId raw key type v',
    let sequence :=
      [EGetVideo videoId; EFormData; ERandomBytes 32; EWrite raw;
       ES3Write key raw type; EUpdateVideo v'; EDelete raw] in
    events (snd (Earlier.Direct.run cfg req o fs b d)) `prefix_of` sequence ∧
    (∀ r, fst (Earlier.Direct.run cfg req o fs b d) = Ok r →
          events (snd (Earlier.Direct.run cfg req o fs b d)) = sequence) ∧
    (∀ argv, ESpawn argv ∉ events (snd (Earlier.Direct.run cfg req o fs b d))) ∧
    (∀ ev snap, (ev, snap) ∈ trace (snd (Earlier.Direct.run cfg req o fs b d)) →
                snap ⊆ fs ∪ {[raw]}).
Proof.
  exits_direct cfg req o fs b d.
  all: lazymatch goal with
       | H : staged _ _ _ _ ?i ?v ?f |- _ =>
           exists i, (filePath cfg o f), (fileName o f), (file_type f),
             (Earlier.Direct.committed cfg o f v)
       | H : accepted _ _ _ _ ?i ?v ?f |- _ =>
           exists i, (filePath cfg o f), "", "", v
       | H : authorized _ _ _ _ ?i ?v |- _ => exists i, "", "", "", v
       | H : identified _ _ _ ?i _ |- _ => exists i, "", "", "", Example.nobody
       | _ => exists "", "", "", "", Example.nobody
       end.
  all: cbv zeta; split; [eexists; reflexivity|].
  all: split; [intros r Hok; first [discriminate Hok | reflexivity]|].
  all: split; [intros argv Hin | intros ev snap Hin].
  all: repeat (apply elem_of_cons in Hin as [Heq|Hin];
               [first [discriminate Heq | injection Heq as -> ->]|]);
       try (by apply elem_of_nil in Hin).
  all: unfold fs_staged; set_solver.
Qed.

(** X14: when the object store turns the write down, that revision
    throws the store's error with the staged file still in the assets
    root; the record and the bucket are as before. *)
Theorem direct_upload_failure_keeps_the_staged_file
    (cfg : Config) req o fs b d videoId v video e :
  staged cfg req o d videoId v video → s3_io o = Some e →
  fst (Earlier.Direct.run cfg req o fs b d) = Throw e ∧
  files (snd (Earlier.Direct.run cfg req o fs b d))
  = {[filePath cfg o video]} ∪ fs ∧
  bucket (snd (Earlier.Direct.run cfg req o fs b d)) = b ∧
  db (snd (Earlier.Direct.run cfg req o fs b d)) = d.
Proof.
  intros Hst Hs3. exits_direct cfg req o fs b d; agree; try clash.
  done.
Qed.

Lemma direct_upload_failure_keeps_the_staged_file_witness :
  s3_io Sample.s3_down = Some (OtherError "S3Error" "AccessDenied") ∧
  files (snd (Earlier.Direct.run Sample.cfg Example.req Sample.s3_down ∅ ∅
                Example.store))
  = {[Example.raw_path]} ∪ ∅.
Proof.
  split; [reflexivity|].
  assert (Hst : staged Sample.cfg Example.req Sample.s3_down Example.store "v1"
                  Example.record Example.file).
  { split; [by apply example_accepted | reflexivity]. }
  destruct (direct_upload_failure_keeps_the_staged_file Sample.cfg Example.req
              Sample.s3_down ∅ ∅ Example.store "v1" Example.record Example.file
              _ Hst eq_refl)
    as (_ & Hfiles & _).
  exact Hfiles.
Defined.



(** X16: in that revision a failure after staging is not cleaned up:
    when ffprobe cannot be started, exits with a non-zero status or
    prints something the parser rejects, or when the object store turns
    the write down, the run throws with the staged file still in the
    assets root and the record unchanged. *)
Theorem probed_upload_failure_keeps_the_staged_file
    (cfg : Config) req o fs b d videoId v video :
  staged cfg req o d videoId v video →
  (ffprobe_spawn o ≠ None ∨ exited (ffprobe o) ≠ 0 ∨
   (∃ e, parseAspect (stdout (ffprobe o)) = Throw e) ∨ s3_io o ≠ None) →
  (∃ e, fst (Earlier.Probed.run cfg req o fs b d) = Throw e) ∧
  files (snd (Earlier.Probed.run cfg req o fs b d))
  = {[filePath cfg o video]} ∪ fs ∧
  db (snd (Earlier.Probed.run cfg req o fs b d)) = d.
Proof.
  intros Hst Hfail.
  exits_probed cfg req o fs b d; unfold Earlier.Probed.measured in *;
    agree; try clash.
  all: split; [eauto|]; split; reflexivity.
Qed.

Lemma probed_upload_failure_keeps_the_staged_file_witness :
  exited (ffprobe Example.ffprobe_fails) ≠ 0 ∧
  files (snd (Earlier.Probed.run Sample.cfg Example.req Example.ffprobe_fails
                ∅ ∅ Example.store))
  = {[Example.raw_path]} ∪ ∅.
Proof.
  split; [discriminate|].
  assert (Hst : staged Sample.cfg Example.req Example.ffprobe_fails
                  Example.store "v1" Example.record Example.file).
  { split; [by apply example_accepted | reflexivity]. }
  destruct (probed_upload_failure_keeps_the_staged_file Sample.cfg Example.req
              Example.ffprobe_fails ∅ ∅ Example.store "v1" Example.record
              Example.file Hst)
    as (_ & Hfiles & _).
  - right. left. discriminate.
  - exact Hfiles.
Defined.

(** X17: every run of the probing revision is an initial segment of
    one fixed sequence, the whole of it on success; the only process it
    ever starts is ffprobe on the staged file (ffmpeg is never run), and
    the only local file a run ever adds is the staged one. *)
Theorem probed_upload_order (cfg : Config) req o fs b d :
  ∃ videoId raw key type v',
    let sequence :=
      [EGetVideo videoId; EFormData; ERandomBytes 32; EWrite raw;
       ESpawn (ffprobe_argv raw); ES3Write key raw type; EUpdateVideo v';
       EDelete raw] in
    events (snd (Earlier.Probed.run cfg req o fs b d)) `prefix_of` sequence ∧
    (∀ r, fst (Earlier.Probed.run cfg req o fs b d) = Ok r →
          events (snd (Earlier.Probed.run cfg req o fs b d)) = sequence) ∧
    (∀ argv, ESpawn argv ∈ events (snd (Earlier.Probed.run cfg req o fs b d)) →
             argv = ffprobe_argv raw) ∧
    (∀ ev snap, (ev, snap) ∈ trace (snd (Earlier.Probed.run cfg req o fs b d)) →
                snap ⊆ fs ∪ {[raw]}).
Proof.
  exits_probed cfg req o fs b d.
  all: lazymatch goal with
       | H : staged _ _ _ _ ?i ?v ?f, M : Earlier.Probed.measured _ ?a |- _ =>
           exists i, (filePath cfg o f), (fileNameWithAspectRatio o a f),
             (file_type f), (Earlier.Probed.committed cfg o a f v)
       | H : staged _ _ _ _ ?i ?v ?f |- _ =>
           exists i, (filePath cfg o f), "", "", v
       | H : accepted _ _ _ _ ?i ?v ?f |- _ =>
           exists i, (filePath cfg o f), "", "", v
       | H : authorized _ _ _ _ ?i ?v |- _ => exists i, "", "", "", v
       | H : identified _ _ _ ?i _ |- _ => exists i, "", "", "", Example.nobody
       | _ => exists "", "", "", "", Example.nobody
       end.
  all: cbv zeta; split; [eexists; reflexivity|].
  all: split; [intros r Hok; first [discriminate Hok | reflexivity]|].
  all: split; [intros argv Hin | intros ev snap Hin].
  all: repeat (apply elem_of_cons in Hin as [Heq|Hin];
               [first [discriminate Heq | injection Heq as -> ->
                      | injection Heq as ->]|]);
       try (by apply elem_of_nil in Hin).
  all: try reflexivity.
  all: unfold fs_staged; set_solver.
Qed.

Lemma final_stage_failure (cfg : ApiConfig) req o fs b d videoId v video e :
  accepted cfg req o d videoId v video → stage_io o = Some e →
  handlerUploadVideo cfg req o (boot fs b d)
  = (Throw e,
     world fs b d
       [(EGetVideo videoId, fs); (EFormData, fs); (ERandomBytes 32, fs);
        (EWrite (filePath cfg o video), fs)]).
Proof.
  intros Hacc Hst. generalize (handler_exits cfg req o fs b d).
  generalize (handlerUploadVideo cfg req o (boot fs b d)).
  intros ? []; agree; try clash. reflexivity.
Qed.

Lemma probed_stage_failure (cfg : Config) req o fs b d videoId v video e :
  accepted cfg req o d videoId v video → stage_io o = Some e →
  Earlier.Probed.handlerUploadVideo cfg req o (boot fs b d)
  = (Throw e,
     world fs b d
       [(EGetVideo videoId, fs); (EFormData, fs); (ERandomBytes 32, fs);
        (EWrite (filePath cfg o video), fs)]).
Proof.
  intros Hacc Hst. generalize (probed_exits cfg req o fs b d).
  generalize (Earlier.Probed.handlerUploadVideo cfg req o (boot fs b d)).
  intros ? []; open_refusal; unfold Earlier.Probed.measured in *;
    agree; try clash.
  reflexivity.
Qed.

Lemma direct_stage_failure (cfg : Config) req o fs b d videoId v video e :
  accepted cfg req o d videoId v video → stage_io o = Some e →
  Earlier.Direct.handlerUploadVideo cfg req o (boot fs b d)
  = (Throw e,
     world fs b d
       [(EGetVideo videoId, fs); (EFormData, fs); (ERandomBytes 32, fs);
        (EWrite (filePath cfg o video), fs)]).
Proof.
  intros Hacc Hst. generalize (direct_exits cfg req o fs b d).
  generalize (Earlier.Direct.handlerUploadVideo cfg req o (boot fs b d)).
  intros ? []; open_refusal; agree; try clash.
  reflexivity.
Qed.

(** X18: the three revisions of the video handler differ only after
    staging: unless the request is accepted and its file staged, all
    three end with the same error and leave the same trace, with the
    assets root, the bucket and the records as they were. *)
Theorem revisions_differ_only_after_staging (cfg : Config) req o fs b d :
  (∃ videoId v video, staged cfg req o d videoId v video) ∨
  (∃ e w,
     run cfg req o fs b d = (Throw e, w) ∧
     Earlier.Probed.run cfg req o fs b d = (Throw e, w) ∧
     Earlier.Direct.run cfg req o fs b d = (Throw e, w) ∧
     files w = fs ∧ bucket w = b ∧ db w = d).
Proof.
  unfold run, Earlier.Probed.run, Earlier.Direct.run.
  destruct (refusal_or_accepted cfg req o fs b d)
    as [(e & w & Href)|(videoId & v & video & Hacc)].
  - right. exists e, w.
    destruct (refused_everywhere cfg req o fs b d e w Href) as (-> & -> & ->).
    destruct Href; done.
  - destruct (stage_io o) as [e|] eqn:Hst.
    + right. eexists e, _.
      rewrite (final_stage_failure _ _ _ fs b _ _ _ _ _ Hacc Hst).
      rewrite (probed_stage_failure _ _ _ fs b _ _ _ _ _ Hacc Hst).
      rewrite (direct_stage_failure _ _ _ fs b _ _ _ _ _ Hacc Hst).
      done.
    + left. by exists videoId, v, video.
Qed.

(** ** The thumbnail handlers *)

Ltac open_thumbnail :=
  unfold Thumbnail.received, Thumbnail.identified, Thumbnail.Stored.is_image
    in *.

Ltac exits_stored cfg req o fs b d :=
  unfold Thumbnail.Stored.run;
  generalize (stored_exits cfg req o fs b d);
  generalize (Thumbnail.Stored.handlerUploadThumbnail cfg req o (boot fs b d));
  intros ? [];
  try match goal with
      | H : Thumbnail.refusal _ _ _ _ _ _ _ _ |- _ => destruct H
      end;
  cbv beta delta [Thumbnail.Stored.script world];
  cbn [fst snd files bucket db trace events map take app].

Ltac exits_inline cfg req o fs b d :=
  unfold Thumbnail.Inline.run;
  generalize (inline_exits cfg req o fs b d);
  generalize (Thumbnail.Inline.handlerUploadThumbnail cfg req o (boot fs b d));
  intros ? [];
  try match goal with
      | H : Thumbnail.refusal _ _ _ _ _ _ _ _ |- _ => destruct H
      end;
  cbv beta delta [Thumbnail.Inline.script world];
  cbn [fst snd files bucket db trace events map take app].

Ltac agree_thumbnail :=
  open_thumbnail;
  repeat match goal with
         | H : _ ∨ _ |- _ => destruct H
         | H : _ ∧ _ |- _ => destruct H
         | H : ∃ _, _ |- _ => destruct H
         | H1 : ?t = ?x, H2 : ?t = ?y |- _ =>
             rewrite H1 in H2; inversion H2; subst;
             repeat match goal with E : ?a = ?a |- _ => clear E end
         | H : ∀ thumbnail, ThumbFile ?f ≠ ThumbFile thumbnail |- _ =>
             destruct (H f eq_refl)
         | H : ?x ≠ ?x |- _ => destruct (H eq_refl)
         | H : ¬ (_ ∨ _) |- _ => apply Decidable.not_or in H
         end.

(** X19: the revision that keeps the image under the assets root
    starts writing the file before it looks the record up.  For an
    identified caller who sends a JPEG or PNG within the size limit,
    the write to [<assetsRoot>/<videoId>.<ext>] is started even when
    the record does not exist (the run then throws [NotFoundError]) or
    belongs to someone else (it throws [UserForbiddenError]); the
    record store is not touched. *)
Theorem thumbnail_write_precedes_the_ownership_check
    (cfg : Config) req o fs b d videoId callerID thumbnail :
  Thumbnail.received cfg req o videoId callerID thumbnail →
  Thumbnail.Stored.is_image thumbnail →
  let path :=
    path_join (assetsRoot cfg)
      (videoId +:+ "." +:+ subtype (image_type thumbnail)) in
  (d !! videoId = None →
   fst (Thumbnail.Stored.run cfg req o fs b d)
   = Throw (NotFoundError "Video not found.") ∧
   events (snd (Thumbnail.Stored.run cfg req o fs b d))
   = [EFormData; EWrite path; EGetVideo videoId] ∧
   db (snd (Thumbnail.Stored.run cfg req o fs b d)) = d) ∧
  (∀ v, d !! videoId = Some v → userID v ≠ callerID →
   fst (Thumbnail.Stored.run cfg req o fs b d)
   = Throw (UserForbiddenError "Forbidden.") ∧
   events (snd (Thumbnail.Stored.run cfg req o fs b d))
   = [EFormData; EWrite path; EGetVideo videoId] ∧
   db (snd (Thumbnail.Stored.run cfg req o fs b d)) = d).
Proof.
  intros Hrec Himg path. subst path. split; [intros Hv | intros v Hv Hown].
  all: exits_stored cfg req o fs b d; agree_thumbnail; try clash.
  all: repeat split; reflexivity.
Qed.

Lemma thumbnail_write_precedes_the_ownership_check_witness :
  Thumbnail.received Sample.cfg (Sample.thumbnail "mallory" 2048 "image/png")
    Example.fine "v1" "mallory" (Sample.image 2048 "image/png") ∧
  events (snd (Thumbnail.Stored.run Sample.cfg
                 (Sample.thumbnail "mallory" 2048 "image/png") Example.fine
                 ∅ ∅ Example.store))
  = [EFormData; EWrite "assets/v1.png"; EGetVideo "v1"].
Proof.
  assert (Hrec : Thumbnail.received Sample.cfg
                   (Sample.thumbnail "mallory" 2048 "image/png")
                   Example.fine "v1" "mallory" (Sample.image 2048 "image/png")).
  { split; [|split; [reflexivity | by vm_compute]].
    split; [reflexivity|]. split; [discriminate|]. by exists "mallory". }
  split; [exact Hrec|].
  destruct (thumbnail_write_precedes_the_ownership_check Sample.cfg
              (Sample.thumbnail "mallory" 2048 "image/png") Example.fine
              ∅ ∅ Example.store "v1" "mallory" (Sample.image 2048 "image/png")
              Hrec (or_intror eq_refl))
    as [_ Hother].
  destruct (Hother Example.record eq_refl ltac:(discriminate)) as (_ & Hev & _).
  exact Hev.
Defined.

(** X20: the checks of that revision on an image sent by an identified
    caller: the limit is [10 << 20] = 10485760 bytes and the size check
    is strict; the run throws "Thumbnail file size is too big." exactly
    when the size is larger, and "Bad File Type." exactly when the size
    is within the limit and the declared type is neither [image/jpeg]
    nor [image/png]; in both cases only the form has been read: no
    write is started and no record looked up. *)
Theorem thumbnail_checks
    (cfg : Config) req o fs b d videoId callerID thumbnail :
  Thumbnail.identified cfg req o videoId callerID →
  form_thumbnail req = Ok (ThumbFile thumbnail) →
  Thumbnail.MAX_UPLOAD_SIZE = 10485760 ∧
  (fst (Thumbnail.Stored.run cfg req o fs b d)
   = Throw (BadRequestError "Thumbnail file size is too big.") ↔
   10485760 < image_size thumbnail) ∧
  (fst (Thumbnail.Stored.run cfg req o fs b d)
   = Throw (BadRequestError "Bad File Type.") ↔
   image_size thumbnail ≤ 10485760 ∧
   image_type thumbnail ≠ "image/jpeg" ∧ image_type thumbnail ≠ "image/png") ∧
  (10485760 < image_size thumbnail ∨
   (image_type thumbnail ≠ "image/jpeg" ∧ image_type thumbnail ≠ "image/png") →
   events (snd (Thumbnail.Stored.run cfg req o fs b d)) = [EFormData] ∧
   db (snd (Thumbnail.Stored.run cfg req o fs b d)) = d).
Proof.
  intros Hid Hform.
  assert (Hmax : Thumbnail.MAX_UPLOAD_SIZE = 10485760) by reflexivity.
  split; [exact Hmax|].
  exits_stored cfg req o fs b d; agree_thumbnail; try clash.
  all: rewrite ?Hmax in *.
  all: split; [split; [try discriminate; intros _; lia
                      | try reflexivity; intros; exfalso; lia]|].
  all: split; [split; [first [discriminate | intros _; by auto]
                      | first [reflexivity
                              | intros (? & ? & ?); exfalso; by auto
                              | intros (? & ? & ?); exfalso; lia]]|].
  all: intros [?|[? ?]]; first [by split | exfalso; lia | exfalso; by auto].
Qed.

Lemma thumbnail_checks_witness :
  Thumbnail.identified Sample.cfg (Sample.thumbnail "alice" 10485761 "image/png")
    Example.fine "v1" "alice" ∧
  fst (Thumbnail.Stored.run Sample.cfg
         (Sample.thumbnail "alice" 10485761 "image/png") Example.fine
         ∅ ∅ Example.store)
  = Throw (BadRequestError "Thumbnail file size is too big.").
Proof.
  assert (Hid : Thumbnail.identified Sample.cfg
                  (Sample.thumbnail "alice" 10485761 "image/png")
                  Example.fine "v1" "alice").
  { split; [reflexivity|]. split; [discriminate|]. by exists "alice". }
  split; [exact Hid|].
  destruct (thumbnail_checks Sample.cfg
              (Sample.thumbnail "alice" 10485761 "image/png") Example.fine
              ∅ ∅ Example.store "v1" "alice" (Sample.image 10485761 "image/png")
              Hid eq_refl)
    as (_ & Hbig & _).
  apply Hbig. reflexivity.
Defined.

(** X21: a successful run of that revision answers 200 with the stored
    record: the fetched record of the caller with only its thumbnail URL
    replaced, by [http://localhost:<port>/assets/<videoId>.<ext>] where
    [ext] is [jpeg] or [png] after the declared type; the file the URL
    names is the one whose write was started, and the effects are the
    form read, that write, the lookup and the update, in this order. *)
Theorem stored_thumbnail_success (cfg : Config) req o fs b d resp :
  fst (Thumbnail.Stored.run cfg req o fs b d) = Ok resp →
  ∃ videoId thumbnail v ext,
    d !! videoId = Some v ∧
    Thumbnail.received cfg req o videoId (userID v) thumbnail ∧
    ((image_type thumbnail = "image/jpeg" ∧ ext = "jpeg") ∨
     (image_type thumbnail = "image/png" ∧ ext = "png")) ∧
    status resp = 200 ∧
    body resp
    = set_thumbnailURL
        ("http://localhost:" +:+ port cfg +:+ "/assets/" +:+ videoId +:+ "." +:+ ext)
        v ∧
    db (snd (Thumbnail.Stored.run cfg req o fs b d)) = <[id v := body resp]> d ∧
    events (snd (Thumbnail.Stored.run cfg req o fs b d))
    = [EFormData;
       EWrite (path_join (assetsRoot cfg) (videoId +:+ "." +:+ ext));
       EGetVideo videoId; EUpdateVideo (body resp)].
Proof.
  exits_stored cfg req o fs b d; intros Hok; try discriminate Hok.
  injection Hok as <-.
  match goal with H : Thumbnail.Stored.is_image _ |- _ => destruct H as [Ht|Ht] end.
  - exists videoId, thumbnail, v, "jpeg".
    unfold Thumbnail.Stored.committed, Thumbnail.Stored.filePath,
      Thumbnail.Stored.fileName.
    rewrite Ht. change (subtype "image/jpeg") with "jpeg".
    split; [assumption|]. split; [assumption|]. split; [by left|].
    repeat split.
  - exists videoId, thumbnail, v, "png".
    unfold Thumbnail.Stored.committed, Thumbnail.Stored.filePath,
      Thumbnail.Stored.fileName.
    rewrite Ht. change (subtype "image/png") with "png".
    split; [assumption|]. split; [assumption|]. split; [by right|].
    repeat split.
Qed.

Lemma stored_thumbnail_success_witness :
  ∃ resp,
    fst (Thumbnail.Stored.run Sample.cfg Sample.png Example.fine ∅ ∅
           Example.store) = Ok resp ∧
    thumbnailURL resp.(body) = Some "http://localhost:8091/assets/v1.png".
Proof.
  eexists. split; [vm_compute; reflexivity|].
  destruct (stored_thumbnail_success Sample.cfg Sample.png Example.fine ∅ ∅
              Example.store _ eq_refl)
    as (videoId & thumbnail & v & ext & _ & _ & _ & _ & Hbody & _).
  reflexivity.
Defined.


(** X23: the ownership check of that revision for an identified caller
    with an image within the size limit: a missing record is reported
    as [BadRequestError] "Video not found." (not as [NotFoundError]),
    a record owned by someone else as [UserForbiddenError]; in both
    cases the form and the record have been read and nothing is
    updated. *)
Theorem inline_thumbnail_ownership_check
    (cfg : Config) req o fs b d videoId callerID thumbnail :
  Thumbnail.received cfg req o videoId callerID thumbnail →
  (d !! videoId = None →
   fst (Thumbnail.Inline.run cfg req o fs b d)
   = Throw (BadRequestError "Video not found.") ∧
   events (snd (Thumbnail.Inline.run cfg req o fs b d))
   = [EFormData; EGetVideo videoId] ∧
   db (snd (Thumbnail.Inline.run cfg req o fs b d)) = d) ∧
  (∀ v, d !! videoId = Some v → userID v ≠ callerID →
   fst (Thumbnail.Inline.run cfg req o fs b d)
   = Throw (UserForbiddenError "Forbidden.") ∧
   events (snd (Thumbnail.Inline.run cfg req o fs b d))
   = [EFormData; EGetVideo videoId] ∧
   db (snd (Thumbnail.Inline.run cfg req o fs b d)) = d).
Proof.
  intros Hrec. split; [intros Hv | intros v Hv Hown].
  all: exits_inline cfg req o fs b d; agree_thumbnail; try clash.
  all: repeat split; reflexivity.
Qed.

Lemma inline_thumbnail_ownership_check_witness :
  Thumbnail.received Sample.cfg Sample.png Example.fine "v1" "alice"
    (Sample.image 2048 "image/png") ∧
  fst (Thumbnail.Inline.run Sample.cfg Sample.png Example.fine ∅ ∅ ∅)
  = Throw (BadRequestError "Video not found.").
Proof.
  assert (Hrec : Thumbnail.received Sample.cfg Sample.png Example.fine "v1"
                   "alice" (Sample.image 2048 "image/png")).
  { split; [|split; [reflexivity | by vm_compute]].
    split; [reflexivity|]. split; [discriminate|]. by exists "alice". }
  split; [exact Hrec|].
  destruct (inline_thumbnail_ownership_check Sample.cfg Sample.png Example.fine
              ∅ ∅ ∅ "v1" "alice" (Sample.image 2048 "image/png") Hrec)
    as [Hnone _].
  destruct (Hnone eq_refl) as (Hrun & _). exact Hrun.
Defined.




(** ** The data URL *)

Section Digits.
Variable enc : N → ascii.
Hypothesis enc_inj :
  ∀ n m, (n < 64)%N → (m < 64)%N → enc n = enc m → n = m.

Lemma digits_inj_for (n n' : N) :
  (n < 16777216)%N → (n' < 16777216)%N →
  enc (n / 262144) = enc (n' / 262144) →
  enc (n / 4096 mod 64) = enc (n' / 4096 mod 64) →
  enc (n / 64 mod 64) = enc (n' / 64 mod 64) →
  enc (n mod 64) = enc (n' mod 64) →
  n = n'.
Proof.
  intros Hn Hn' H1 H2 H3 H4.
  apply enc_inj in H1;
    [|apply N.Div0.div_lt_upper_bound; lia|apply N.Div0.div_lt_upper_bound; lia].
  apply enc_inj in H2; [|apply N.mod_lt; lia|apply N.mod_lt; lia].
  apply enc_inj in H3; [|apply N.mod_lt; lia|apply N.mod_lt; lia].
  apply enc_inj in H4; [|apply N.mod_lt; lia|apply N.mod_lt; lia].
  change 262144%N with (4096 * 64)%N in H1. rewrite <- !N.Div0.div_div in H1 by lia.
  change 4096%N with (64 * 64)%N in H1, H2. rewrite <- !N.Div0.div_div in H1, H2 by lia.
  apply (div_mod_eq n n' 64); [lia| |exact H4].
  apply (div_mod_eq _ _ 64); [lia| |exact H3].
  apply (div_mod_eq _ _ 64); [lia|exact H1|exact H2].
Qed.

Lemma three_bytes_for (a b c a' b' c' : byte) :
  let n := (Byte.to_N a * 65536 + Byte.to_N b * 256 + Byte.to_N c)%N in
  let n' := (Byte.to_N a' * 65536 + Byte.to_N b' * 256 + Byte.to_N c')%N in
  enc (n / 262144) = enc (n' / 262144) →
  enc (n / 4096 mod 64) = enc (n' / 4096 mod 64) →
  enc (n / 64 mod 64) = enc (n' / 64 mod 64) →
  enc (n mod 64) = enc (n' mod 64) →
  a = a' ∧ b = b' ∧ c = c'.
Proof.
  intros n n' H1 H2 H3 H4.
  pose proof (Byte.to_N_bounded a). pose proof (Byte.to_N_bounded b).
  pose proof (Byte.to_N_bounded c). pose proof (Byte.to_N_bounded a').
  pose proof (Byte.to_N_bounded b'). pose proof (Byte.to_N_bounded c').
  assert (Hn : n = n') by (apply digits_inj_for; subst n n'; try lia; assumption).
  subst n n'. repeat split; apply byte_to_N_inj; lia.
Qed.

Lemma two_bytes_for (a b a' b' : byte) :
  let n := ((Byte.to_N a * 256 + Byte.to_N b) * 4)%N in
  let n' := ((Byte.to_N a' * 256 + Byte.to_N b') * 4)%N in
  enc (n / 4096) = enc (n' / 4096) →
  enc (n / 64 mod 64) = enc (n' / 64 mod 64) →
  enc (n mod 64) = enc (n' mod 64) →
  a = a' ∧ b = b'.
Proof.
  intros n n' H1 H2 H3.
  pose proof (Byte.to_N_bounded a). pose proof (Byte.to_N_bounded b).
  pose proof (Byte.to_N_bounded a'). pose proof (Byte.to_N_bounded b').
  assert (Hlt : (n < 262144)%N ∧ (n' < 262144)%N) by (subst n n'; lia).
  destruct Hlt as [Hlt Hlt'].
  assert (Hn : n = n').
  { apply digits_inj_for; try lia; try assumption.
    - rewrite !N.div_small by lia. reflexivity.
    - rewrite !(N.mod_small (_ / 4096)) by (apply N.Div0.div_lt_upper_bound; lia).
      exact H1. }
  subst n n'. repeat split; apply byte_to_N_inj; lia.
Qed.

Lemma one_byte_for (a a' : byte) :
  let n := (Byte.to_N a * 16)%N in
  let n' := (Byte.to_N a' * 16)%N in
  enc (n / 64) = enc (n' / 64) →
  enc (n mod 64) = enc (n' mod 64) →
  a = a'.
Proof.
  intros n n' H1 H2.
  pose proof (Byte.to_N_bounded a). pose proof (Byte.to_N_bounded a').
  assert (Hlt : (n < 4096)%N ∧ (n' < 4096)%N) by (subst n n'; lia).
  destruct Hlt as [Hlt Hlt'].
  assert (Hn : n = n').
  { apply digits_inj_for; try lia; try assumption.
    - rewrite !N.div_small by lia. reflexivity.
    - rewrite !(N.div_small _ 4096) by lia. reflexivity.
    - rewrite !(N.mod_small (_ / 64)) by (apply N.Div0.div_lt_upper_bound; lia).
      exact H1. }
  subst n n'. apply byte_to_N_inj; lia.
Qed.

End Digits.

Lemma base64_unsextet_sextet (n : N) :
  (n < 64)%N → Base64.unsextet (Base64.sextet n) = n.
Proof.
  intros Hn.
  assert (Hall : forallb (λ k, N.eqb (Base64.unsextet (Base64.sextet (N.of_nat k)))
                                (N.of_nat k)) (seq 0 64) = true)
    by (vm_compute; reflexivity).
  rewrite forallb_forall in Hall.
  specialize (Hall (N.to_nat n)). rewrite N2Nat.id in Hall.
  apply N.eqb_eq, Hall, in_seq. lia.
Qed.

Lemma base64_sextet_inj (n m : N) :
  (n < 64)%N → (m < 64)%N → Base64.sextet n = Base64.sextet m → n = m.
Proof.
  intros Hn Hm Heq. apply (f_equal Base64.unsextet) in Heq.
  now rewrite !base64_unsextet_sextet in Heq.
Qed.

(** The padding character is not a digit. *)
Lemma base64_sextet_not_pad (n : N) : Base64.sextet n ≠ "="%char.
Proof.
  intros Heq. destruct (N.lt_ge_cases n 64) as [Hlt|Hge].
  - apply (f_equal Base64.unsextet) in Heq.
    rewrite base64_unsextet_sextet in Heq by exact Hlt.
    change (Base64.unsextet "=") with 64%N in Heq. lia.
  - unfold Base64.sextet in Heq. rewrite nth_overflow in Heq; [discriminate|].
    change (List.length (list_ascii_of_string Base64.alphabet)) with 64%nat. lia.
Qed.

Lemma base64_inj (bs bs' : list byte) :
  Base64.base64 bs = Base64.base64 bs' → bs = bs'.
Proof.
  revert bs'.
  induction bs as [|a|a b|a b c l IH] using list_ind3; intros bs' Heq.
  - by destruct bs' as [|a' [|b' [|c' l']]].
  - destruct bs' as [|a' [|b' [|c' l']]]; try discriminate Heq;
      cbn [Base64.base64] in Heq.
    + injection Heq as H1 H2. f_equal.
      by apply (one_byte_for _ base64_sextet_inj).
    + injection Heq as _ _ H3. symmetry in H3.
      by apply base64_sextet_not_pad in H3.
    + injection Heq as _ _ H3 _. symmetry in H3.
      by apply base64_sextet_not_pad in H3.
  - destruct bs' as [|a' [|b' [|c' l']]]; try discriminate Heq;
      cbn [Base64.base64] in Heq.
    + injection Heq as _ _ H3. by apply base64_sextet_not_pad in H3.
    + injection Heq as H1 H2 H3.
      by destruct (two_bytes_for _ base64_sextet_inj a b a' b' H1 H2 H3)
        as [-> ->].
    + injection Heq as _ _ _ H4 _. symmetry in H4.
      by apply base64_sextet_not_pad in H4.
  - destruct bs' as [|a' [|b' [|c' l']]]; try discriminate Heq;
      cbn [Base64.base64] in Heq.
    + injection Heq as _ _ H3 _. by apply base64_sextet_not_pad in H3.
    + injection Heq as _ _ _ H4 _. by apply base64_sextet_not_pad in H4.
    + injection Heq as H1 H2 H3 H4 Hrest.
      destruct (three_bytes_for _ base64_sextet_inj a b c a' b' c' H1 H2 H3 H4)
        as (-> & -> & ->).
      by rewrite (IH l' Hrest).
Qed.

Lemma base64_length (bs : list byte) :
  String.length (Base64.base64 bs) = (4 * ((List.length bs + 2) / 3))%nat.
Proof.
  induction bs as [|a|a b|a b c l IH] using list_ind3; try reflexivity.
  cbn [Base64.base64 String.length List.length]. rewrite IH.
  replace (S (S (S (List.length l))) + 2)%nat
    with ((List.length l + 2) + 1 * 3)%nat by lia.
  rewrite Nat.div_add by lia. lia.
Qed.

(** X25: the data URL carries the image whole: two images of the same
    declared type get the same URL only if they have the same bytes, and
    the URL is longer than the bytes by a third (rounded up to whole
    groups of four characters) plus the 13 characters around the type
    and the type itself. *)
Theorem data_url_determines_the_image (thumbnail thumbnail' : Image) :
  (image_type thumbnail = image_type thumbnail' →
   Thumbnail.Inline.thumbnailDataUrl thumbnail
   = Thumbnail.Inline.thumbnailDataUrl thumbnail' →
   image_bytes thumbnail = image_bytes thumbnail') ∧
  String.length (Thumbnail.Inline.thumbnailDataUrl thumbnail)
  = (13 + String.length (image_type thumbnail) +
     4 * ((List.length (image_bytes thumbnail) + 2) / 3))%nat.
Proof.
  unfold Thumbnail.Inline.thumbnailDataUrl. split.
  - intros Htype Heq. rewrite Htype in Heq.
    apply append_inj_same_length in Heq as [_ Heq]; [|reflexivity].
    apply append_inj_same_length in Heq as [_ Heq]; [|reflexivity].
    apply append_inj_same_length in Heq as [_ Heq]; [|reflexivity].
    by apply base64_inj.
  - rewrite !length_append, base64_length.
    change (String.length "data:") with 5%nat.
    change (String.length ";base64,") with 8%nat. lia.
Qed.

(** ** All handlers *)

(** X26: in a store where every record sits under its own id, both
    thumbnail handlers leave a store of the same kind with the same set
    of ids. *)
Theorem thumbnail_handlers_keep_the_store_well_keyed
    (cfg : Config) req o fs b d :
  well_keyed d →
  (well_keyed (db (snd (Thumbnail.Stored.run cfg req o fs b d))) ∧
   dom (db (snd (Thumbnail.Stored.run cfg req o fs b d)))
   = (dom d : gset string)) ∧
  (well_keyed (db (snd (Thumbnail.Inline.run cfg req o fs b d))) ∧
   dom (db (snd (Thumbnail.Inline.run cfg req o fs b d)))
   = (dom d : gset string)).
Proof.
  intros Hd. split.
  - exits_stored cfg req o fs b d; try (by split).
    by eapply insert_keeps_well_keyed.
  - exits_inline cfg req o fs b d; try (by split).
    by eapply insert_keeps_well_keyed.
Qed.

Lemma thumbnail_handlers_keep_the_store_well_keyed_witness :
  well_keyed Example.store ∧
  dom (db (snd (Thumbnail.Inline.run Sample.cfg Sample.png Example.fine ∅ ∅
                  Example.store)))
  = ({["v1"]} : gset string).
Proof.
  split; [exact example_store_well_keyed|].
  destruct (thumbnail_handlers_keep_the_store_well_keyed Sample.cfg Sample.png
              Example.fine ∅ ∅ Example.store example_store_well_keyed)
    as [_ [_ Hdom]].
  rewrite Hdom. unfold Example.store. by rewrite dom_singleton_L.
Defined.

(** X27: each of the five handlers turns a request without a video id,
    or with an empty one, down with [BadRequestError] "Invalid video
    ID" before it does anything else: the caller is not authenticated,
    the form is not read and the store is left exactly as it was. *)
Theorem missing_id_is_rejected_first
    (cfg : Config) (req : BunRequest) (treq : ThumbnailRequest)
    (o : Oracle) (w : World) :
  params_videoId req = None ∨ params_videoId req = Some "" →
  thumb_videoId treq = None ∨ thumb_videoId treq = Some "" →
  handlerUploadVideo cfg req o w
  = (Throw (BadRequestError "Invalid video ID"), w) ∧
  Earlier.Probed.handlerUploadVideo cfg req o w
  = (Throw (BadRequestError "Invalid video ID"), w) ∧
  Earlier.Direct.handlerUploadVideo cfg req o w
  = (Throw (BadRequestError "Invalid video ID"), w) ∧
  Thumbnail.Stored.handlerUploadThumbnail cfg treq o w
  = (Throw (BadRequestError "Invalid video ID"), w) ∧
  Thumbnail.Inline.handlerUploadThumbnail cfg treq o w
  = (Throw (BadRequestError "Invalid video ID"), w).
Proof.
  unfold handlerUploadVideo, Earlier.Probed.handlerUploadVideo,
    Earlier.Direct.handlerUploadVideo, Thumbnail.Stored.handlerUploadThumbnail,
    Thumbnail.Inline.handlerUploadThumbnail.
  intros [-> | ->] [-> | ->]; repeat split; reflexivity.
Qed.

Lemma missing_id_is_rejected_first_witness :
  handlerUploadVideo Sample.cfg
    {| params_videoId := Some ""; bearer := Throw (OtherError "Unauthorized" "");
       form_video := Ok FormNull |} Example.fine (boot ∅ ∅ Example.store)
  = (Throw (BadRequestError "Invalid video ID"), boot ∅ ∅ Example.store).
Proof.
  apply (missing_id_is_rejected_first Sample.cfg
           {| params_videoId := Some "";
              bearer := Throw (OtherError "Unauthorized" "");
              form_video := Ok FormNull |}
           {| thumb_videoId := None;
              thumb_bearer := Throw (OtherError "Unauthorized" "");
              form_thumbnail := Ok ThumbNull |}
           Example.fine (boot ∅ ∅ Example.store)).
  - right. reflexivity.
  - left. reflexivity.
Defined.
